(** * Terraform provider for Permit.io: lifecycle controllers and provider root

    A shallow embedding of the Go sources under [internal/provider]:
    the provider's [Configure], and the Create / Read / Update / Delete /
    ImportState methods of the six resources.  The Terraform plugin
    framework and the Permit SDK are collaborators: their values
    ([types.String], [types.Set], diagnostics, state) and the calls made on
    the SDK client are modelled only as far as the provider code observes
    them. *)

From Stdlib Require Import String Ascii List Bool.
From stdpp Require Import base option strings gmap.
Import ListNotations.

Set Implicit Arguments.
Unset Strict Implicit.

Local Open Scope string_scope.
Local Open Scope list_scope.

(** ** Go's [strings.Split] for a non-empty separator *)

Module strings.

(** [genSplit sep skip cur s]: scan [s] left to right; [cur] is the segment
    being built, [skip] the number of bytes of a separator occurrence that
    are still to be passed over. *)
Fixpoint genSplit (sep : string) (skip : nat) (cur : string) (s : string)
  : list string :=
  match s with
  | EmptyString => [cur]
  | String c s' =>
      match skip with
      | S k => genSplit sep k cur s'
      | O =>
          if String.prefix sep s
          then cur :: genSplit sep (String.length sep - 1) "" s'
          else genSplit sep 0 (cur ++ String c "") s'
      end
  end.

(** [strings.Split(s, sep)], for [sep] not empty (the provider only ever
    passes ["/"]). *)
Definition Split (s sep : string) : list string := genSplit sep 0 "" s.

(** Number of occurrences of the byte [c] in [s]. *)
Fixpoint Count (s : string) (c : ascii) : nat :=
  match s with
  | EmptyString => 0
  | String d s' => (if Ascii.eqb d c then 1 else 0) + Count s' c
  end.

End strings.

(** ** Terraform plugin framework values *)

Module types.

(** [types.String]: null, unknown or a known Go string. *)
Inductive String := StringNull | StringUnknown | StringValue (s : string).

Definition IsNull (v : String) : bool :=
  match v with StringNull => true | _ => false end.

Definition IsUnknown (v : String) : bool :=
  match v with StringUnknown => true | _ => false end.

(** [ValueString] is the empty string for null and unknown values. *)
Definition ValueString (v : String) : string :=
  match v with StringValue s => s | _ => "" end.

(** [types.Set] with string elements.  The zero value of the Go struct is
    the null set. *)
Inductive Set_ := SetNull | SetUnknown | SetValue (elems : list string).

(** [types.SetValueFrom(ctx, types.StringType, xs)] for a Go slice [xs]
    ([None] is the nil slice), diagnostics dropped. *)
Definition SetValueFrom (xs : option (list string)) : Set_ :=
  match xs with None => SetNull | Some l => SetValue l end.

End types.

(** ** Diagnostics *)

Module diag.

Inductive Severity := SeverityError | SeverityWarning.

Record Diagnostic := {
  Severity_ : Severity;
  Path : option string;     (* attribute path, for AddAttributeError *)
  Summary : string;
  Detail : string
}.

Definition Diagnostics := list Diagnostic.

Definition Severity_eqb (a b : Severity) : bool :=
  match a, b with
  | SeverityError, SeverityError | SeverityWarning, SeverityWarning => true
  | _, _ => false
  end.

Definition Equal (a b : Diagnostic) : bool :=
  Severity_eqb a.(Severity_) b.(Severity_)
  && match a.(Path), b.(Path) with
     | None, None => true
     | Some p, Some q => String.eqb p q
     | _, _ => false
     end
  && String.eqb a.(Summary) b.(Summary)
  && String.eqb a.(Detail) b.(Detail).

Definition Contains (diags : Diagnostics) (d : Diagnostic) : bool :=
  existsb (Equal d) diags.

(** [Diagnostics.Append]: a diagnostic already present is not added again. *)
Fixpoint Append (diags : Diagnostics) (new : list Diagnostic) : Diagnostics :=
  match new with
  | [] => diags
  | d :: rest =>
      Append (if Contains diags d then diags else diags ++ [d]) rest
  end.

Definition NewErrorDiagnostic (summary detail : string) : Diagnostic :=
  {| Severity_ := SeverityError; Path := None;
     Summary := summary; Detail := detail |}.

Definition NewAttributeErrorDiagnostic (p summary detail : string) : Diagnostic :=
  {| Severity_ := SeverityError; Path := Some p;
     Summary := summary; Detail := detail |}.

Definition AddError (diags : Diagnostics) (summary detail : string) : Diagnostics :=
  Append diags [NewErrorDiagnostic summary detail].

Definition AddAttributeError (diags : Diagnostics) (p summary detail : string)
  : Diagnostics :=
  Append diags [NewAttributeErrorDiagnostic p summary detail].

Definition IsError (d : Diagnostic) : bool :=
  Severity_eqb d.(Severity_) SeverityError.

Definition HasError (diags : Diagnostics) : bool := existsb IsError diags.

End diag.

(** ** The Permit SDK: request and response bodies

    Only the fields the provider reads or sets are kept.  A Go [*string]
    is an [option string], [None] being the nil pointer; a Go slice is an
    [option (list string)], [None] being the nil slice. *)

Module models.

Module ProjectCreate.
Record t := { Key : string; Name : string; Description : option string }.
Definition SetDescription (o : t) (v : string) : t :=
    {| Key := o.(Key); Name := o.(Name); Description := Some v |}.
End ProjectCreate.

Module ProjectUpdate.
Record t := { Name : option string; Description : option string }.
Definition SetName (o : t) (v : string) : t :=
    {| Name := Some v; Description := o.(Description) |}.
Definition SetDescription (o : t) (v : string) : t :=
    {| Name := o.(Name); Description := Some v |}.
End ProjectUpdate.

Module ProjectRead.
Record t := {
    Id : string; OrganizationId : string; Key : string; Name : string;
    Description : option string }.
End ProjectRead.

Module EnvironmentCreate.
Record t := { Key : string; Name : string; Description : option string }.
Definition SetDescription (o : t) (v : string) : t :=
    {| Key := o.(Key); Name := o.(Name); Description := Some v |}.
End EnvironmentCreate.

Module EnvironmentUpdate.
Record t := { Name : option string; Description : option string }.
Definition SetName (o : t) (v : string) : t :=
    {| Name := Some v; Description := o.(Description) |}.
Definition SetDescription (o : t) (v : string) : t :=
    {| Name := o.(Name); Description := Some v |}.
End EnvironmentUpdate.

Module EnvironmentRead.
Record t := {
    Id : string; OrganizationId : string; ProjectId : string;
    Key : string; Name : string; Description : option string }.
End EnvironmentRead.

Module TenantCreate.
Record t := { Key : string; Name : string; Description : option string }.
Definition SetDescription (o : t) (v : string) : t :=
    {| Key := o.(Key); Name := o.(Name); Description := Some v |}.
End TenantCreate.

Module TenantUpdate.
Record t := { Name : option string; Description : option string }.
Definition SetName (o : t) (v : string) : t :=
    {| Name := Some v; Description := o.(Description) |}.
Definition SetDescription (o : t) (v : string) : t :=
    {| Name := o.(Name); Description := Some v |}.
End TenantUpdate.

Module TenantRead.
Record t := {
    Id : string; OrganizationId : string; ProjectId : string;
    EnvironmentId : string; Key : string; Name : string;
    Description : option string }.
  (** The generated getters; [GetDescription] yields the empty string for
      a nil pointer. *)
Definition GetId (o : t) := o.(Id).
Definition GetOrganizationId (o : t) := o.(OrganizationId).
Definition GetProjectId (o : t) := o.(ProjectId).
Definition GetEnvironmentId (o : t) := o.(EnvironmentId).
Definition GetKey (o : t) := o.(Key).
Definition GetName (o : t) := o.(Name).
Definition GetDescription (o : t) : string :=
    match o.(Description) with None => "" | Some d => d end.
End TenantRead.

Inductive ActionBlockEditable := mkActionBlockEditable.

Module ResourceCreate.
Record t := {
    Key : string; Name : string; Description : option string;
    Actions : gmap string ActionBlockEditable }.
Definition SetDescription (o : t) (v : string) : t :=
    {| Key := o.(Key); Name := o.(Name); Description := Some v;
       Actions := o.(Actions) |}.
End ResourceCreate.

Module ResourceUpdate.
Record t := {
    Name : option string; Description : option string;
    Actions : option (gmap string ActionBlockEditable) }.
Definition SetName (o : t) (v : string) : t :=
    {| Name := Some v; Description := o.(Description);
       Actions := o.(Actions) |}.
Definition SetDescription (o : t) (v : string) : t :=
    {| Name := o.(Name); Description := Some v; Actions := o.(Actions) |}.
End ResourceUpdate.

Module ResourceRead.
Record t := {
    Id : string; OrganizationId : string; ProjectId : string;
    EnvironmentId : string; Key : string; Name : string;
    Description : option string }.
End ResourceRead.

Module ResourceActionCreate.
Record t := { Key : string; Name : string; Description : option string }.
Definition SetDescription (o : t) (v : string) : t :=
    {| Key := o.(Key); Name := o.(Name); Description := Some v |}.
End ResourceActionCreate.

Module ResourceActionUpdate.
Record t := { Name : option string; Description : option string }.
Definition SetName (o : t) (v : string) : t :=
    {| Name := Some v; Description := o.(Description) |}.
Definition SetDescription (o : t) (v : string) : t :=
    {| Name := o.(Name); Description := Some v |}.
End ResourceActionUpdate.

Module ResourceActionRead.
Record t := {
    Id : string; OrganizationId : string; ProjectId : string;
    EnvironmentId : string; ResourceId : string; Key : string;
    Name : string; Description : option string }.
End ResourceActionRead.

Module RoleCreate.
Record t := {
    Key : string; Name : string; Description : option string;
    Permissions : option (list string) }.
Definition SetDescription (o : t) (v : string) : t :=
    {| Key := o.(Key); Name := o.(Name); Description := Some v;
       Permissions := o.(Permissions) |}.
Definition SetPermissions (o : t) (v : option (list string)) : t :=
    {| Key := o.(Key); Name := o.(Name); Description := o.(Description);
       Permissions := v |}.
End RoleCreate.

Module RoleUpdate.
Record t := {
    Name : option string; Description : option string;
    Permissions : option (list string) }.
Definition SetName (o : t) (v : string) : t :=
    {| Name := Some v; Description := o.(Description);
       Permissions := o.(Permissions) |}.
Definition SetDescription (o : t) (v : string) : t :=
    {| Name := o.(Name); Description := Some v;
       Permissions := o.(Permissions) |}.
End RoleUpdate.

Module RoleRead.
Record t := {
    Id : string; OrganizationId : string; ProjectId : string;
    EnvironmentId : string; Key : string; Name : string;
    Description : option string; Permissions : option (list string) }.
End RoleRead.

Definition NewProjectCreate (key name : string) : ProjectCreate.t :=
  {| ProjectCreate.Key := key; ProjectCreate.Name := name;
     ProjectCreate.Description := None |}.
Definition NewProjectUpdate : ProjectUpdate.t :=
  {| ProjectUpdate.Name := None; ProjectUpdate.Description := None |}.
Definition NewEnvironmentCreate (key name : string) : EnvironmentCreate.t :=
  {| EnvironmentCreate.Key := key; EnvironmentCreate.Name := name;
     EnvironmentCreate.Description := None |}.
Definition NewEnvironmentUpdate : EnvironmentUpdate.t :=
  {| EnvironmentUpdate.Name := None; EnvironmentUpdate.Description := None |}.
Definition NewTenantCreate (key name : string) : TenantCreate.t :=
  {| TenantCreate.Key := key; TenantCreate.Name := name;
     TenantCreate.Description := None |}.
Definition NewTenantUpdate : TenantUpdate.t :=
  {| TenantUpdate.Name := None; TenantUpdate.Description := None |}.
Definition NewResourceCreate (key name : string)
    (actions : gmap string ActionBlockEditable) : ResourceCreate.t :=
  {| ResourceCreate.Key := key; ResourceCreate.Name := name;
     ResourceCreate.Description := None; ResourceCreate.Actions := actions |}.
Definition NewResourceUpdate : ResourceUpdate.t :=
  {| ResourceUpdate.Name := None; ResourceUpdate.Description := None;
     ResourceUpdate.Actions := None |}.
Definition NewResourceActionCreate (key name : string) : ResourceActionCreate.t :=
  {| ResourceActionCreate.Key := key; ResourceActionCreate.Name := name;
     ResourceActionCreate.Description := None |}.
Definition NewResourceActionUpdate : ResourceActionUpdate.t :=
  {| ResourceActionUpdate.Name := None;
     ResourceActionUpdate.Description := None |}.
Definition NewRoleCreate (key name : string) : RoleCreate.t :=
  {| RoleCreate.Key := key; RoleCreate.Name := name;
     RoleCreate.Description := None; RoleCreate.Permissions := None |}.
Definition NewRoleUpdate : RoleUpdate.t :=
  {| RoleUpdate.Name := None; RoleUpdate.Description := None;
     RoleUpdate.Permissions := None |}.

End models.

(** ** The SDK client

    [r.client.Api] is seen by the provider as a set of remote procedures
    ([Call]), each answering with a body or a Go [error] (kept as its
    [Error()] text), and as one piece of mutable state, the project /
    environment context that [SetContext] rebinds. *)

Module permit.

Inductive Call : Type -> Type :=
| Projects_Create (dto : models.ProjectCreate.t) : Call models.ProjectRead.t
| Projects_Get (key : string) : Call models.ProjectRead.t
| Projects_Update (key : string) (dto : models.ProjectUpdate.t)
    : Call models.ProjectRead.t
| Projects_Delete (key : string) : Call unit
| Environments_Create (dto : models.EnvironmentCreate.t)
    : Call models.EnvironmentRead.t
| Environments_Get (key : string) : Call models.EnvironmentRead.t
| Environments_Update (key : string) (dto : models.EnvironmentUpdate.t)
    : Call models.EnvironmentRead.t
| Environments_Delete (key : string) : Call unit
| Tenants_Create (dto : models.TenantCreate.t) : Call models.TenantRead.t
| Tenants_Get (key : string) : Call models.TenantRead.t
| Tenants_Update (key : string) (dto : models.TenantUpdate.t)
    : Call models.TenantRead.t
| Tenants_Delete (key : string) : Call unit
| Resources_Create (dto : models.ResourceCreate.t) : Call models.ResourceRead.t
| Resources_Get (key : string) : Call models.ResourceRead.t
| Resources_Update (key : string) (dto : models.ResourceUpdate.t)
    : Call models.ResourceRead.t
| Resources_Delete (key : string) : Call unit
| ResourceActions_Create (resourceId : string)
    (dto : models.ResourceActionCreate.t) : Call models.ResourceActionRead.t
| ResourceActions_Get (resourceId key : string)
    : Call models.ResourceActionRead.t
| ResourceActions_Update (resourceId key : string)
    (dto : models.ResourceActionUpdate.t) : Call models.ResourceActionRead.t
| ResourceActions_Delete (resourceId key : string) : Call unit
| Roles_Create (dto : models.RoleCreate.t) : Call models.RoleRead.t
| Roles_Get (key : string) : Call models.RoleRead.t
| Roles_Update (key : string) (dto : models.RoleUpdate.t)
    : Call models.RoleRead.t
| Roles_Delete (key : string) : Call unit.

(** The context bound by [SetContext(ctx, project, environment)]. *)
Record PermitContext := { Project : string; Environment : string }.

(** A Go [(value, error)] pair. *)
Inductive result (A : Type) := Ok (a : A) | Err (err : string).
Arguments Ok {A} a.
Arguments Err {A} err.

(** The remote service: what each call answers under each context. *)
Definition Remote := forall A : Type, PermitContext -> Call A -> result A.

(** A call as it went out: the context it was issued under, and the call. *)
Record Sent := { under : PermitContext; call : sigT Call }.

(** State of the client handle: the bound context and the calls issued so
    far, oldest first. *)
Record Api := { Context : PermitContext; Sent_ : list Sent }.

(** The client built by [permit.New(config.NewConfigBuilder(apiKey).Build())]. *)
Record Client := { ApiKey : string }.

Definition New (apiKey : string) : Client := {| ApiKey := apiKey |}.

End permit.

(** ** Go control flow: state of the client handle, and panics *)

Inductive outcome (A : Type) := Returned (a : A) | Panicked.
Arguments Returned {A} a.
Arguments Panicked {A}.

Definition Go (A : Type) : Type := permit.Api -> outcome A * permit.Api.

Definition ret {A} (a : A) : Go A := fun s => (Returned a, s).

Definition bind {A B} (m : Go A) (k : A -> Go B) : Go B :=
  fun s =>
    match m s with
    | (Returned a, s') => k a s'
    | (Panicked, s') => (Panicked, s')
    end.

Notation "x <- m ;; k" := (bind m (fun x => k))
  (at level 100, m at next level, right associativity).
Notation "m ;;; k" := (bind m (fun _ => k))
  (at level 100, right associativity).

(** [*p] on a Go pointer: a nil pointer dereference panics. *)
Definition deref {A} (p : option A) : Go A :=
  fun s => match p with Some a => (Returned a, s) | None => (Panicked, s) end.

(** [r.client.Api.SetContext(ctx, project, environment)]. *)
Definition SetContext (project environment : string) : Go unit :=
  fun s =>
    (Returned tt,
     {| permit.Context :=
          {| permit.Project := project; permit.Environment := environment |};
        permit.Sent_ := s.(permit.Sent_) |}).

(** Issue a call: it is answered by the remote service under the context
    bound at that moment, and recorded. *)
Definition invoke {A} (remote : permit.Remote) (c : permit.Call A)
  : Go (permit.result A) :=
  fun s =>
    (Returned (remote A s.(permit.Context) c),
     {| permit.Context := s.(permit.Context);
        permit.Sent_ :=
          s.(permit.Sent_)
          ++ [{| permit.under := s.(permit.Context);
                 permit.call := existT A c |}] |}).

(** ** Terraform plan, state and configuration data *)

Module tfsdk.

(** The value of one attribute of the schemas at hand. *)
Inductive Value := StringV (v : types.String) | SetV (v : types.Set_).

Definition conversionError (name : string) : diag.Diagnostic :=
  diag.NewAttributeErrorDiagnostic name "Value Conversion Error"
    "An unexpected error was encountered trying to convert the value.".

(** Reading the attribute [name] into a [types.String] field; an attribute
    that is not there is null. *)
Definition GetString (raw : gmap string Value) (name : string)
  : types.String * diag.Diagnostics :=
  match raw !! name with
  | None => (types.StringNull, [])
  | Some (StringV v) => (v, [])
  | Some (SetV _) => (types.StringNull, [conversionError name])
  end.

Definition GetSet (raw : gmap string Value) (name : string)
  : types.Set_ * diag.Diagnostics :=
  match raw !! name with
  | None => (types.SetNull, [])
  | Some (SetV v) => (v, [])
  | Some (StringV _) => (types.SetNull, [conversionError name])
  end.

(** [Set.ElementsAs(ctx, &target, false)] into a [[]string]: a null set
    gives the nil slice, an unknown one cannot be converted. *)
Definition ElementsAs (v : types.Set_) : option (list string) * diag.Diagnostics :=
  match v with
  | types.SetValue l => (Some l, [])
  | types.SetNull => (None, [])
  | types.SetUnknown => (None, [conversionError "permissions"])
  end.

End tfsdk.

(** ** Provider data

    The Go [any] that travels from the provider's Configure to the
    Configure of each resource and data source: the client pointer, or a
    value of some other dynamic type, kept as the type name [%T] prints. *)

Inductive any := anyClient (c : permit.Client) | anyOther (typeName : string).

(** ** Requests and responses of the resource methods *)

Module resource.

(** [CreateResponse], [ReadResponse], [UpdateResponse], [DeleteResponse] and
    [ImportStateResponse] all carry the state to be kept and the
    diagnostics; the framework hands the method a response whose state is
    the prior state (empty for Create and ImportState). *)
Record Response := {
  State : gmap string tfsdk.Value;
  Diagnostics : diag.Diagnostics
}.

Module CreateRequest.
Record t := { Plan : gmap string tfsdk.Value }.
End CreateRequest.

Module ReadRequest.
Record t := { State : gmap string tfsdk.Value }.
End ReadRequest.

Module UpdateRequest.
Record t := { Plan : gmap string tfsdk.Value; State : gmap string tfsdk.Value }.
End UpdateRequest.

Module DeleteRequest.
Record t := { State : gmap string tfsdk.Value }.
End DeleteRequest.

Module ImportStateRequest.
Record t := { ID : string }.
End ImportStateRequest.

(** [resp.Diagnostics.Append(ds...)] *)
Definition Append (resp : Response) (ds : diag.Diagnostics) : Response :=
  {| State := resp.(State);
     Diagnostics := diag.Append resp.(Diagnostics) ds |}.

(** [resp.Diagnostics.AddError(summary, detail)] *)
Definition AddError (resp : Response) (summary detail : string) : Response :=
  {| State := resp.(State);
     Diagnostics := diag.AddError resp.(Diagnostics) summary detail |}.

(** [resp.Diagnostics.Append(resp.State.Set(ctx, &model)...)]: the whole
    state is replaced by the model's attributes.  The framework is taken to
    store the model as the provider built it and to report nothing. *)
Definition State_Set (resp : Response) (data : gmap string tfsdk.Value) : Response :=
  {| State := data; Diagnostics := resp.(Diagnostics) |}.

(** [resp.Diagnostics.Append(resp.State.SetAttribute(ctx, path.Root(name), v)...)]
    for a Go string [v]. *)
Definition State_SetAttribute (resp : Response) (name v : string) : Response :=
  {| State := <[name := tfsdk.StringV (types.StringValue v)]> resp.(State);
     Diagnostics := resp.(Diagnostics) |}.

(** [resource.ImportStatePassthroughID(ctx, path.Root(name), req, resp)] *)
Definition ImportStatePassthroughID (name : string)
    (req : ImportStateRequest.t) (resp : Response) : Response :=
  State_SetAttribute resp name req.(ImportStateRequest.ID).

(** The response the framework hands to a method. *)
Definition NewResponse (state : gmap string tfsdk.Value) : Response :=
  {| State := state; Diagnostics := [] |}.

Module ConfigureRequest.
Record t := { ProviderData : option any }.
End ConfigureRequest.

Module MetadataRequest.
Record t := { ProviderTypeName : string }.
End MetadataRequest.

End resource.

(** ** Requests and responses of the data source methods *)

Module datasource.

Module ReadRequest.
Record t := { Config : gmap string tfsdk.Value }.
End ReadRequest.

Module ConfigureRequest.
Record t := { ProviderData : option any }.
End ConfigureRequest.

Module MetadataRequest.
Record t := { ProviderTypeName : string }.
End MetadataRequest.

Record ConfigureResponse := { Diagnostics : diag.Diagnostics }.

(** [resp.Diagnostics.AddError(summary, detail)] *)
Definition AddError (resp : ConfigureResponse) (summary detail : string)
  : ConfigureResponse :=
  {| Diagnostics := diag.AddError resp.(Diagnostics) summary detail |}.

(** The response the framework hands to [Configure]. *)
Definition NewConfigureResponse : ConfigureResponse := {| Diagnostics := [] |}.

End datasource.

(** ** The resources

    Each method follows its Go source statement by statement; the [tflog]
    calls, which only write to the log, are left out. *)

Module environmentResource.

(** The environment resource (second file of [internal/provider/provider.go]). *)

Record environmentResourceModel := {
  Id : types.String;
  OrganizationId : types.String;
  ProjectId : types.String;
  Key : types.String;
  Name : types.String;
  Description : types.String
}.

(** [req.Plan.Get(ctx, &model)] / [req.State.Get(ctx, &model)] *)
Definition Get (raw : gmap string tfsdk.Value)
  : environmentResourceModel * diag.Diagnostics :=
  let '(v0, d0) := tfsdk.GetString raw "id" in
  let '(v1, d1) := tfsdk.GetString raw "organization_id" in
  let '(v2, d2) := tfsdk.GetString raw "project_id" in
  let '(v3, d3) := tfsdk.GetString raw "key" in
  let '(v4, d4) := tfsdk.GetString raw "name" in
  let '(v5, d5) := tfsdk.GetString raw "description" in
  ({| Id := v0;
      OrganizationId := v1;
      ProjectId := v2;
      Key := v3;
      Name := v4;
      Description := v5 |},
   d0 ++ d1 ++ d2 ++ d3 ++ d4 ++ d5).

(** The attributes [State.Set(ctx, &model)] writes. *)
Definition ToData (m : environmentResourceModel) : gmap string tfsdk.Value :=
  <["id" := tfsdk.StringV m.(Id)]>
  (<["organization_id" := tfsdk.StringV m.(OrganizationId)]>
  (<["project_id" := tfsdk.StringV m.(ProjectId)]>
  (<["key" := tfsdk.StringV m.(Key)]>
  (<["name" := tfsdk.StringV m.(Name)]>
  (<["description" := tfsdk.StringV m.(Description)]>
  ∅))))).

Definition Create (remote : permit.Remote)
    (req : resource.CreateRequest.t) (resp : resource.Response)
  : Go resource.Response :=
  let '(plan, diags) := Get req.(resource.CreateRequest.Plan) in
  let resp := resource.Append resp diags in
  if diag.HasError resp.(resource.Diagnostics) then ret resp else
  let projectId := types.ValueString plan.(ProjectId) in
  let environmentKey := types.ValueString plan.(Key) in
  let environmentName := types.ValueString plan.(Name) in
  let environmentDescription := types.ValueString plan.(Description) in
  let newEnvironment := models.NewEnvironmentCreate environmentKey environmentName in
  let newEnvironment :=
    if negb (String.eqb environmentDescription "")
    then models.EnvironmentCreate.SetDescription newEnvironment environmentDescription
    else newEnvironment in
  SetContext projectId "" ;;;
  res <- invoke remote (permit.Environments_Create newEnvironment) ;;
  match res with
  | permit.Err err =>
      ret (resource.AddError resp "Unable to create environment" err)
  | permit.Ok environment =>
      description <- deref environment.(models.EnvironmentRead.Description) ;;
      let plan :=
        {| Id := types.StringValue environment.(models.EnvironmentRead.Id);
           OrganizationId := types.StringValue environment.(models.EnvironmentRead.OrganizationId);
           ProjectId := types.StringValue environment.(models.EnvironmentRead.ProjectId);
           Key := types.StringValue environment.(models.EnvironmentRead.Key);
           Name := types.StringValue environment.(models.EnvironmentRead.Name);
           Description := types.StringValue description |} in
      ret (resource.State_Set resp (ToData plan))
  end.

Definition Read (remote : permit.Remote)
    (req : resource.ReadRequest.t) (resp : resource.Response)
  : Go resource.Response :=
  let '(state, diags) := Get req.(resource.ReadRequest.State) in
  let resp := resource.Append resp diags in
  if diag.HasError resp.(resource.Diagnostics) then ret resp else
  let projectId := types.ValueString state.(ProjectId) in
  let environmentKey := types.ValueString state.(Key) in
  SetContext projectId "" ;;;
  res <- invoke remote (permit.Environments_Get environmentKey) ;;
  match res with
  | permit.Err err =>
      ret (resource.AddError resp "Unable to read environment" err)
  | permit.Ok environment =>
      description <- deref environment.(models.EnvironmentRead.Description) ;;
      let state :=
        {| Id := types.StringValue environment.(models.EnvironmentRead.Id);
           OrganizationId := types.StringValue environment.(models.EnvironmentRead.OrganizationId);
           ProjectId := types.StringValue environment.(models.EnvironmentRead.ProjectId);
           Key := types.StringValue environment.(models.EnvironmentRead.Key);
           Name := types.StringValue environment.(models.EnvironmentRead.Name);
           Description := types.StringValue description |} in
      ret (resource.State_Set resp (ToData state))
  end.

Definition Update (remote : permit.Remote)
    (req : resource.UpdateRequest.t) (resp : resource.Response)
  : Go resource.Response :=
  let '(plan, diags) := Get req.(resource.UpdateRequest.Plan) in
  let resp := resource.Append resp diags in
  if diag.HasError resp.(resource.Diagnostics) then ret resp else
  let projectId := types.ValueString plan.(ProjectId) in
  let environmentKey := types.ValueString plan.(Key) in
  let environmentName := types.ValueString plan.(Name) in
  let environmentDescription := types.ValueString plan.(Description) in
  let updateEnvironment := models.NewEnvironmentUpdate in
  let updateEnvironment := models.EnvironmentUpdate.SetName updateEnvironment environmentName in
  let updateEnvironment :=
    if negb (String.eqb environmentDescription "")
    then models.EnvironmentUpdate.SetDescription updateEnvironment environmentDescription
    else updateEnvironment in
  SetContext projectId "" ;;;
  res <- invoke remote (permit.Environments_Update environmentKey updateEnvironment) ;;
  match res with
  | permit.Err err =>
      ret (resource.AddError resp "Unable to update environment" err)
  | permit.Ok environment =>
      description <- deref environment.(models.EnvironmentRead.Description) ;;
      let plan :=
        {| Id := types.StringValue environment.(models.EnvironmentRead.Id);
           OrganizationId := types.StringValue environment.(models.EnvironmentRead.OrganizationId);
           ProjectId := types.StringValue environment.(models.EnvironmentRead.ProjectId);
           Key := types.StringValue environment.(models.EnvironmentRead.Key);
           Name := types.StringValue environment.(models.EnvironmentRead.Name);
           Description := types.StringValue description |} in
      ret (resource.State_Set resp (ToData plan))
  end.

Definition Delete (remote : permit.Remote)
    (req : resource.DeleteRequest.t) (resp : resource.Response)
  : Go resource.Response :=
  let '(state, diags) := Get req.(resource.DeleteRequest.State) in
  let resp := resource.Append resp diags in
  if diag.HasError resp.(resource.Diagnostics) then ret resp else
  let projectId := types.ValueString state.(ProjectId) in
  let environmentKey := types.ValueString state.(Key) in
  SetContext projectId "" ;;;
  res <- invoke remote (permit.Environments_Delete environmentKey) ;;
  match res with
  | permit.Err err =>
      ret (resource.AddError resp "Unable to delete environment" err)
  | permit.Ok _ => ret resp
  end.

Definition ImportState (remote : permit.Remote)
    (req : resource.ImportStateRequest.t) (resp : resource.Response)
  : Go resource.Response :=
  let split := strings.Split req.(resource.ImportStateRequest.ID) "/" in
  if negb (Nat.eqb (length split) 2) then
    ret (resource.AddError resp "Error importing environment"
           "Could not import environment, ID should be an {projectId}/{environmentKey}")
  else
  let projectKey := nth 0 split "" in
  let environmentKey := nth 1 split "" in
  res <- invoke remote (permit.Projects_Get projectKey) ;;
  match res with
  | permit.Err err => ret (resource.AddError resp "Unable to read project" err)
  | permit.Ok project =>
      let resp := resource.State_SetAttribute resp "project_id"
                    project.(models.ProjectRead.Id) in
      let resp := resource.State_SetAttribute resp "key" environmentKey in
      ret resp
  end.

(** [Configure]: the receiver is kept as its one field, [client] ([None]
    is the nil pointer).  Provider data of another type is only logged. *)
Definition Configure (req : resource.ConfigureRequest.t)
    (client : option permit.Client) : option permit.Client :=
  match req.(resource.ConfigureRequest.ProviderData) with
  | None => client
  | Some (anyClient c) => Some c
  | Some (anyOther _) => client
  end.

(** [Metadata]: the type name it sets. *)
Definition Metadata (req : resource.MetadataRequest.t) : string :=
  req.(resource.MetadataRequest.ProviderTypeName) ++ "_environment".

End environmentResource.

Module tenantResource.

(** The tenant resource (first file of [unnamed/part_000]).  Create dereferences [tenant.Description];
    Read and Update go through the nil-safe getters. *)

Record tenantResourceModel := {
  Id : types.String;
  OrganizationId : types.String;
  ProjectId : types.String;
  EnvironmentId : types.String;
  Key : types.String;
  Name : types.String;
  Description : types.String
}.

(** [req.Plan.Get(ctx, &model)] / [req.State.Get(ctx, &model)] *)
Definition Get (raw : gmap string tfsdk.Value)
  : tenantResourceModel * diag.Diagnostics :=
  let '(v0, d0) := tfsdk.GetString raw "id" in
  let '(v1, d1) := tfsdk.GetString raw "organization_id" in
  let '(v2, d2) := tfsdk.GetString raw "project_id" in
  let '(v3, d3) := tfsdk.GetString raw "environment_id" in
  let '(v4, d4) := tfsdk.GetString raw "key" in
  let '(v5, d5) := tfsdk.GetString raw "name" in
  let '(v6, d6) := tfsdk.GetString raw "description" in
  ({| Id := v0;
      OrganizationId := v1;
      ProjectId := v2;
      EnvironmentId := v3;
      Key := v4;
      Name := v5;
      Description := v6 |},
   d0 ++ d1 ++ d2 ++ d3 ++ d4 ++ d5 ++ d6).

(** The attributes [State.Set(ctx, &model)] writes. *)
Definition ToData (m : tenantResourceModel) : gmap string tfsdk.Value :=
  <["id" := tfsdk.StringV m.(Id)]>
  (<["organization_id" := tfsdk.StringV m.(OrganizationId)]>
  (<["project_id" := tfsdk.StringV m.(ProjectId)]>
  (<["environment_id" := tfsdk.StringV m.(EnvironmentId)]>
  (<["key" := tfsdk.StringV m.(Key)]>
  (<["name" := tfsdk.StringV m.(Name)]>
  (<["description" := tfsdk.StringV m.(Description)]>
  ∅)))))).

Definition Create (remote : permit.Remote)
    (req : resource.CreateRequest.t) (resp : resource.Response)
  : Go resource.Response :=
  let '(plan, diags) := Get req.(resource.CreateRequest.Plan) in
  let resp := resource.Append resp diags in
  if diag.HasError resp.(resource.Diagnostics) then ret resp else
  let projectId := types.ValueString plan.(ProjectId) in
  let environmentId := types.ValueString plan.(EnvironmentId) in
  let tenantKey := types.ValueString plan.(Key) in
  let tenantName := types.ValueString plan.(Name) in
  let tenantDescription := types.ValueString plan.(Description) in
  let newTenant := models.NewTenantCreate tenantKey tenantName in
  let newTenant :=
    if negb (String.eqb tenantDescription "")
    then models.TenantCreate.SetDescription newTenant tenantDescription
    else newTenant in
  SetContext projectId environmentId ;;;
  res <- invoke remote (permit.Tenants_Create newTenant) ;;
  match res with
  | permit.Err err =>
      ret (resource.AddError resp "Unable to create tenant" err)
  | permit.Ok tenant =>
      description <- deref tenant.(models.TenantRead.Description) ;;
      let plan :=
        {| Id := types.StringValue tenant.(models.TenantRead.Id);
           OrganizationId := types.StringValue tenant.(models.TenantRead.OrganizationId);
           ProjectId := types.StringValue tenant.(models.TenantRead.ProjectId);
           EnvironmentId := types.StringValue tenant.(models.TenantRead.EnvironmentId);
           Key := types.StringValue tenant.(models.TenantRead.Key);
           Name := types.StringValue tenant.(models.TenantRead.Name);
           Description := types.StringValue description |} in
      ret (resource.State_Set resp (ToData plan))
  end.

Definition Read (remote : permit.Remote)
    (req : resource.ReadRequest.t) (resp : resource.Response)
  : Go resource.Response :=
  let '(state, diags) := Get req.(resource.ReadRequest.State) in
  let resp := resource.Append resp diags in
  if diag.HasError resp.(resource.Diagnostics) then ret resp else
  let projectId := types.ValueString state.(ProjectId) in
  let environmentId := types.ValueString state.(EnvironmentId) in
  let tenantKey := types.ValueString state.(Key) in
  SetContext projectId environmentId ;;;
  res <- invoke remote (permit.Tenants_Get tenantKey) ;;
  match res with
  | permit.Err err =>
      ret (resource.AddError resp "Unable to read tenant" err)
  | permit.Ok tenant =>
      let state :=
        {| Id := types.StringValue (models.TenantRead.GetId tenant);
           OrganizationId := types.StringValue (models.TenantRead.GetOrganizationId tenant);
           ProjectId := types.StringValue (models.TenantRead.GetProjectId tenant);
           EnvironmentId := types.StringValue (models.TenantRead.GetEnvironmentId tenant);
           Key := types.StringValue (models.TenantRead.GetKey tenant);
           Name := types.StringValue (models.TenantRead.GetName tenant);
           Description := types.StringValue (models.TenantRead.GetDescription tenant) |} in
      ret (resource.State_Set resp (ToData state))
  end.

Definition Update (remote : permit.Remote)
    (req : resource.UpdateRequest.t) (resp : resource.Response)
  : Go resource.Response :=
  let '(plan, diags) := Get req.(resource.UpdateRequest.Plan) in
  let resp := resource.Append resp diags in
  if diag.HasError resp.(resource.Diagnostics) then ret resp else
  let projectId := types.ValueString plan.(ProjectId) in
  let environmentId := types.ValueString plan.(EnvironmentId) in
  let tenantKey := types.ValueString plan.(Key) in
  let tenantName := types.ValueString plan.(Name) in
  let tenantDescription := types.ValueString plan.(Description) in
  let updateTenant := models.NewTenantUpdate in
  let updateTenant := models.TenantUpdate.SetName updateTenant tenantName in
  let updateTenant :=
    if negb (String.eqb tenantDescription "")
    then models.TenantUpdate.SetDescription updateTenant tenantDescription
    else updateTenant in
  SetContext projectId environmentId ;;;
  res <- invoke remote (permit.Tenants_Update tenantKey updateTenant) ;;
  match res with
  | permit.Err err =>
      ret (resource.AddError resp "Unable to update tenant" err)
  | permit.Ok tenant =>
      let plan :=
        {| Id := types.StringValue (models.TenantRead.GetId tenant);
           OrganizationId := types.StringValue (models.TenantRead.GetOrganizationId tenant);
           ProjectId := types.StringValue (models.TenantRead.GetProjectId tenant);
           EnvironmentId := types.StringValue (models.TenantRead.GetEnvironmentId tenant);
           Key := types.StringValue (models.TenantRead.GetKey tenant);
           Name := types.StringValue (models.TenantRead.GetName tenant);
           Description := types.StringValue (models.TenantRead.GetDescription tenant) |} in
      ret (resource.State_Set resp (ToData plan))
  end.

Definition Delete (remote : permit.Remote)
    (req : resource.DeleteRequest.t) (resp : resource.Response)
  : Go resource.Response :=
  let '(state, diags) := Get req.(resource.DeleteRequest.State) in
  let resp := resource.Append resp diags in
  if diag.HasError resp.(resource.Diagnostics) then ret resp else
  let projectId := types.ValueString state.(ProjectId) in
  let environmentId := types.ValueString state.(EnvironmentId) in
  let tenantKey := types.ValueString state.(Key) in
  SetContext projectId environmentId ;;;
  res <- invoke remote (permit.Tenants_Delete tenantKey) ;;
  match res with
  | permit.Err err =>
      ret (resource.AddError resp "Unable to delete tenant" err)
  | permit.Ok _ => ret resp
  end.

Definition ImportState (remote : permit.Remote)
    (req : resource.ImportStateRequest.t) (resp : resource.Response)
  : Go resource.Response :=
  let split := strings.Split req.(resource.ImportStateRequest.ID) "/" in
  if negb (Nat.eqb (length split) 3) then
    ret (resource.AddError resp "Error importing tenant"
           "Could not import tenant, ID should be an {project-key}/{environment-key}/{tenant-key}")
  else
  let projectKey := nth 0 split "" in
  let environmentKey := nth 1 split "" in
  let tenantKey := nth 2 split "" in
  res <- invoke remote (permit.Projects_Get projectKey) ;;
  match res with
  | permit.Err err => ret (resource.AddError resp "Unable to read project" err)
  | permit.Ok project =>
      SetContext project.(models.ProjectRead.Id) "" ;;;
      res <- invoke remote (permit.Environments_Get environmentKey) ;;
      match res with
      | permit.Err err =>
          ret (resource.AddError resp "Unable to read environment" err)
      | permit.Ok environment =>
          let resp := resource.State_SetAttribute resp "project_id"
                        project.(models.ProjectRead.Id) in
          let resp := resource.State_SetAttribute resp "environment_id"
                        environment.(models.EnvironmentRead.Id) in
          let resp := resource.State_SetAttribute resp "key" tenantKey in
          ret resp
      end
  end.

(** [Configure]: the receiver is kept as its one field, [client] ([None]
    is the nil pointer).  Provider data of another type is only logged. *)
Definition Configure (req : resource.ConfigureRequest.t)
    (client : option permit.Client) : option permit.Client :=
  match req.(resource.ConfigureRequest.ProviderData) with
  | None => client
  | Some (anyClient c) => Some c
  | Some (anyOther _) => client
  end.

(** [Metadata]: the type name it sets. *)
Definition Metadata (req : resource.MetadataRequest.t) : string :=
  req.(resource.MetadataRequest.ProviderTypeName) ++ "_tenant".

End tenantResource.

Module resourceResource.

(** The resource resource, [internal/provider/resource_resource.go]. *)

Record resourceResourceModel := {
  Id : types.String;
  OrganizationId : types.String;
  ProjectId : types.String;
  EnvironmentId : types.String;
  Key : types.String;
  Name : types.String;
  Description : types.String
}.

(** [req.Plan.Get(ctx, &model)] / [req.State.Get(ctx, &model)] *)
Definition Get (raw : gmap string tfsdk.Value)
  : resourceResourceModel * diag.Diagnostics :=
  let '(v0, d0) := tfsdk.GetString raw "id" in
  let '(v1, d1) := tfsdk.GetString raw "organization_id" in
  let '(v2, d2) := tfsdk.GetString raw "project_id" in
  let '(v3, d3) := tfsdk.GetString raw "environment_id" in
  let '(v4, d4) := tfsdk.GetString raw "key" in
  let '(v5, d5) := tfsdk.GetString raw "name" in
  let '(v6, d6) := tfsdk.GetString raw "description" in
  ({| Id := v0;
      OrganizationId := v1;
      ProjectId := v2;
      EnvironmentId := v3;
      Key := v4;
      Name := v5;
      Description := v6 |},
   d0 ++ d1 ++ d2 ++ d3 ++ d4 ++ d5 ++ d6).

(** The attributes [State.Set(ctx, &model)] writes. *)
Definition ToData (m : resourceResourceModel) : gmap string tfsdk.Value :=
  <["id" := tfsdk.StringV m.(Id)]>
  (<["organization_id" := tfsdk.StringV m.(OrganizationId)]>
  (<["project_id" := tfsdk.StringV m.(ProjectId)]>
  (<["environment_id" := tfsdk.StringV m.(EnvironmentId)]>
  (<["key" := tfsdk.StringV m.(Key)]>
  (<["name" := tfsdk.StringV m.(Name)]>
  (<["description" := tfsdk.StringV m.(Description)]>
  ∅)))))).

Definition Create (remote : permit.Remote)
    (req : resource.CreateRequest.t) (resp : resource.Response)
  : Go resource.Response :=
  let '(plan, diags) := Get req.(resource.CreateRequest.Plan) in
  let resp := resource.Append resp diags in
  if diag.HasError resp.(resource.Diagnostics) then ret resp else
  let projectId := types.ValueString plan.(ProjectId) in
  let environmentId := types.ValueString plan.(EnvironmentId) in
  let resourceKey := types.ValueString plan.(Key) in
  let resourceName := types.ValueString plan.(Name) in
  let resourceDescription := types.ValueString plan.(Description) in
  let resourceActions : gmap string models.ActionBlockEditable := ∅ in
  let newResource := models.NewResourceCreate resourceKey resourceName resourceActions in
  let newResource :=
    if negb (String.eqb resourceDescription "")
    then models.ResourceCreate.SetDescription newResource resourceDescription
    else newResource in
  SetContext projectId environmentId ;;;
  res <- invoke remote (permit.Resources_Create newResource) ;;
  match res with
  | permit.Err err =>
      ret (resource.AddError resp "Unable to create resource" err)
  | permit.Ok permitResource =>
      description <- deref permitResource.(models.ResourceRead.Description) ;;
      let plan :=
        {| Id := types.StringValue permitResource.(models.ResourceRead.Id);
           OrganizationId := types.StringValue permitResource.(models.ResourceRead.OrganizationId);
           ProjectId := types.StringValue permitResource.(models.ResourceRead.ProjectId);
           EnvironmentId := types.StringValue permitResource.(models.ResourceRead.EnvironmentId);
           Key := types.StringValue permitResource.(models.ResourceRead.Key);
           Name := types.StringValue permitResource.(models.ResourceRead.Name);
           Description := types.StringValue description |} in
      ret (resource.State_Set resp (ToData plan))
  end.

Definition Read (remote : permit.Remote)
    (req : resource.ReadRequest.t) (resp : resource.Response)
  : Go resource.Response :=
  let '(state, diags) := Get req.(resource.ReadRequest.State) in
  let resp := resource.Append resp diags in
  if diag.HasError resp.(resource.Diagnostics) then ret resp else
  let projectId := types.ValueString state.(ProjectId) in
  let environmentId := types.ValueString state.(EnvironmentId) in
  let resourceKey := types.ValueString state.(Key) in
  SetContext projectId environmentId ;;;
  res <- invoke remote (permit.Resources_Get resourceKey) ;;
  match res with
  | permit.Err err =>
      ret (resource.AddError resp "Unable to read resource" err)
  | permit.Ok permitResource =>
      description <- deref permitResource.(models.ResourceRead.Description) ;;
      let state :=
        {| Id := types.StringValue permitResource.(models.ResourceRead.Id);
           OrganizationId := types.StringValue permitResource.(models.ResourceRead.OrganizationId);
           ProjectId := types.StringValue permitResource.(models.ResourceRead.ProjectId);
           EnvironmentId := types.StringValue permitResource.(models.ResourceRead.EnvironmentId);
           Key := types.StringValue permitResource.(models.ResourceRead.Key);
           Name := types.StringValue permitResource.(models.ResourceRead.Name);
           Description := types.StringValue description |} in
      ret (resource.State_Set resp (ToData state))
  end.

Definition Update (remote : permit.Remote)
    (req : resource.UpdateRequest.t) (resp : resource.Response)
  : Go resource.Response :=
  let '(plan, diags) := Get req.(resource.UpdateRequest.Plan) in
  let resp := resource.Append resp diags in
  if diag.HasError resp.(resource.Diagnostics) then ret resp else
  let projectId := types.ValueString plan.(ProjectId) in
  let environmentId := types.ValueString plan.(EnvironmentId) in
  let resourceKey := types.ValueString plan.(Key) in
  let resourceName := types.ValueString plan.(Name) in
  let resourceDescription := types.ValueString plan.(Description) in
  let updateResource := models.NewResourceUpdate in
  let updateResource := models.ResourceUpdate.SetName updateResource resourceName in
  let updateResource :=
    if negb (String.eqb resourceDescription "")
    then models.ResourceUpdate.SetDescription updateResource resourceDescription
    else updateResource in
  SetContext projectId environmentId ;;;
  res <- invoke remote (permit.Resources_Update resourceKey updateResource) ;;
  match res with
  | permit.Err err =>
      ret (resource.AddError resp "Unable to update resource" err)
  | permit.Ok permitResource =>
      description <- deref permitResource.(models.ResourceRead.Description) ;;
      let plan :=
        {| Id := types.StringValue permitResource.(models.ResourceRead.Id);
           OrganizationId := types.StringValue permitResource.(models.ResourceRead.OrganizationId);
           ProjectId := types.StringValue permitResource.(models.ResourceRead.ProjectId);
           EnvironmentId := types.StringValue permitResource.(models.ResourceRead.EnvironmentId);
           Key := types.StringValue permitResource.(models.ResourceRead.Key);
           Name := types.StringValue permitResource.(models.ResourceRead.Name);
           Description := types.StringValue description |} in
      ret (resource.State_Set resp (ToData plan))
  end.

Definition Delete (remote : permit.Remote)
    (req : resource.DeleteRequest.t) (resp : resource.Response)
  : Go resource.Response :=
  let '(state, diags) := Get req.(resource.DeleteRequest.State) in
  let resp := resource.Append resp diags in
  if diag.HasError resp.(resource.Diagnostics) then ret resp else
  let projectId := types.ValueString state.(ProjectId) in
  let environmentId := types.ValueString state.(EnvironmentId) in
  let resourceKey := types.ValueString state.(Key) in
  SetContext projectId environmentId ;;;
  res <- invoke remote (permit.Resources_Delete resourceKey) ;;
  match res with
  | permit.Err err =>
      ret (resource.AddError resp "Unable to delete resource" err)
  | permit.Ok _ => ret resp
  end.

Definition ImportState (remote : permit.Remote)
    (req : resource.ImportStateRequest.t) (resp : resource.Response)
  : Go resource.Response :=
  let split := strings.Split req.(resource.ImportStateRequest.ID) "/" in
  if negb (Nat.eqb (length split) 3) then
    ret (resource.AddError resp "Error importing resource"
           "Could not import resource, ID should be an {project-key}/{environment-key}/{resource-key}")
  else
  let projectKey := nth 0 split "" in
  let environmentKey := nth 1 split "" in
  let resourceKey := nth 2 split "" in
  res <- invoke remote (permit.Projects_Get projectKey) ;;
  match res with
  | permit.Err err => ret (resource.AddError resp "Unable to read project" err)
  | permit.Ok project =>
      SetContext project.(models.ProjectRead.Id) "" ;;;
      res <- invoke remote (permit.Environments_Get environmentKey) ;;
      match res with
      | permit.Err err =>
          ret (resource.AddError resp "Unable to read environment" err)
      | permit.Ok environment =>
          let resp := resource.State_SetAttribute resp "project_id"
                        project.(models.ProjectRead.Id) in
          let resp := resource.State_SetAttribute resp "environment_id"
                        environment.(models.EnvironmentRead.Id) in
          let resp := resource.State_SetAttribute resp "key" resourceKey in
          ret resp
      end
  end.

(** [Configure]: the receiver is kept as its one field, [client] ([None]
    is the nil pointer).  Provider data of another type is only logged. *)
Definition Configure (req : resource.ConfigureRequest.t)
    (client : option permit.Client) : option permit.Client :=
  match req.(resource.ConfigureRequest.ProviderData) with
  | None => client
  | Some (anyClient c) => Some c
  | Some (anyOther _) => client
  end.

(** [Metadata]: the type name it sets. *)
Definition Metadata (req : resource.MetadataRequest.t) : string :=
  req.(resource.MetadataRequest.ProviderTypeName) ++ "_resource".

End resourceResource.

Module resourceActionResource.

(** The resource action resource, [unnamed/part_001]. *)

Record resourceActionResourceModel := {
  Id : types.String;
  OrganizationId : types.String;
  ProjectId : types.String;
  EnvironmentId : types.String;
  ResourceId : types.String;
  Key : types.String;
  Name : types.String;
  Description : types.String
}.

(** [req.Plan.Get(ctx, &model)] / [req.State.Get(ctx, &model)] *)
Definition Get (raw : gmap string tfsdk.Value)
  : resourceActionResourceModel * diag.Diagnostics :=
  let '(v0, d0) := tfsdk.GetString raw "id" in
  let '(v1, d1) := tfsdk.GetString raw "organization_id" in
  let '(v2, d2) := tfsdk.GetString raw "project_id" in
  let '(v3, d3) := tfsdk.GetString raw "environment_id" in
  let '(v4, d4) := tfsdk.GetString raw "resource_id" in
  let '(v5, d5) := tfsdk.GetString raw "key" in
  let '(v6, d6) := tfsdk.GetString raw "name" in
  let '(v7, d7) := tfsdk.GetString raw "description" in
  ({| Id := v0;
      OrganizationId := v1;
      ProjectId := v2;
      EnvironmentId := v3;
      ResourceId := v4;
      Key := v5;
      Name := v6;
      Description := v7 |},
   d0 ++ d1 ++ d2 ++ d3 ++ d4 ++ d5 ++ d6 ++ d7).

(** The attributes [State.Set(ctx, &model)] writes. *)
Definition ToData (m : resourceActionResourceModel) : gmap string tfsdk.Value :=
  <["id" := tfsdk.StringV m.(Id)]>
  (<["organization_id" := tfsdk.StringV m.(OrganizationId)]>
  (<["project_id" := tfsdk.StringV m.(ProjectId)]>
  (<["environment_id" := tfsdk.StringV m.(EnvironmentId)]>
  (<["resource_id" := tfsdk.StringV m.(ResourceId)]>
  (<["key" := tfsdk.StringV m.(Key)]>
  (<["name" := tfsdk.StringV m.(Name)]>
  (<["description" := tfsdk.StringV m.(Description)]>
  ∅))))))).

Definition Create (remote : permit.Remote)
    (req : resource.CreateRequest.t) (resp : resource.Response)
  : Go resource.Response :=
  let '(plan, diags) := Get req.(resource.CreateRequest.Plan) in
  let resp := resource.Append resp diags in
  if diag.HasError resp.(resource.Diagnostics) then ret resp else
  let projectId := types.ValueString plan.(ProjectId) in
  let environmentId := types.ValueString plan.(EnvironmentId) in
  let resourceId := types.ValueString plan.(ResourceId) in
  let resourceActionKey := types.ValueString plan.(Key) in
  let resourceActionName := types.ValueString plan.(Name) in
  let resourceActionDescription := types.ValueString plan.(Description) in
  let newResourceAction := models.NewResourceActionCreate resourceActionKey resourceActionName in
  let newResourceAction :=
    if negb (String.eqb resourceActionDescription "")
    then models.ResourceActionCreate.SetDescription newResourceAction resourceActionDescription
    else newResourceAction in
  SetContext projectId environmentId ;;;
  res <- invoke remote (permit.ResourceActions_Create resourceId newResourceAction) ;;
  match res with
  | permit.Err err =>
      ret (resource.AddError resp "Unable to create resource action" err)
  | permit.Ok resourceAction =>
      description <- deref resourceAction.(models.ResourceActionRead.Description) ;;
      let plan :=
        {| Id := types.StringValue resourceAction.(models.ResourceActionRead.Id);
           OrganizationId := types.StringValue resourceAction.(models.ResourceActionRead.OrganizationId);
           ProjectId := types.StringValue resourceAction.(models.ResourceActionRead.ProjectId);
           EnvironmentId := types.StringValue resourceAction.(models.ResourceActionRead.EnvironmentId);
           ResourceId := types.StringValue resourceAction.(models.ResourceActionRead.ResourceId);
           Key := types.StringValue resourceAction.(models.ResourceActionRead.Key);
           Name := types.StringValue resourceAction.(models.ResourceActionRead.Name);
           Description := types.StringValue description |} in
      ret (resource.State_Set resp (ToData plan))
  end.

Definition Read (remote : permit.Remote)
    (req : resource.ReadRequest.t) (resp : resource.Response)
  : Go resource.Response :=
  let '(state, diags) := Get req.(resource.ReadRequest.State) in
  let resp := resource.Append resp diags in
  if diag.HasError resp.(resource.Diagnostics) then ret resp else
  let projectId := types.ValueString state.(ProjectId) in
  let environmentId := types.ValueString state.(EnvironmentId) in
  let resourceId := types.ValueString state.(ResourceId) in
  let resourceActionKey := types.ValueString state.(Key) in
  SetContext projectId environmentId ;;;
  res <- invoke remote (permit.ResourceActions_Get resourceId resourceActionKey) ;;
  match res with
  | permit.Err err =>
      ret (resource.AddError resp "Unable to read resource action" err)
  | permit.Ok resourceAction =>
      description <- deref resourceAction.(models.ResourceActionRead.Description) ;;
      let state :=
        {| Id := types.StringValue resourceAction.(models.ResourceActionRead.Id);
           OrganizationId := types.StringValue resourceAction.(models.ResourceActionRead.OrganizationId);
           ProjectId := types.StringValue resourceAction.(models.ResourceActionRead.ProjectId);
           EnvironmentId := types.StringValue resourceAction.(models.ResourceActionRead.EnvironmentId);
           ResourceId := types.StringValue resourceAction.(models.ResourceActionRead.ResourceId);
           Key := types.StringValue resourceAction.(models.ResourceActionRead.Key);
           Name := types.StringValue resourceAction.(models.ResourceActionRead.Name);
           Description := types.StringValue description |} in
      ret (resource.State_Set resp (ToData state))
  end.

Definition Update (remote : permit.Remote)
    (req : resource.UpdateRequest.t) (resp : resource.Response)
  : Go resource.Response :=
  let '(plan, diags) := Get req.(resource.UpdateRequest.Plan) in
  let resp := resource.Append resp diags in
  if diag.HasError resp.(resource.Diagnostics) then ret resp else
  let projectId := types.ValueString plan.(ProjectId) in
  let environmentId := types.ValueString plan.(EnvironmentId) in
  let resourceId := types.ValueString plan.(ResourceId) in
  let resourceActionKey := types.ValueString plan.(Key) in
  let resourceActionName := types.ValueString plan.(Name) in
  let resourceActionDescription := types.ValueString plan.(Description) in
  let updateResourceAction := models.NewResourceActionUpdate in
  let updateResourceAction := models.ResourceActionUpdate.SetName updateResourceAction resourceActionName in
  let updateResourceAction :=
    if negb (String.eqb resourceActionDescription "")
    then models.ResourceActionUpdate.SetDescription updateResourceAction resourceActionDescription
    else updateResourceAction in
  SetContext projectId environmentId ;;;
  res <- invoke remote (permit.ResourceActions_Update resourceId resourceActionKey updateResourceAction) ;;
  match res with
  | permit.Err err =>
      ret (resource.AddError resp "Unable to update resource action" err)
  | permit.Ok resourceAction =>
      description <- deref resourceAction.(models.ResourceActionRead.Description) ;;
      let plan :=
        {| Id := types.StringValue resourceAction.(models.ResourceActionRead.Id);
           OrganizationId := types.StringValue resourceAction.(models.ResourceActionRead.OrganizationId);
           ProjectId := types.StringValue resourceAction.(models.ResourceActionRead.ProjectId);
           EnvironmentId := types.StringValue resourceAction.(models.ResourceActionRead.EnvironmentId);
           ResourceId := types.StringValue resourceAction.(models.ResourceActionRead.ResourceId);
           Key := types.StringValue resourceAction.(models.ResourceActionRead.Key);
           Name := types.StringValue resourceAction.(models.ResourceActionRead.Name);
           Description := types.StringValue description |} in
      ret (resource.State_Set resp (ToData plan))
  end.

Definition Delete (remote : permit.Remote)
    (req : resource.DeleteRequest.t) (resp : resource.Response)
  : Go resource.Response :=
  let '(state, diags) := Get req.(resource.DeleteRequest.State) in
  let resp := resource.Append resp diags in
  if diag.HasError resp.(resource.Diagnostics) then ret resp else
  let projectId := types.ValueString state.(ProjectId) in
  let environmentId := types.ValueString state.(EnvironmentId) in
  let resourceId := types.ValueString state.(ResourceId) in
  let resourceActionKey := types.ValueString state.(Key) in
  SetContext projectId environmentId ;;;
  res <- invoke remote (permit.ResourceActions_Delete resourceId resourceActionKey) ;;
  match res with
  | permit.Err err =>
      ret (resource.AddError resp "Unable to delete resource action" err)
  | permit.Ok _ => ret resp
  end.

Definition ImportState (remote : permit.Remote)
    (req : resource.ImportStateRequest.t) (resp : resource.Response)
  : Go resource.Response :=
  let split := strings.Split req.(resource.ImportStateRequest.ID) "/" in
  if negb (Nat.eqb (length split) 4) then
    ret (resource.AddError resp "Error importing resource action"
           "Could not import resource action, ID should be an {project-key}/{environment-key}/{resource-key}/{resource-action-key}")
  else
  let projectKey := nth 0 split "" in
  let environmentKey := nth 1 split "" in
  let resourceKey := nth 2 split "" in
  let resourceActionKey := nth 3 split "" in
  res <- invoke remote (permit.Projects_Get projectKey) ;;
  match res with
  | permit.Err err => ret (resource.AddError resp "Unable to read project" err)
  | permit.Ok project =>
      SetContext project.(models.ProjectRead.Id) "" ;;;
      res <- invoke remote (permit.Environments_Get environmentKey) ;;
      match res with
      | permit.Err err =>
          ret (resource.AddError resp "Unable to read environment" err)
      | permit.Ok environment =>
          SetContext project.(models.ProjectRead.Id)
            environment.(models.EnvironmentRead.Id) ;;;
          res <- invoke remote (permit.Resources_Get resourceKey) ;;
          match res with
          | permit.Err err =>
              ret (resource.AddError resp "Unable to read resource" err)
          | permit.Ok permitResource =>
              let resp := resource.State_SetAttribute resp "project_id"
                            project.(models.ProjectRead.Id) in
              let resp := resource.State_SetAttribute resp "environment_id"
                            environment.(models.EnvironmentRead.Id) in
              let resp := resource.State_SetAttribute resp "resource_id"
                            permitResource.(models.ResourceRead.Id) in
              let resp := resource.State_SetAttribute resp "key" resourceActionKey in
              ret resp
          end
      end
  end.

(** [Configure]: the receiver is kept as its one field, [client] ([None]
    is the nil pointer).  Provider data of another type is only logged. *)
Definition Configure (req : resource.ConfigureRequest.t)
    (client : option permit.Client) : option permit.Client :=
  match req.(resource.ConfigureRequest.ProviderData) with
  | None => client
  | Some (anyClient c) => Some c
  | Some (anyOther _) => client
  end.

(** [Metadata]: the type name it sets. *)
Definition Metadata (req : resource.MetadataRequest.t) : string :=
  req.(resource.MetadataRequest.ProviderTypeName) ++ "_resource_action".

End resourceActionResource.

Module roleResource.

(** The role resource, [internal/provider/resource_role.go].  Read and Update build a fresh model without a
    [Permissions] field, which Go zero-initialises to the null set. *)

Record roleResourceModel := {
  Id : types.String;
  OrganizationId : types.String;
  ProjectId : types.String;
  EnvironmentId : types.String;
  Key : types.String;
  Name : types.String;
  Description : types.String;
  Permissions : types.Set_
}.

(** [req.Plan.Get(ctx, &model)] / [req.State.Get(ctx, &model)] *)
Definition Get (raw : gmap string tfsdk.Value)
  : roleResourceModel * diag.Diagnostics :=
  let '(v0, d0) := tfsdk.GetString raw "id" in
  let '(v1, d1) := tfsdk.GetString raw "organization_id" in
  let '(v2, d2) := tfsdk.GetString raw "project_id" in
  let '(v3, d3) := tfsdk.GetString raw "environment_id" in
  let '(v4, d4) := tfsdk.GetString raw "key" in
  let '(v5, d5) := tfsdk.GetString raw "name" in
  let '(v6, d6) := tfsdk.GetString raw "description" in
  let '(v7, d7) := tfsdk.GetSet raw "permissions" in
  ({| Id := v0;
      OrganizationId := v1;
      ProjectId := v2;
      EnvironmentId := v3;
      Key := v4;
      Name := v5;
      Description := v6;
      Permissions := v7 |},
   d0 ++ d1 ++ d2 ++ d3 ++ d4 ++ d5 ++ d6 ++ d7).

(** The attributes [State.Set(ctx, &model)] writes. *)
Definition ToData (m : roleResourceModel) : gmap string tfsdk.Value :=
  <["id" := tfsdk.StringV m.(Id)]>
  (<["organization_id" := tfsdk.StringV m.(OrganizationId)]>
  (<["project_id" := tfsdk.StringV m.(ProjectId)]>
  (<["environment_id" := tfsdk.StringV m.(EnvironmentId)]>
  (<["key" := tfsdk.StringV m.(Key)]>
  (<["name" := tfsdk.StringV m.(Name)]>
  (<["description" := tfsdk.StringV m.(Description)]>
  (<["permissions" := tfsdk.SetV m.(Permissions)]>
  ∅))))))).

Definition Create (remote : permit.Remote)
    (req : resource.CreateRequest.t) (resp : resource.Response)
  : Go resource.Response :=
  let '(plan, diags) := Get req.(resource.CreateRequest.Plan) in
  let resp := resource.Append resp diags in
  if diag.HasError resp.(resource.Diagnostics) then ret resp else
  let projectId := types.ValueString plan.(ProjectId) in
  let environmentId := types.ValueString plan.(EnvironmentId) in
  let roleKey := types.ValueString plan.(Key) in
  let roleName := types.ValueString plan.(Name) in
  let roleDescription := types.ValueString plan.(Description) in
  let '(rolePermissions, diags) := tfsdk.ElementsAs plan.(Permissions) in
  let resp := resource.Append resp diags in
  if diag.HasError resp.(resource.Diagnostics) then ret resp else
  let newRole := models.NewRoleCreate roleKey roleName in
  let newRole :=
    if negb (String.eqb roleDescription "")
    then models.RoleCreate.SetDescription newRole roleDescription
    else newRole in
  let newRole := models.RoleCreate.SetPermissions newRole rolePermissions in
  SetContext projectId environmentId ;;;
  res <- invoke remote (permit.Roles_Create newRole) ;;
  match res with
  | permit.Err err =>
      ret (resource.AddError resp "Unable to create role" err)
  | permit.Ok role =>
      let permissions := types.SetValueFrom role.(models.RoleRead.Permissions) in
      description <- deref role.(models.RoleRead.Description) ;;
      let plan :=
        {| Id := types.StringValue role.(models.RoleRead.Id);
           OrganizationId := types.StringValue role.(models.RoleRead.OrganizationId);
           ProjectId := types.StringValue role.(models.RoleRead.ProjectId);
           EnvironmentId := types.StringValue role.(models.RoleRead.EnvironmentId);
           Key := types.StringValue role.(models.RoleRead.Key);
           Name := types.StringValue role.(models.RoleRead.Name);
           Description := types.StringValue description;
           Permissions := permissions |} in
      ret (resource.State_Set resp (ToData plan))
  end.

Definition Read (remote : permit.Remote)
    (req : resource.ReadRequest.t) (resp : resource.Response)
  : Go resource.Response :=
  let '(state, diags) := Get req.(resource.ReadRequest.State) in
  let resp := resource.Append resp diags in
  if diag.HasError resp.(resource.Diagnostics) then ret resp else
  let projectId := types.ValueString state.(ProjectId) in
  let environmentId := types.ValueString state.(EnvironmentId) in
  let roleKey := types.ValueString state.(Key) in
  SetContext projectId environmentId ;;;
  res <- invoke remote (permit.Roles_Get roleKey) ;;
  match res with
  | permit.Err err =>
      ret (resource.AddError resp "Unable to read role" err)
  | permit.Ok role =>
      description <- deref role.(models.RoleRead.Description) ;;
      let state :=
        {| Id := types.StringValue role.(models.RoleRead.Id);
           OrganizationId := types.StringValue role.(models.RoleRead.OrganizationId);
           ProjectId := types.StringValue role.(models.RoleRead.ProjectId);
           EnvironmentId := types.StringValue role.(models.RoleRead.EnvironmentId);
           Key := types.StringValue role.(models.RoleRead.Key);
           Name := types.StringValue role.(models.RoleRead.Name);
           Description := types.StringValue description;
           Permissions := types.SetNull |} in
      ret (resource.State_Set resp (ToData state))
  end.

Definition Update (remote : permit.Remote)
    (req : resource.UpdateRequest.t) (resp : resource.Response)
  : Go resource.Response :=
  let '(plan, diags) := Get req.(resource.UpdateRequest.Plan) in
  let resp := resource.Append resp diags in
  if diag.HasError resp.(resource.Diagnostics) then ret resp else
  let projectId := types.ValueString plan.(ProjectId) in
  let environmentId := types.ValueString plan.(EnvironmentId) in
  let roleKey := types.ValueString plan.(Key) in
  let roleName := types.ValueString plan.(Name) in
  let roleDescription := types.ValueString plan.(Description) in
  let updateRole := models.NewRoleUpdate in
  let updateRole := models.RoleUpdate.SetName updateRole roleName in
  let updateRole :=
    if negb (String.eqb roleDescription "")
    then models.RoleUpdate.SetDescription updateRole roleDescription
    else updateRole in
  SetContext projectId environmentId ;;;
  res <- invoke remote (permit.Roles_Update roleKey updateRole) ;;
  match res with
  | permit.Err err =>
      ret (resource.AddError resp "Unable to update role" err)
  | permit.Ok role =>
      description <- deref role.(models.RoleRead.Description) ;;
      let plan :=
        {| Id := types.StringValue role.(models.RoleRead.Id);
           OrganizationId := types.StringValue role.(models.RoleRead.OrganizationId);
           ProjectId := types.StringValue role.(models.RoleRead.ProjectId);
           EnvironmentId := types.StringValue role.(models.RoleRead.EnvironmentId);
           Key := types.StringValue role.(models.RoleRead.Key);
           Name := types.StringValue role.(models.RoleRead.Name);
           Description := types.StringValue description;
           Permissions := types.SetNull |} in
      ret (resource.State_Set resp (ToData plan))
  end.

Definition Delete (remote : permit.Remote)
    (req : resource.DeleteRequest.t) (resp : resource.Response)
  : Go resource.Response :=
  let '(state, diags) := Get req.(resource.DeleteRequest.State) in
  let resp := resource.Append resp diags in
  if diag.HasError resp.(resource.Diagnostics) then ret resp else
  let projectId := types.ValueString state.(ProjectId) in
  let environmentId := types.ValueString state.(EnvironmentId) in
  let roleKey := types.ValueString state.(Key) in
  SetContext projectId environmentId ;;;
  res <- invoke remote (permit.Roles_Delete roleKey) ;;
  match res with
  | permit.Err err =>
      ret (resource.AddError resp "Unable to delete role" err)
  | permit.Ok _ => ret resp
  end.

Definition ImportState (remote : permit.Remote)
    (req : resource.ImportStateRequest.t) (resp : resource.Response)
  : Go resource.Response :=
  let split := strings.Split req.(resource.ImportStateRequest.ID) "/" in
  if negb (Nat.eqb (length split) 3) then
    ret (resource.AddError resp "Error importing role"
           "Could not import role, ID should be an {project-key}/{environment-key}/{role-key}")
  else
  let projectKey := nth 0 split "" in
  let environmentKey := nth 1 split "" in
  let roleKey := nth 2 split "" in
  res <- invoke remote (permit.Projects_Get projectKey) ;;
  match res with
  | permit.Err err => ret (resource.AddError resp "Unable to read project" err)
  | permit.Ok project =>
      SetContext project.(models.ProjectRead.Id) "" ;;;
      res <- invoke remote (permit.Environments_Get environmentKey) ;;
      match res with
      | permit.Err err =>
          ret (resource.AddError resp "Unable to read environment" err)
      | permit.Ok environment =>
          let resp := resource.State_SetAttribute resp "project_id"
                        project.(models.ProjectRead.Id) in
          let resp := resource.State_SetAttribute resp "environment_id"
                        environment.(models.EnvironmentRead.Id) in
          let resp := resource.State_SetAttribute resp "key" roleKey in
          ret resp
      end
  end.

(** [Configure]: the receiver is kept as its one field, [client] ([None]
    is the nil pointer).  Provider data of another type is only logged. *)
Definition Configure (req : resource.ConfigureRequest.t)
    (client : option permit.Client) : option permit.Client :=
  match req.(resource.ConfigureRequest.ProviderData) with
  | None => client
  | Some (anyClient c) => Some c
  | Some (anyOther _) => client
  end.

(** [Metadata]: the type name it sets. *)
Definition Metadata (req : resource.MetadataRequest.t) : string :=
  req.(resource.MetadataRequest.ProviderTypeName) ++ "_role".

End roleResource.

Module projectResourceV2.

(** The project resource in the revision whose Read and Update call the
    client (second file of [unnamed/part_000]). *)

Record projectResourceModel := {
  Id : types.String;
  OrganizationId : types.String;
  Key : types.String;
  Name : types.String;
  Description : types.String
}.

(** [req.Plan.Get(ctx, &model)] / [req.State.Get(ctx, &model)] *)
Definition Get (raw : gmap string tfsdk.Value)
  : projectResourceModel * diag.Diagnostics :=
  let '(v0, d0) := tfsdk.GetString raw "id" in
  let '(v1, d1) := tfsdk.GetString raw "organization_id" in
  let '(v2, d2) := tfsdk.GetString raw "key" in
  let '(v3, d3) := tfsdk.GetString raw "name" in
  let '(v4, d4) := tfsdk.GetString raw "description" in
  ({| Id := v0;
      OrganizationId := v1;
      Key := v2;
      Name := v3;
      Description := v4 |},
   d0 ++ d1 ++ d2 ++ d3 ++ d4).

(** The attributes [State.Set(ctx, &model)] writes. *)
Definition ToData (m : projectResourceModel) : gmap string tfsdk.Value :=
  <["id" := tfsdk.StringV m.(Id)]>
  (<["organization_id" := tfsdk.StringV m.(OrganizationId)]>
  (<["key" := tfsdk.StringV m.(Key)]>
  (<["name" := tfsdk.StringV m.(Name)]>
  (<["description" := tfsdk.StringV m.(Description)]>
  ∅)))).

Definition Create (remote : permit.Remote)
    (req : resource.CreateRequest.t) (resp : resource.Response)
  : Go resource.Response :=
  let '(plan, diags) := Get req.(resource.CreateRequest.Plan) in
  let resp := resource.Append resp diags in
  if diag.HasError resp.(resource.Diagnostics) then ret resp else
  let projectKey := types.ValueString plan.(Key) in
  let projectName := types.ValueString plan.(Name) in
  let projectDescription := types.ValueString plan.(Description) in
  let newProject := models.NewProjectCreate projectKey projectName in
  let newProject :=
    if negb (String.eqb projectDescription "")
    then models.ProjectCreate.SetDescription newProject projectDescription
    else newProject in
  res <- invoke remote (permit.Projects_Create newProject) ;;
  match res with
  | permit.Err err =>
      ret (resource.AddError resp "Unable to create project" err)
  | permit.Ok project =>
      description <- deref project.(models.ProjectRead.Description) ;;
      let plan :=
        {| Id := types.StringValue project.(models.ProjectRead.Id);
           OrganizationId := types.StringValue project.(models.ProjectRead.OrganizationId);
           Key := types.StringValue project.(models.ProjectRead.Key);
           Name := types.StringValue project.(models.ProjectRead.Name);
           Description := types.StringValue description |} in
      ret (resource.State_Set resp (ToData plan))
  end.

Definition Read (remote : permit.Remote)
    (req : resource.ReadRequest.t) (resp : resource.Response)
  : Go resource.Response :=
  let '(state, diags) := Get req.(resource.ReadRequest.State) in
  let resp := resource.Append resp diags in
  if diag.HasError resp.(resource.Diagnostics) then ret resp else
  let projectKey := types.ValueString state.(Key) in
  res <- invoke remote (permit.Projects_Get projectKey) ;;
  match res with
  | permit.Err err =>
      ret (resource.AddError resp "Unable to read project" err)
  | permit.Ok project =>
      description <- deref project.(models.ProjectRead.Description) ;;
      let state :=
        {| Id := types.StringValue project.(models.ProjectRead.Id);
           OrganizationId := types.StringValue project.(models.ProjectRead.OrganizationId);
           Key := types.StringValue project.(models.ProjectRead.Key);
           Name := types.StringValue project.(models.ProjectRead.Name);
           Description := types.StringValue description |} in
      ret (resource.State_Set resp (ToData state))
  end.

Definition Update (remote : permit.Remote)
    (req : resource.UpdateRequest.t) (resp : resource.Response)
  : Go resource.Response :=
  let '(plan, diags) := Get req.(resource.UpdateRequest.Plan) in
  let resp := resource.Append resp diags in
  if diag.HasError resp.(resource.Diagnostics) then ret resp else
  let projectKey := types.ValueString plan.(Key) in
  let projectName := types.ValueString plan.(Name) in
  let projectDescription := types.ValueString plan.(Description) in
  let updateProject := models.NewProjectUpdate in
  let updateProject := models.ProjectUpdate.SetName updateProject projectName in
  let updateProject :=
    if negb (String.eqb projectDescription "")
    then models.ProjectUpdate.SetDescription updateProject projectDescription
    else updateProject in
  res <- invoke remote (permit.Projects_Update projectKey updateProject) ;;
  match res with
  | permit.Err err =>
      ret (resource.AddError resp "Unable to update project" err)
  | permit.Ok project =>
      description <- deref project.(models.ProjectRead.Description) ;;
      let plan :=
        {| Id := types.StringValue project.(models.ProjectRead.Id);
           OrganizationId := types.StringValue project.(models.ProjectRead.OrganizationId);
           Key := types.StringValue project.(models.ProjectRead.Key);
           Name := types.StringValue project.(models.ProjectRead.Name);
           Description := types.StringValue description |} in
      ret (resource.State_Set resp (ToData plan))
  end.

Definition Delete (remote : permit.Remote)
    (req : resource.DeleteRequest.t) (resp : resource.Response)
  : Go resource.Response :=
  let '(state, diags) := Get req.(resource.DeleteRequest.State) in
  let resp := resource.Append resp diags in
  if diag.HasError resp.(resource.Diagnostics) then ret resp else
  let projectKey := types.ValueString state.(Key) in
  res <- invoke remote (permit.Projects_Delete projectKey) ;;
  match res with
  | permit.Err err =>
      ret (resource.AddError resp "Unable to delete project" err)
  | permit.Ok _ => ret resp
  end.

Definition ImportState (remote : permit.Remote)
    (req : resource.ImportStateRequest.t) (resp : resource.Response)
  : Go resource.Response :=
  ret (resource.ImportStatePassthroughID "key" req resp).

(** [Configure]: the receiver is kept as its one field, [client] ([None]
    is the nil pointer).  Provider data of another type is only logged. *)
Definition Configure (req : resource.ConfigureRequest.t)
    (client : option permit.Client) : option permit.Client :=
  match req.(resource.ConfigureRequest.ProviderData) with
  | None => client
  | Some (anyClient c) => Some c
  | Some (anyOther _) => client
  end.

(** [Metadata]: the type name it sets. *)
Definition Metadata (req : resource.MetadataRequest.t) : string :=
  req.(resource.MetadataRequest.ProviderTypeName) ++ "_project".

End projectResourceV2.

Module projectResource.

(** The project resource, [internal/provider/resource_project.go].  Its Read
    and Update write back the data they were given and call nothing. *)

Record projectResourceModel := {
  Key : types.String;
  Id : types.String;
  OrganizationId : types.String;
  Name : types.String;
  Description : types.String
}.

(** [req.Plan.Get(ctx, &model)] / [req.State.Get(ctx, &model)] *)
Definition Get (raw : gmap string tfsdk.Value)
  : projectResourceModel * diag.Diagnostics :=
  let '(v0, d0) := tfsdk.GetString raw "key" in
  let '(v1, d1) := tfsdk.GetString raw "id" in
  let '(v2, d2) := tfsdk.GetString raw "organization_id" in
  let '(v3, d3) := tfsdk.GetString raw "name" in
  let '(v4, d4) := tfsdk.GetString raw "description" in
  ({| Key := v0;
      Id := v1;
      OrganizationId := v2;
      Name := v3;
      Description := v4 |},
   d0 ++ d1 ++ d2 ++ d3 ++ d4).

(** The attributes [State.Set(ctx, &model)] writes. *)
Definition ToData (m : projectResourceModel) : gmap string tfsdk.Value :=
  <["key" := tfsdk.StringV m.(Key)]>
  (<["id" := tfsdk.StringV m.(Id)]>
  (<["organization_id" := tfsdk.StringV m.(OrganizationId)]>
  (<["name" := tfsdk.StringV m.(Name)]>
  (<["description" := tfsdk.StringV m.(Description)]>
  ∅)))).

Definition Create (remote : permit.Remote)
    (req : resource.CreateRequest.t) (resp : resource.Response)
  : Go resource.Response :=
  let '(plan, diags) := Get req.(resource.CreateRequest.Plan) in
  let resp := resource.Append resp diags in
  if diag.HasError resp.(resource.Diagnostics) then ret resp else
  let projectKey := types.ValueString plan.(Key) in
  let projectName := types.ValueString plan.(Name) in
  let description := types.ValueString plan.(Description) in
  let newProject := models.NewProjectCreate projectKey projectName in
  let newProject :=
    if negb (String.eqb description "")
    then models.ProjectCreate.SetDescription newProject description
    else newProject in
  res <- invoke remote (permit.Projects_Create newProject) ;;
  match res with
  | permit.Err err =>
      ret (resource.AddError resp "Unable to Create Project" err)
  | permit.Ok project =>
      description <- deref project.(models.ProjectRead.Description) ;;
      let plan :=
        {| Key := types.StringValue project.(models.ProjectRead.Key);
           Id := types.StringValue project.(models.ProjectRead.Id);
           OrganizationId := types.StringValue project.(models.ProjectRead.OrganizationId);
           Name := types.StringValue project.(models.ProjectRead.Name);
           Description := types.StringValue description |} in
      ret (resource.State_Set resp (ToData plan))
  end.

Definition Read (remote : permit.Remote)
    (req : resource.ReadRequest.t) (resp : resource.Response)
  : Go resource.Response :=
  let '(state, diags) := Get req.(resource.ReadRequest.State) in
  let resp := resource.Append resp diags in
  if diag.HasError resp.(resource.Diagnostics) then ret resp else
  ret (resource.State_Set resp (ToData state)).

Definition Update (remote : permit.Remote)
    (req : resource.UpdateRequest.t) (resp : resource.Response)
  : Go resource.Response :=
  let '(plan, diags) := Get req.(resource.UpdateRequest.Plan) in
  let resp := resource.Append resp diags in
  if diag.HasError resp.(resource.Diagnostics) then ret resp else
  ret (resource.State_Set resp (ToData plan)).

Definition Delete (remote : permit.Remote)
    (req : resource.DeleteRequest.t) (resp : resource.Response)
  : Go resource.Response :=
  let '(state, diags) := Get req.(resource.DeleteRequest.State) in
  let resp := resource.Append resp diags in
  if diag.HasError resp.(resource.Diagnostics) then ret resp else
  res <- invoke remote (permit.Projects_Delete (types.ValueString state.(Key))) ;;
  match res with
  | permit.Err err =>
      ret (resource.AddError resp "Unable to Delete Project" err)
  | permit.Ok _ => ret resp
  end.

Definition ImportState (remote : permit.Remote)
    (req : resource.ImportStateRequest.t) (resp : resource.Response)
  : Go resource.Response :=
  ret (resource.ImportStatePassthroughID "id" req resp).

(** [Configure]: the receiver is kept as its one field, [client] ([None]
    is the nil pointer).  Provider data of another type is only logged. *)
Definition Configure (req : resource.ConfigureRequest.t)
    (client : option permit.Client) : option permit.Client :=
  match req.(resource.ConfigureRequest.ProviderData) with
  | None => client
  | Some (anyClient c) => Some c
  | Some (anyOther _) => client
  end.

(** [Metadata]: the type name it sets. *)
Definition Metadata (req : resource.MetadataRequest.t) : string :=
  req.(resource.MetadataRequest.ProviderTypeName) ++ "_project".

End projectResource.

(** ** The data sources, [data_source_project.go] and
    [data_source_environment.go] *)

Module projectDataSource.

Record projectDataSourceModel := {
  Id : types.String;
  OrganizationId : types.String;
  Key : types.String;
  Name : types.String;
  Description : types.String
}.

(** [req.Config.Get(ctx, &state)].  On a conversion error the framework
    leaves the target as it was declared: the zero model, every field null. *)
Definition Get (raw : gmap string tfsdk.Value)
  : projectDataSourceModel * diag.Diagnostics :=
  let '(v0, d0) := tfsdk.GetString raw "id" in
  let '(v1, d1) := tfsdk.GetString raw "organization_id" in
  let '(v2, d2) := tfsdk.GetString raw "key" in
  let '(v3, d3) := tfsdk.GetString raw "name" in
  let '(v4, d4) := tfsdk.GetString raw "description" in
  let diags := d0 ++ d1 ++ d2 ++ d3 ++ d4 in
  if diag.HasError diags then
    ({| Id := types.StringNull;
        OrganizationId := types.StringNull;
        Key := types.StringNull;
        Name := types.StringNull;
        Description := types.StringNull |},
     diags)
  else
    ({| Id := v0;
        OrganizationId := v1;
        Key := v2;
        Name := v3;
        Description := v4 |},
     diags).

(** The attributes [State.Set(ctx, &state)] writes. *)
Definition ToData (m : projectDataSourceModel) : gmap string tfsdk.Value :=
  <["id" := tfsdk.StringV m.(Id)]>
  (<["organization_id" := tfsdk.StringV m.(OrganizationId)]>
  (<["key" := tfsdk.StringV m.(Key)]>
  (<["name" := tfsdk.StringV m.(Name)]>
  (<["description" := tfsdk.StringV m.(Description)]>
  ∅)))).

(** [Configure]: the receiver is kept as its one field, [client]; provider
    data of another type is reported. *)
Definition Configure (req : datasource.ConfigureRequest.t)
    (resp : datasource.ConfigureResponse) (client : option permit.Client)
  : option permit.Client * datasource.ConfigureResponse :=
  match req.(datasource.ConfigureRequest.ProviderData) with
  | None => (client, resp)
  | Some (anyClient c) => (Some c, resp)
  | Some (anyOther typeName) =>
      (client,
       datasource.AddError resp "Unexpected Data Source Configure Type"
         ("Expected *permit.Client, got: " ++ typeName
          ++ ". Please report this issue to the provider developers."))
  end.

(** [Metadata]: the type name it sets. *)
Definition Metadata (req : datasource.MetadataRequest.t) : string :=
  req.(datasource.MetadataRequest.ProviderTypeName) ++ "_project".

(** [Read]: the diagnostics of decoding are appended and not looked at. *)
Definition Read (remote : permit.Remote)
    (req : datasource.ReadRequest.t) (resp : resource.Response)
  : Go resource.Response :=
  let '(state, diags) := Get req.(datasource.ReadRequest.Config) in
  let resp := resource.Append resp diags in
  let projectKey := types.ValueString state.(Key) in
  res <- invoke remote (permit.Projects_Get projectKey) ;;
  match res with
  | permit.Err err =>
      ret (resource.AddError resp "Unable to read project" err)
  | permit.Ok project =>
      description <- deref project.(models.ProjectRead.Description) ;;
      let state :=
        {| Id := types.StringValue project.(models.ProjectRead.Id);
           OrganizationId := types.StringValue project.(models.ProjectRead.OrganizationId);
           Key := types.StringValue project.(models.ProjectRead.Key);
           Name := types.StringValue project.(models.ProjectRead.Name);
           Description := types.StringValue description |} in
      ret (resource.State_Set resp (ToData state))
  end.

End projectDataSource.

Module environmentDataSource.

Record environmentDataSourceModel := {
  Id : types.String;
  OrganizationId : types.String;
  ProjectId : types.String;
  Key : types.String;
  Name : types.String;
  Description : types.String
}.

(** [req.Config.Get(ctx, &state)].  On a conversion error the framework
    leaves the target as it was declared: the zero model, every field null. *)
Definition Get (raw : gmap string tfsdk.Value)
  : environmentDataSourceModel * diag.Diagnostics :=
  let '(v0, d0) := tfsdk.GetString raw "id" in
  let '(v1, d1) := tfsdk.GetString raw "organization_id" in
  let '(v2, d2) := tfsdk.GetString raw "project_id" in
  let '(v3, d3) := tfsdk.GetString raw "key" in
  let '(v4, d4) := tfsdk.GetString raw "name" in
  let '(v5, d5) := tfsdk.GetString raw "description" in
  let diags := d0 ++ d1 ++ d2 ++ d3 ++ d4 ++ d5 in
  if diag.HasError diags then
    ({| Id := types.StringNull;
        OrganizationId := types.StringNull;
        ProjectId := types.StringNull;
        Key := types.StringNull;
        Name := types.StringNull;
        Description := types.StringNull |},
     diags)
  else
    ({| Id := v0;
        OrganizationId := v1;
        ProjectId := v2;
        Key := v3;
        Name := v4;
        Description := v5 |},
     diags).

(** The attributes [State.Set(ctx, &state)] writes. *)
Definition ToData (m : environmentDataSourceModel) : gmap string tfsdk.Value :=
  <["id" := tfsdk.StringV m.(Id)]>
  (<["organization_id" := tfsdk.StringV m.(OrganizationId)]>
  (<["project_id" := tfsdk.StringV m.(ProjectId)]>
  (<["key" := tfsdk.StringV m.(Key)]>
  (<["name" := tfsdk.StringV m.(Name)]>
  (<["description" := tfsdk.StringV m.(Description)]>
  ∅))))).

(** [Configure]: the receiver is kept as its one field, [client]; provider
    data of another type is reported. *)
Definition Configure (req : datasource.ConfigureRequest.t)
    (resp : datasource.ConfigureResponse) (client : option permit.Client)
  : option permit.Client * datasource.ConfigureResponse :=
  match req.(datasource.ConfigureRequest.ProviderData) with
  | None => (client, resp)
  | Some (anyClient c) => (Some c, resp)
  | Some (anyOther typeName) =>
      (client,
       datasource.AddError resp "Unexpected Data Source Configure Type"
         ("Expected *permit.Client, got: " ++ typeName
          ++ ". Please report this issue to the provider developers."))
  end.

(** [Metadata]: the type name it sets. *)
Definition Metadata (req : datasource.MetadataRequest.t) : string :=
  req.(datasource.MetadataRequest.ProviderTypeName) ++ "_environment".

(** [Read]: the diagnostics of decoding are appended and not looked at. *)
Definition Read (remote : permit.Remote)
    (req : datasource.ReadRequest.t) (resp : resource.Response)
  : Go resource.Response :=
  let '(state, diags) := Get req.(datasource.ReadRequest.Config) in
  let resp := resource.Append resp diags in
  let projectId := types.ValueString state.(ProjectId) in
  let environmentKey := types.ValueString state.(Key) in
  SetContext projectId "" ;;;
  res <- invoke remote (permit.Environments_Get environmentKey) ;;
  match res with
  | permit.Err err =>
      ret (resource.AddError resp "Unable to read environment" err)
  | permit.Ok environment =>
      description <- deref environment.(models.EnvironmentRead.Description) ;;
      let state :=
        {| Id := types.StringValue environment.(models.EnvironmentRead.Id);
           OrganizationId := types.StringValue environment.(models.EnvironmentRead.OrganizationId);
           ProjectId := types.StringValue environment.(models.EnvironmentRead.ProjectId);
           Key := types.StringValue environment.(models.EnvironmentRead.Key);
           Name := types.StringValue environment.(models.EnvironmentRead.Name);
           Description := types.StringValue description |} in
      ret (resource.State_Set resp (ToData state))
  end.

End environmentDataSource.

(** ** The provider root, [internal/provider/provider.go] *)

Module os.

(** The process environment; [Getenv] of a variable that is not set is the
    empty string. *)
Definition Getenv (environ : gmap string string) (name : string) : string :=
  match environ !! name with Some v => v | None => "" end.

End os.

Module permitProvider.

Record permitProviderModel := { ApiKey : types.String }.

(** [req.Config.Get(ctx, &providerConfig)] *)
Definition Get (raw : gmap string tfsdk.Value)
  : permitProviderModel * diag.Diagnostics :=
  let '(v0, d0) := tfsdk.GetString raw "api_key" in
  ({| ApiKey := v0 |}, d0).

Definition ToData (m : permitProviderModel) : gmap string tfsdk.Value :=
  <["api_key" := tfsdk.StringV m.(ApiKey)]> ∅.

Module ConfigureRequest.
Record t := { Config : gmap string tfsdk.Value }.
End ConfigureRequest.

Record ConfigureResponse := {
  DataSourceData : option permit.Client;
  ResourceData : option permit.Client;
  Diagnostics : diag.Diagnostics
}.

(** The response the framework hands to [Configure]. *)
Definition NewConfigureResponse : ConfigureResponse :=
  {| DataSourceData := None; ResourceData := None; Diagnostics := [] |}.

Definition Append (resp : ConfigureResponse) (ds : diag.Diagnostics)
  : ConfigureResponse :=
  {| DataSourceData := resp.(DataSourceData);
     ResourceData := resp.(ResourceData);
     Diagnostics := diag.Append resp.(Diagnostics) ds |}.

Definition AddAttributeError (resp : ConfigureResponse)
    (p summary detail : string) : ConfigureResponse :=
  {| DataSourceData := resp.(DataSourceData);
     ResourceData := resp.(ResourceData);
     Diagnostics := diag.AddAttributeError resp.(Diagnostics) p summary detail |}.

Definition Configure (environ : gmap string string)
    (req : ConfigureRequest.t) (resp : ConfigureResponse)
  : ConfigureResponse :=
  let '(providerConfig, diags) := Get req.(ConfigureRequest.Config) in
  let resp := Append resp diags in
  if diag.HasError resp.(Diagnostics) then resp else
  let resp :=
    if types.IsUnknown providerConfig.(ApiKey)
    then AddAttributeError resp "api_key" "Unknown API Key"
           ("The provider cannot create the Permit client as there is an unknown configuration value for the API Key. "
            ++ "Either target apply the source of the value first, set the value statically in the configuration, or use the PERMIT_API_KEY environment variable.")
    else resp in
  if diag.HasError resp.(Diagnostics) then resp else
  let apiKey := os.Getenv environ "PERMIT_API_KEY" in
  let apiKey :=
    if negb (types.IsNull providerConfig.(ApiKey))
    then types.ValueString providerConfig.(ApiKey)
    else apiKey in
  let resp :=
    if String.eqb apiKey ""
    then AddAttributeError resp "api_key" "Missing API Key"
           ("The provider cannot create the Permit client as there is a missing or empty value for the API Key. "
            ++ "Set the api_key value in the configuration or use the PERMIT_API_KEY environment variable. "
            ++ "If either is already set, ensure the value is not empty.")
    else resp in
  if diag.HasError resp.(Diagnostics) then resp else
  let client := permit.New apiKey in
  {| DataSourceData := Some client;
     ResourceData := Some client;
     Diagnostics := resp.(Diagnostics) |}.

(** [Metadata]: the provider's type name and version. *)
Definition Metadata (version : string) : string * string := ("permit", version).

End permitProvider.

(** ** The framework's calling convention

    The seven controllers of the source (the project resource comes in two
    revisions), and the way the framework's server invokes them: the
    response handed to Create and ImportState starts from an empty state,
    the one handed to Read, Update and Delete from the prior state. *)

Inductive Controller :=
| projectC | projectV2C | environmentC | tenantC
| resourceC | resourceActionC | roleC.

Module fwserver.

Definition Create (c : Controller) : permit.Remote ->
    resource.CreateRequest.t -> resource.Response -> Go resource.Response :=
  match c with
  | projectC => projectResource.Create
  | projectV2C => projectResourceV2.Create
  | environmentC => environmentResource.Create
  | tenantC => tenantResource.Create
  | resourceC => resourceResource.Create
  | resourceActionC => resourceActionResource.Create
  | roleC => roleResource.Create
  end.

Definition Read (c : Controller) : permit.Remote ->
    resource.ReadRequest.t -> resource.Response -> Go resource.Response :=
  match c with
  | projectC => projectResource.Read
  | projectV2C => projectResourceV2.Read
  | environmentC => environmentResource.Read
  | tenantC => tenantResource.Read
  | resourceC => resourceResource.Read
  | resourceActionC => resourceActionResource.Read
  | roleC => roleResource.Read
  end.

Definition Update (c : Controller) : permit.Remote ->
    resource.UpdateRequest.t -> resource.Response -> Go resource.Response :=
  match c with
  | projectC => projectResource.Update
  | projectV2C => projectResourceV2.Update
  | environmentC => environmentResource.Update
  | tenantC => tenantResource.Update
  | resourceC => resourceResource.Update
  | resourceActionC => resourceActionResource.Update
  | roleC => roleResource.Update
  end.

Definition Delete (c : Controller) : permit.Remote ->
    resource.DeleteRequest.t -> resource.Response -> Go resource.Response :=
  match c with
  | projectC => projectResource.Delete
  | projectV2C => projectResourceV2.Delete
  | environmentC => environmentResource.Delete
  | tenantC => tenantResource.Delete
  | resourceC => resourceResource.Delete
  | resourceActionC => resourceActionResource.Delete
  | roleC => roleResource.Delete
  end.

Definition ImportState (c : Controller) : permit.Remote ->
    resource.ImportStateRequest.t -> resource.Response -> Go resource.Response :=
  match c with
  | projectC => projectResource.ImportState
  | projectV2C => projectResourceV2.ImportState
  | environmentC => environmentResource.ImportState
  | tenantC => tenantResource.ImportState
  | resourceC => resourceResource.ImportState
  | resourceActionC => resourceActionResource.ImportState
  | roleC => roleResource.ImportState
  end.

(** A lifecycle operation with the data the framework passes it. *)
Inductive Operation :=
| OpCreate (plan : gmap string tfsdk.Value)
| OpRead (state : gmap string tfsdk.Value)
| OpUpdate (plan prior : gmap string tfsdk.Value)
| OpDelete (state : gmap string tfsdk.Value).

(** The state the response starts from. *)
Definition priorState (op : Operation) : gmap string tfsdk.Value :=
  match op with
  | OpCreate _ => ∅
  | OpRead state => state
  | OpUpdate _ prior => prior
  | OpDelete state => state
  end.

Definition lifecycle (c : Controller) (op : Operation) (remote : permit.Remote)
  : Go resource.Response :=
  match op with
  | OpCreate plan =>
      Create c remote {| resource.CreateRequest.Plan := plan |}
        (resource.NewResponse ∅)
  | OpRead state =>
      Read c remote {| resource.ReadRequest.State := state |}
        (resource.NewResponse state)
  | OpUpdate plan prior =>
      Update c remote
        {| resource.UpdateRequest.Plan := plan;
           resource.UpdateRequest.State := prior |}
        (resource.NewResponse prior)
  | OpDelete state =>
      Delete c remote {| resource.DeleteRequest.State := state |}
        (resource.NewResponse state)
  end.

(** [ImportState] as the framework calls it for the import ID [id]. *)
Definition importResourceState (c : Controller) (id : string)
    (remote : permit.Remote) : Go resource.Response :=
  ImportState c remote {| resource.ImportStateRequest.ID := id |}
    (resource.NewResponse ∅).

(** A client handle that has issued no call yet. *)
Definition fresh (ctx : permit.PermitContext) : permit.Api :=
  {| permit.Context := ctx; permit.Sent_ := [] |}.

End fwserver.

(** ** Registration and set-up

    [permitProvider.Resources] and [permitProvider.DataSources], and the
    Configure and Metadata methods by controller. *)

Inductive DataSource := environmentD | projectD.

Module registry.

(** [Resources]: the constructors listed, in order.  [NewProjectResource]
    is taken in the revision that goes with the six-resource provider. *)
Definition Resources : list Controller :=
  [environmentC; projectV2C; resourceC; resourceActionC; roleC; tenantC].

(** [DataSources] *)
Definition DataSources : list DataSource := [environmentD; projectD].

Definition Configure (c : Controller)
  : resource.ConfigureRequest.t -> option permit.Client -> option permit.Client :=
  match c with
  | projectC => projectResource.Configure
  | projectV2C => projectResourceV2.Configure
  | environmentC => environmentResource.Configure
  | tenantC => tenantResource.Configure
  | resourceC => resourceResource.Configure
  | resourceActionC => resourceActionResource.Configure
  | roleC => roleResource.Configure
  end.

Definition Metadata (c : Controller) : resource.MetadataRequest.t -> string :=
  match c with
  | projectC => projectResource.Metadata
  | projectV2C => projectResourceV2.Metadata
  | environmentC => environmentResource.Metadata
  | tenantC => tenantResource.Metadata
  | resourceC => resourceResource.Metadata
  | resourceActionC => resourceActionResource.Metadata
  | roleC => roleResource.Metadata
  end.

Definition dataSourceConfigure (d : DataSource)
  : datasource.ConfigureRequest.t -> datasource.ConfigureResponse ->
    option permit.Client -> option permit.Client * datasource.ConfigureResponse :=
  match d with
  | environmentD => environmentDataSource.Configure
  | projectD => projectDataSource.Configure
  end.

Definition dataSourceMetadata (d : DataSource)
  : datasource.MetadataRequest.t -> string :=
  match d with
  | environmentD => environmentDataSource.Metadata
  | projectD => projectDataSource.Metadata
  end.

Definition dataSourceRead (d : DataSource) : permit.Remote ->
    datasource.ReadRequest.t -> resource.Response -> Go resource.Response :=
  match d with
  | environmentD => environmentDataSource.Read
  | projectD => projectDataSource.Read
  end.

(** The resource that manages what a data source looks up. *)
Definition managedBy (d : DataSource) : Controller :=
  match d with
  | environmentD => environmentC
  | projectD => projectV2C
  end.

(** The provider data the framework hands on after the provider's
    Configure: what that left in [ResourceData] / [DataSourceData]. *)
Definition providerData (data : option permit.Client) : option any :=
  match data with Some c => Some (anyClient c) | None => None end.

End registry.

(** ** What a recorded call was answered *)

(** The error the remote service answered a call with, if it did. *)
Definition failedWith (remote : permit.Remote) (s : permit.Sent) : option string :=
  match s.(permit.call) with
  | existT A c =>
      match remote A s.(permit.under) c with
      | permit.Err err => Some err
      | permit.Ok _ => None
      end
  end.

(** The [Description] pointer of a response body; calls without a body
    (the deletes) have none to dereference. *)
Definition descriptionOf {A} (c : permit.Call A) : A -> option (option string) :=
  match c in permit.Call A return A -> option (option string) with
  | permit.Projects_Create _ | permit.Projects_Get _ | permit.Projects_Update _ _ =>
      fun a => Some a.(models.ProjectRead.Description)
  | permit.Environments_Create _ | permit.Environments_Get _
  | permit.Environments_Update _ _ =>
      fun a => Some a.(models.EnvironmentRead.Description)
  | permit.Tenants_Create _ | permit.Tenants_Get _ | permit.Tenants_Update _ _ =>
      fun a => Some a.(models.TenantRead.Description)
  | permit.Resources_Create _ | permit.Resources_Get _ | permit.Resources_Update _ _ =>
      fun a => Some a.(models.ResourceRead.Description)
  | permit.ResourceActions_Create _ _ | permit.ResourceActions_Get _ _
  | permit.ResourceActions_Update _ _ _ =>
      fun a => Some a.(models.ResourceActionRead.Description)
  | permit.Roles_Create _ | permit.Roles_Get _ | permit.Roles_Update _ _ =>
      fun a => Some a.(models.RoleRead.Description)
  | permit.Projects_Delete _ | permit.Environments_Delete _
  | permit.Tenants_Delete _ | permit.Resources_Delete _
  | permit.ResourceActions_Delete _ _ | permit.Roles_Delete _ =>
      fun _ => None
  end.

(** The call was answered with a body whose [Description] is the nil pointer. *)
Definition answeredNilDescription (remote : permit.Remote) (s : permit.Sent) : bool :=
  match s.(permit.call) with
  | existT A c =>
      match remote A s.(permit.under) c with
      | permit.Ok a =>
          match descriptionOf c a with Some None => true | _ => false end
      | permit.Err _ => false
      end
  end.

(** A list of diagnostics that are all errors, as those of decoding are. *)
Definition allErrors (ds : diag.Diagnostics) : Prop :=
  Forall (fun d => diag.IsError d = true) ds.

(** ** Vocabulary of the specification *)

(** The number of ['/']-separated segments an import ID must have, per
    kind; the project resources take the ID as it is. *)
Definition requiredSegments (c : Controller) : option nat :=
  match c with
  | environmentC => Some 2
  | tenantC | roleC | resourceC => Some 3
  | resourceActionC => Some 4
  | projectC | projectV2C => None
  end.

(** The operations that map a response body into state through
    [*x.Description]: every Create, and Read and Update except those of the
    tenant resource (getters) and of the first project revision (no
    response to map). *)
Definition dereferencesDescription (c : Controller) (op : fwserver.Operation)
  : bool :=
  match op with
  | fwserver.OpCreate _ => true
  | fwserver.OpRead _ | fwserver.OpUpdate _ _ =>
      match c with
      | tenantC | projectC => false
      | _ => true
      end
  | fwserver.OpDelete _ => false
  end.

(** The string a plan holds for an attribute, as [ValueString] gives it. *)
Definition planString (plan : gmap string tfsdk.Value) (name : string) : string :=
  types.ValueString (fst (tfsdk.GetString plan name)).

(** A description as it goes out: left unset when the string is empty. *)
Definition outgoingDescription (description : string) : option string :=
  if String.eqb description "" then None else Some description.

(** The body of a create request: key, name, description. *)
Definition createBody {A} (c : permit.Call A)
  : option (string * string * option string) :=
  match c with
  | permit.Projects_Create dto =>
      Some (dto.(models.ProjectCreate.Key), dto.(models.ProjectCreate.Name),
            dto.(models.ProjectCreate.Description))
  | permit.Environments_Create dto =>
      Some (dto.(models.EnvironmentCreate.Key),
            dto.(models.EnvironmentCreate.Name),
            dto.(models.EnvironmentCreate.Description))
  | permit.Tenants_Create dto =>
      Some (dto.(models.TenantCreate.Key), dto.(models.TenantCreate.Name),
            dto.(models.TenantCreate.Description))
  | permit.Resources_Create dto =>
      Some (dto.(models.ResourceCreate.Key), dto.(models.ResourceCreate.Name),
            dto.(models.ResourceCreate.Description))
  | permit.ResourceActions_Create _ dto =>
      Some (dto.(models.ResourceActionCreate.Key),
            dto.(models.ResourceActionCreate.Name),
            dto.(models.ResourceActionCreate.Description))
  | permit.Roles_Create dto =>
      Some (dto.(models.RoleCreate.Key), dto.(models.RoleCreate.Name),
            dto.(models.RoleCreate.Description))
  | _ => None
  end.

(** Every field of the body of an update request: name, description, and
    whether anything else (a role's permissions, a resource's actions) is
    set. *)
Definition updateBody {A} (c : permit.Call A)
  : option (option string * option string * bool) :=
  match c with
  | permit.Projects_Update _ dto =>
      Some (dto.(models.ProjectUpdate.Name),
            dto.(models.ProjectUpdate.Description), false)
  | permit.Environments_Update _ dto =>
      Some (dto.(models.EnvironmentUpdate.Name),
            dto.(models.EnvironmentUpdate.Description), false)
  | permit.Tenants_Update _ dto =>
      Some (dto.(models.TenantUpdate.Name),
            dto.(models.TenantUpdate.Description), false)
  | permit.Resources_Update _ dto =>
      Some (dto.(models.ResourceUpdate.Name),
            dto.(models.ResourceUpdate.Description),
            match dto.(models.ResourceUpdate.Actions) with
            | Some _ => true | None => false end)
  | permit.ResourceActions_Update _ _ dto =>
      Some (dto.(models.ResourceActionUpdate.Name),
            dto.(models.ResourceActionUpdate.Description), false)
  | permit.Roles_Update _ dto =>
      Some (dto.(models.RoleUpdate.Name),
            dto.(models.RoleUpdate.Description),
            match dto.(models.RoleUpdate.Permissions) with
            | Some _ => true | None => false end)
  | _ => None
  end.

(** The key the provider ends up with: the configuration value unless it is
    null, the environment variable otherwise. *)
Definition resolvedKey (configured : types.String) (fromEnv : string) : string :=
  if types.IsNull configured then fromEnv else types.ValueString configured.

(** ** Sample data *)

Module sample.

Definition startContext : permit.PermitContext :=
  {| permit.Project := ""; permit.Environment := "" |}.

(** A remote service that refuses every call. *)
Definition refusing (msg : string) : permit.Remote :=
  fun A _ _ => permit.Err msg.

(** The project [proj1] (id [p-uuid]) and, in it, the environment [env1]
    (id [e-uuid]); [proj2] exists but has no environment. *)
Definition proj1 : models.ProjectRead.t :=
  {| models.ProjectRead.Id := "p-uuid";
     models.ProjectRead.OrganizationId := "o-uuid";
     models.ProjectRead.Key := "proj1";
     models.ProjectRead.Name := "Project One";
     models.ProjectRead.Description := Some "first" |}.

Definition proj2 : models.ProjectRead.t :=
  {| models.ProjectRead.Id := "q-uuid";
     models.ProjectRead.OrganizationId := "o-uuid";
     models.ProjectRead.Key := "proj2";
     models.ProjectRead.Name := "Project Two";
     models.ProjectRead.Description := None |}.

Definition env1 : models.EnvironmentRead.t :=
  {| models.EnvironmentRead.Id := "e-uuid";
     models.EnvironmentRead.OrganizationId := "o-uuid";
     models.EnvironmentRead.ProjectId := "p-uuid";
     models.EnvironmentRead.Key := "env1";
     models.EnvironmentRead.Name := "Environment One";
     models.EnvironmentRead.Description := None |}.

(** A remote service that knows them. *)
Definition directory : permit.Remote :=
  fun A ctx c =>
    match c in permit.Call A return permit.result A with
    | permit.Projects_Get key =>
        if String.eqb key "proj1" then permit.Ok proj1
        else if String.eqb key "proj2" then permit.Ok proj2
        else permit.Err "project not found"
    | permit.Environments_Get key =>
        if String.eqb ctx.(permit.Project) "p-uuid" && String.eqb key "env1"
        then permit.Ok env1
        else permit.Err "environment not found"
    | _ => permit.Err "not found"
    end.

(** The same project as the remote service has it after it was renamed
    there, and the state Terraform still holds for it. *)
Definition renamedProject : models.ProjectRead.t :=
  {| models.ProjectRead.Id := "p-uuid";
     models.ProjectRead.OrganizationId := "o-uuid";
     models.ProjectRead.Key := "proj1";
     models.ProjectRead.Name := "Renamed remotely";
     models.ProjectRead.Description := Some "first" |}.

Definition renaming : permit.Remote :=
  fun A ctx c =>
    match c in permit.Call A return permit.result A with
    | permit.Projects_Get key =>
        if String.eqb key "proj1" then permit.Ok renamedProject
        else permit.Err "project not found"
    | _ => permit.Err "not found"
    end.

Definition projectState : gmap string tfsdk.Value :=
  projectResource.ToData
    {| projectResource.Key := types.StringValue "proj1";
       projectResource.Id := types.StringValue "p-uuid";
       projectResource.OrganizationId := types.StringValue "o-uuid";
       projectResource.Name := types.StringValue "Project One";
       projectResource.Description := types.StringValue "first" |}.

(** A role held remotely with one permission, and the matching state. *)
Definition viewer (description : option string) : models.RoleRead.t :=
  {| models.RoleRead.Id := "r-uuid";
     models.RoleRead.OrganizationId := "o-uuid";
     models.RoleRead.ProjectId := "p-uuid";
     models.RoleRead.EnvironmentId := "e-uuid";
     models.RoleRead.Key := "viewer";
     models.RoleRead.Name := "Viewer";
     models.RoleRead.Description := description;
     models.RoleRead.Permissions := Some ["document:read"] |}.

Definition tenant1 (description : option string) : models.TenantRead.t :=
  {| models.TenantRead.Id := "t-uuid";
     models.TenantRead.OrganizationId := "o-uuid";
     models.TenantRead.ProjectId := "p-uuid";
     models.TenantRead.EnvironmentId := "e-uuid";
     models.TenantRead.Key := "tenant1";
     models.TenantRead.Name := "Tenant One";
     models.TenantRead.Description := description |}.

(** A remote service holding that role and that tenant, both with the
    given description pointer. *)
Definition holding (description : option string) : permit.Remote :=
  fun A ctx c =>
    match c in permit.Call A return permit.result A with
    | permit.Roles_Get _ | permit.Roles_Update _ _ | permit.Roles_Create _ =>
        permit.Ok (viewer description)
    | permit.Tenants_Get _ | permit.Tenants_Update _ _
    | permit.Tenants_Create _ =>
        permit.Ok (tenant1 description)
    | _ => permit.Err "not found"
    end.

Definition roleState (permissions : list string) : roleResource.roleResourceModel :=
  {| roleResource.Id := types.StringValue "r-uuid";
     roleResource.OrganizationId := types.StringValue "o-uuid";
     roleResource.ProjectId := types.StringValue "p-uuid";
     roleResource.EnvironmentId := types.StringValue "e-uuid";
     roleResource.Key := types.StringValue "viewer";
     roleResource.Name := types.StringValue "Viewer";
     roleResource.Description := types.StringValue "read only";
     roleResource.Permissions := types.SetValue permissions |}.

Definition tenantState (description : types.String)
  : tenantResource.tenantResourceModel :=
  {| tenantResource.Id := types.StringValue "t-uuid";
     tenantResource.OrganizationId := types.StringValue "o-uuid";
     tenantResource.ProjectId := types.StringValue "p-uuid";
     tenantResource.EnvironmentId := types.StringValue "e-uuid";
     tenantResource.Key := types.StringValue "tenant1";
     tenantResource.Name := types.StringValue "Tenant One";
     tenantResource.Description := description |}.

(** The resource [document] (id [d-uuid]) of [env1], and a remote service
    that knows it besides what [directory] knows. *)
Definition document : models.ResourceRead.t :=
  {| models.ResourceRead.Id := "d-uuid";
     models.ResourceRead.OrganizationId := "o-uuid";
     models.ResourceRead.ProjectId := "p-uuid";
     models.ResourceRead.EnvironmentId := "e-uuid";
     models.ResourceRead.Key := "document";
     models.ResourceRead.Name := "Document";
     models.ResourceRead.Description := None |}.

Definition catalogue : permit.Remote :=
  fun A ctx c =>
    match c in permit.Call A return permit.result A with
    | permit.Resources_Get key =>
        if String.eqb ctx.(permit.Project) "p-uuid"
           && String.eqb ctx.(permit.Environment) "e-uuid"
           && String.eqb key "document"
        then permit.Ok document
        else permit.Err "resource not found"
    | other => @directory _ ctx other
    end.

Arguments refusing msg A _ _ : clear implicits.
Arguments directory A ctx c : clear implicits.
Arguments renaming A ctx c : clear implicits.
Arguments holding description A ctx c : clear implicits.
Arguments catalogue A ctx c : clear implicits.

End sample.

(** ** Vocabulary for calls and their answers *)

(** The data an operation works from: the plan for Create and Update, the
    state for Read and Delete. *)
Definition operationData (op : fwserver.Operation) : gmap string tfsdk.Value :=
  match op with
  | fwserver.OpCreate plan => plan
  | fwserver.OpRead state => state
  | fwserver.OpUpdate plan _ => plan
  | fwserver.OpDelete state => state
  end.

(** The context a controller binds before its call: none for the project
    resources, the project alone for the environment resource, project and
    environment for the others. *)
Definition boundContext (c : Controller) (data : gmap string tfsdk.Value)
    (initial : permit.PermitContext) : permit.PermitContext :=
  match c with
  | projectC | projectV2C => initial
  | environmentC =>
      {| permit.Project := planString data "project_id";
         permit.Environment := "" |}
  | tenantC | resourceC | resourceActionC | roleC =>
      {| permit.Project := planString data "project_id";
         permit.Environment := planString data "environment_id" |}
  end.

(** The key a call addresses an existing entity by. *)
Definition addressedKey {A} (c : permit.Call A) : option string :=
  match c with
  | permit.Projects_Get key | permit.Projects_Update key _
  | permit.Projects_Delete key
  | permit.Environments_Get key | permit.Environments_Update key _
  | permit.Environments_Delete key
  | permit.Tenants_Get key | permit.Tenants_Update key _
  | permit.Tenants_Delete key
  | permit.Resources_Get key | permit.Resources_Update key _
  | permit.Resources_Delete key
  | permit.ResourceActions_Get _ key | permit.ResourceActions_Update _ key _
  | permit.ResourceActions_Delete _ key
  | permit.Roles_Get key | permit.Roles_Update key _
  | permit.Roles_Delete key => Some key
  | _ => None
  end.

(** The resource a resource-action call is made under. *)
Definition addressedResource {A} (c : permit.Call A) : option string :=
  match c with
  | permit.ResourceActions_Create resourceId _
  | permit.ResourceActions_Get resourceId _
  | permit.ResourceActions_Update resourceId _ _
  | permit.ResourceActions_Delete resourceId _ => Some resourceId
  | _ => None
  end.

(** The calls that only look something up. *)
Definition isGet {A} (c : permit.Call A) : bool :=
  match c with
  | permit.Projects_Get _ | permit.Environments_Get _ | permit.Tenants_Get _
  | permit.Resources_Get _ | permit.ResourceActions_Get _ _
  | permit.Roles_Get _ => true
  | _ => false
  end.

(** Response bodies of any kind, to compare the answers of two calls. *)
Inductive Body :=
| ProjectBody (b : models.ProjectRead.t)
| EnvironmentBody (b : models.EnvironmentRead.t)
| TenantBody (b : models.TenantRead.t)
| ResourceBody (b : models.ResourceRead.t)
| ResourceActionBody (b : models.ResourceActionRead.t)
| RoleBody (b : models.RoleRead.t)
| NoBody.

Definition bodyOf {A} (c : permit.Call A) : A -> Body :=
  match c in permit.Call A return A -> Body with
  | permit.Projects_Create _ | permit.Projects_Get _
  | permit.Projects_Update _ _ => ProjectBody
  | permit.Environments_Create _ | permit.Environments_Get _
  | permit.Environments_Update _ _ => EnvironmentBody
  | permit.Tenants_Create _ | permit.Tenants_Get _
  | permit.Tenants_Update _ _ => TenantBody
  | permit.Resources_Create _ | permit.Resources_Get _
  | permit.Resources_Update _ _ => ResourceBody
  | permit.ResourceActions_Create _ _ | permit.ResourceActions_Get _ _
  | permit.ResourceActions_Update _ _ _ => ResourceActionBody
  | permit.Roles_Create _ | permit.Roles_Get _
  | permit.Roles_Update _ _ => RoleBody
  | permit.Projects_Delete _ | permit.Environments_Delete _
  | permit.Tenants_Delete _ | permit.Resources_Delete _
  | permit.ResourceActions_Delete _ _ | permit.Roles_Delete _ =>
      fun _ => NoBody
  end.

(** The body a recorded call was answered with, if it was not an error. *)
Definition answerOf (remote : permit.Remote) (s : permit.Sent) : option Body :=
  match s.(permit.call) with
  | existT A c =>
      match remote A s.(permit.under) c with
      | permit.Ok a => Some (bodyOf c a)
      | permit.Err _ => None
      end
  end.

(** The controllers whose Create, Read and Update map a response the same
    way: all but the role resource (Read and Update leave the permissions
    out) and the first project revision (nothing is mapped). *)
Definition mapsUniformly (c : Controller) : bool :=
  match c with
  | roleC | projectC => false
  | _ => true
  end.

(** The operations that write a state built from a response: every Create,
    and Read and Update except those of the first project revision. *)
Definition writesFromResponse (c : Controller) (op : fwserver.Operation) : bool :=
  match op with
  | fwserver.OpCreate _ => true
  | fwserver.OpRead _ | fwserver.OpUpdate _ _ =>
      match c with projectC => false | _ => true end
  | fwserver.OpDelete _ => false
  end.

(** A string attribute holding a known string; sets pass. *)
Definition isKnownString (v : tfsdk.Value) : bool :=
  match v with
  | tfsdk.StringV (types.StringValue _) => true
  | tfsdk.StringV _ => false
  | tfsdk.SetV _ => true
  end.

(** * Properties *)

(** ** Diagnostics *)

Lemma diag_Equal_IsError a b :
  diag.Equal a b = true -> diag.IsError a = diag.IsError b.
Proof.
  unfold diag.Equal, diag.IsError. intros H.
  repeat (apply andb_prop in H; destruct H as [H ?]).
  destruct (diag.Severity_ a), (diag.Severity_ b); simpl in *; congruence.
Qed.

Lemma diag_Contains_IsError diags d :
  diag.Contains diags d = true -> diag.IsError d = true ->
  diag.HasError diags = true.
Proof.
  unfold diag.Contains, diag.HasError. intros H E.
  apply existsb_exists in H. destruct H as (x & Hin & Heq).
  apply existsb_exists. exists x. split; [assumption|].
  rewrite <- (diag_Equal_IsError Heq). assumption.
Qed.

(** Appending never hides an error and never invents one. *)
Lemma diag_HasError_Append base ds :
  diag.HasError (diag.Append base ds) = diag.HasError base || diag.HasError ds.
Proof.
  revert base. induction ds as [|d ds IH]; intros base; simpl.
  - now rewrite orb_false_r.
  - rewrite IH. destruct (diag.Contains base d) eqn:C.
    + destruct (diag.IsError d) eqn:E; simpl; [|reflexivity].
      rewrite (diag_Contains_IsError C E). reflexivity.
    + unfold diag.HasError at 1. rewrite existsb_app. simpl.
      rewrite orb_false_r. now rewrite orb_assoc.
Qed.

Lemma allErrors_clean ds : allErrors ds -> diag.HasError ds = false -> ds = [].
Proof.
  intros H E. destruct H as [|d ds Hd _]; [reflexivity|].
  simpl in E. rewrite Hd in E. discriminate.
Qed.

Lemma allErrors_app a b : allErrors a -> allErrors b -> allErrors (a ++ b).
Proof. apply Forall_app_2. Qed.

Lemma GetString_errors raw name : allErrors (snd (tfsdk.GetString raw name)).
Proof.
  unfold tfsdk.GetString.
  destruct (raw !! name) as [[v|v]|]; simpl; repeat constructor.
Qed.

Lemma GetSet_errors raw name : allErrors (snd (tfsdk.GetSet raw name)).
Proof.
  unfold tfsdk.GetSet.
  destruct (raw !! name) as [[v|v]|]; simpl; repeat constructor.
Qed.

Ltac get_errors :=
  repeat match goal with
  | |- context [tfsdk.GetString ?r ?n] =>
      let H := fresh "H" in
      pose proof (GetString_errors r n) as H;
      destruct (tfsdk.GetString r n); simpl in H
  | |- context [tfsdk.GetSet ?r ?n] =>
      let H := fresh "H" in
      pose proof (GetSet_errors r n) as H;
      destruct (tfsdk.GetSet r n); simpl in H
  end;
  simpl; repeat apply allErrors_app; assumption.

Lemma environmentResource_Get_errors raw :
  allErrors (snd (environmentResource.Get raw)).
Proof. unfold environmentResource.Get. get_errors. Qed.

Lemma tenantResource_Get_errors raw : allErrors (snd (tenantResource.Get raw)).
Proof. unfold tenantResource.Get. get_errors. Qed.

Lemma resourceResource_Get_errors raw :
  allErrors (snd (resourceResource.Get raw)).
Proof. unfold resourceResource.Get. get_errors. Qed.

Lemma resourceActionResource_Get_errors raw :
  allErrors (snd (resourceActionResource.Get raw)).
Proof. unfold resourceActionResource.Get. get_errors. Qed.

Lemma roleResource_Get_errors raw : allErrors (snd (roleResource.Get raw)).
Proof. unfold roleResource.Get. get_errors. Qed.

Lemma projectResource_Get_errors raw : allErrors (snd (projectResource.Get raw)).
Proof. unfold projectResource.Get. get_errors. Qed.

Lemma projectResourceV2_Get_errors raw :
  allErrors (snd (projectResourceV2.Get raw)).
Proof. unfold projectResourceV2.Get. get_errors. Qed.

(** Decoding either goes through cleanly or leaves an error behind. *)
Lemma decode_cases (ds : diag.Diagnostics) :
  allErrors ds -> ds = [] \/ diag.HasError (diag.Append [] ds) = true.
Proof.
  intros H. rewrite diag_HasError_Append. simpl.
  destruct (diag.HasError ds) eqn:E; [now right|left; now apply allErrors_clean].
Qed.

Lemma ElementsAs_cases v :
  snd (tfsdk.ElementsAs v) = [] \/
  diag.HasError (diag.Append [] (snd (tfsdk.ElementsAs v))) = true.
Proof. destruct v; simpl; auto. Qed.

(** Decoding what [State.Set] wrote gives the model back. *)
Lemma environmentResource_Get_ToData m :
  environmentResource.Get (environmentResource.ToData m) = (m, []).
Proof. destruct m. vm_compute. reflexivity. Qed.

Lemma tenantResource_Get_ToData m :
  tenantResource.Get (tenantResource.ToData m) = (m, []).
Proof. destruct m. vm_compute. reflexivity. Qed.

Lemma resourceResource_Get_ToData m :
  resourceResource.Get (resourceResource.ToData m) = (m, []).
Proof. destruct m. vm_compute. reflexivity. Qed.

Lemma resourceActionResource_Get_ToData m :
  resourceActionResource.Get (resourceActionResource.ToData m) = (m, []).
Proof. destruct m. vm_compute. reflexivity. Qed.

Lemma roleResource_Get_ToData m :
  roleResource.Get (roleResource.ToData m) = (m, []).
Proof. destruct m. vm_compute. reflexivity. Qed.

Lemma projectResource_Get_ToData m :
  projectResource.Get (projectResource.ToData m) = (m, []).
Proof. destruct m. vm_compute. reflexivity. Qed.

Lemma projectResourceV2_Get_ToData m :
  projectResourceV2.Get (projectResourceV2.ToData m) = (m, []).
Proof. destruct m. vm_compute. reflexivity. Qed.

(** ** Proof steps shared by the lifecycle theorems *)

Ltac decode_with L p :=
  let HG := fresh "HG" in
  let HG' := fresh "HG'" in
  let m := fresh "m" in
  let ds := fresh "ds" in
  pose proof (L p) as HG;
  match type of HG with
  | allErrors (snd ?g) => destruct g as [m ds]
  end;
  simpl in HG;
  destruct (decode_cases HG) as [-> | HG'];
  [ clear HG
  | unfold resource.Append, resource.NewResponse;
    cbn [resource.Diagnostics resource.State];
    rewrite HG'; clear HG ].

Ltac decode :=
  match goal with
  | |- context [environmentResource.Get ?p] =>
      decode_with environmentResource_Get_errors p
  | |- context [tenantResource.Get ?p] =>
      decode_with tenantResource_Get_errors p
  | |- context [resourceResource.Get ?p] =>
      decode_with resourceResource_Get_errors p
  | |- context [resourceActionResource.Get ?p] =>
      decode_with resourceActionResource_Get_errors p
  | |- context [roleResource.Get ?p] =>
      decode_with roleResource_Get_errors p
  | |- context [projectResource.Get ?p] =>
      decode_with projectResource_Get_errors p
  | |- context [projectResourceV2.Get ?p] =>
      decode_with projectResourceV2_Get_errors p
  end.

Ltac elements_as :=
  match goal with
  | |- context [tfsdk.ElementsAs ?v] =>
      let HP := fresh "HP" in
      pose proof (ElementsAs_cases v) as HP;
      destruct (tfsdk.ElementsAs v) as [? ?];
      simpl in HP; destruct HP as [-> | HP];
      [ | unfold resource.Append, resource.NewResponse;
          cbn [resource.Diagnostics resource.State diag.Append];
          cbn [resource.Diagnostics resource.State diag.Append] in HP;
          rewrite HP; clear HP ]
  end.

Ltac unfold_op :=
  unfold fwserver.lifecycle, fwserver.Create, fwserver.Read,
    fwserver.Update, fwserver.Delete,
    environmentResource.Create, environmentResource.Read,
    environmentResource.Update, environmentResource.Delete,
    tenantResource.Create, tenantResource.Read,
    tenantResource.Update, tenantResource.Delete,
    resourceResource.Create, resourceResource.Read,
    resourceResource.Update, resourceResource.Delete,
    resourceActionResource.Create, resourceActionResource.Read,
    resourceActionResource.Update, resourceActionResource.Delete,
    roleResource.Create, roleResource.Read,
    roleResource.Update, roleResource.Delete,
    projectResource.Create, projectResource.Read,
    projectResource.Update, projectResource.Delete,
    projectResourceV2.Create, projectResourceV2.Read,
    projectResourceV2.Update, projectResourceV2.Delete.

Ltac answer remote ER :=
  match goal with
  | |- context [remote ?A ?c ?k] => destruct (remote A c k) eqn:ER
  end.

Ltac deref_cases :=
  try match goal with
  | |- context [deref ?p] =>
      lazymatch p with
      | Some _ => fail
      | None => fail
      | _ => destruct p eqn:?
      end
  end.

(** ** Import IDs *)

Lemma genSplit_slash_length s cur :
  length (strings.genSplit "/" 0 cur s) = S (strings.Count s "/"%char).
Proof.
  revert cur. induction s as [|c s IH]; intros cur; [reflexivity|].
  cbn [strings.genSplit strings.Count String.prefix String.length Nat.sub].
  destruct (Ascii.eqb_spec c "/"%char) as [->|Hne].
  - simpl. replace (String.prefix "" s) with true by (destruct s; reflexivity).
    simpl. now rewrite IH.
  - destruct (ascii_dec "/" c) as [E|_]; [congruence|].
    apply IH.
Qed.

(** The segments of an ID are one more than its slashes. *)
Lemma Split_slash_length s :
  length (strings.Split s "/") = S (strings.Count s "/"%char).
Proof. apply genSplit_slash_length. Qed.

(** [strings.Split] on the cases Go documents. *)
Example Split_examples :
  strings.Split "a,b,c" "," = ["a"; "b"; "c"]
  /\ strings.Split "a man a plan a canal panama" "a "
     = [""; "man "; "plan "; "canal panama"]
  /\ strings.Split "" "/" = [""]
  /\ strings.Split "proj//key/" "/" = ["proj"; ""; "key"; ""].
Proof. repeat split; reflexivity. Qed.

Lemma genSplit_slash_not_nil cur s : strings.genSplit "/" 0 cur s <> [].
Proof.
  revert cur. induction s as [|c s IH]; intros cur; [discriminate|].
  cbn [strings.genSplit String.prefix String.length Nat.sub].
  destruct (ascii_dec "/" c); [|apply IH].
  replace (String.prefix "" s) with true by (destruct s; reflexivity).
  discriminate.
Qed.

Lemma append_empty_r (s : string) : (s ++ "")%string = s.
Proof.
  induction s as [|c s IH]; [reflexivity|].
  change (String c (s ++ "")%string = String c s). now rewrite IH.
Qed.

Lemma append_assoc (a b c : string) :
  ((a ++ b) ++ c)%string = (a ++ (b ++ c))%string.
Proof.
  induction a as [|x a IH]; [reflexivity|].
  change (String x ((a ++ b) ++ c)%string = String x (a ++ (b ++ c))%string).
  now rewrite IH.
Qed.

Lemma genSplit_slash_join cur s :
  String.concat "/" (strings.genSplit "/" 0 cur s) = (cur ++ s)%string.
Proof.
  revert cur. induction s as [|c s IH]; intros cur.
  - simpl. now rewrite append_empty_r.
  - cbn [strings.genSplit String.prefix String.length Nat.sub].
    destruct (ascii_dec "/" c) as [<-|Hne].
    + replace (String.prefix "" s) with true by (destruct s; reflexivity).
      cbn [String.concat].
      pose proof (@genSplit_slash_not_nil "" s) as Hnil.
      destruct (strings.genSplit "/" 0 "" s) as [|x xs] eqn:E; [congruence|].
      rewrite <- E, IH. reflexivity.
    + rewrite IH, append_assoc. reflexivity.
Qed.

(** Joining the segments with ['/'] gives the ID back. *)
Lemma Split_slash_join s : String.concat "/" (strings.Split s "/") = s.
Proof. apply genSplit_slash_join. Qed.

Lemma Count_append a b c :
  strings.Count (a ++ b)%string c = strings.Count a c + strings.Count b c.
Proof.
  induction a as [|x a IH]; [reflexivity|].
  change (strings.Count (String x (a ++ b)%string) c
          = strings.Count (String x a) c + strings.Count b c).
  cbn [strings.Count]. rewrite IH. lia.
Qed.

Lemma genSplit_slash_segments cur s seg :
  strings.Count cur "/"%char = 0 ->
  In seg (strings.genSplit "/" 0 cur s) ->
  strings.Count seg "/"%char = 0.
Proof.
  revert cur. induction s as [|c s IH]; intros cur Hcur.
  - intros [<- | []]. assumption.
  - cbn [strings.genSplit String.prefix String.length Nat.sub].
    destruct (ascii_dec "/" c) as [<-|Hne].
    + replace (String.prefix "" s) with true by (destruct s; reflexivity).
      intros [<- | Hin]; [assumption|]. apply (IH ""); [reflexivity|assumption].
    + apply IH. rewrite Count_append, Hcur. cbn [strings.Count].
      destruct (Ascii.eqb_spec c "/"%char); [congruence|reflexivity].
Qed.

(** No segment holds a ['/']. *)
Lemma Split_slash_segments s seg :
  In seg (strings.Split s "/") -> strings.Count seg "/"%char = 0.
Proof. apply genSplit_slash_segments. reflexivity. Qed.

(** C1: for each of the five kinds that parse a composite ID, an ID whose
    number of ['/']-separated segments is not the kind's required count makes
    ImportState add one error diagnostic and return with the state it was
    given and with the client untouched: nothing was looked up. *)
Theorem import_wrong_segment_count c n id remote prior api :
  requiredSegments c = Some n ->
  length (strings.Split id "/") <> n ->
  exists d,
    diag.IsError d = true /\
    fwserver.ImportState c remote {| resource.ImportStateRequest.ID := id |}
      (resource.NewResponse prior) api
    = (Returned {| resource.State := prior; resource.Diagnostics := [d] |},
       api).
Proof.
  intros Hc Hlen.
  destruct c; simpl in Hc; try discriminate; injection Hc as <-;
    apply Nat.eqb_neq in Hlen;
    unfold fwserver.ImportState, environmentResource.ImportState,
      tenantResource.ImportState, resourceResource.ImportState,
      resourceActionResource.ImportState, roleResource.ImportState;
    cbn [resource.ImportStateRequest.ID]; rewrite Hlen;
    eexists; (split; [|reflexivity]); reflexivity.
Qed.

(** The specification's example: a tenant imported under a two-segment ID. *)
Lemma import_wrong_segment_count_witness :
  requiredSegments tenantC = Some 3 /\
  length (strings.Split "proj-key/env-key" "/") <> 3 /\
  exists d,
    diag.IsError d = true /\
    fwserver.ImportState tenantC sample.directory
      {| resource.ImportStateRequest.ID := "proj-key/env-key" |}
      (resource.NewResponse ∅) (fwserver.fresh sample.startContext)
    = (Returned {| resource.State := ∅; resource.Diagnostics := [d] |},
       fwserver.fresh sample.startContext).
Proof.
  split; [reflexivity|]. split; [vm_compute; lia|].
  apply (@import_wrong_segment_count tenantC 3 "proj-key/env-key").
  - reflexivity.
  - vm_compute; lia.
Defined.

(** C2: Tenant and Role import of a three-segment ID.  When the project
    named by the first segment is found with id P, and the environment named
    by the second segment is found, under the context bound to P, with id E,
    the state is the one given with exactly [project_id = P],
    [environment_id = E] and [key] = the third segment written into it, and
    there is no diagnostic.  When either lookup fails, the import returns
    one error diagnostic and the state it was given: no id is written. *)
Theorem import_resolves_parent_keys c remote id projectKey environmentKey key
    prior api :
  c = tenantC \/ c = roleC ->
  strings.Split id "/" = [projectKey; environmentKey; key] ->
  let run :=
    fwserver.ImportState c remote {| resource.ImportStateRequest.ID := id |}
      (resource.NewResponse prior) api in
  let scoped (project : models.ProjectRead.t) :=
    {| permit.Project := project.(models.ProjectRead.Id);
       permit.Environment := "" |} in
  (forall project environment,
      remote _ api.(permit.Context) (permit.Projects_Get projectKey)
        = permit.Ok project ->
      remote _ (scoped project) (permit.Environments_Get environmentKey)
        = permit.Ok environment ->
      fst run =
      Returned
        {| resource.State :=
             <["key" := tfsdk.StringV (types.StringValue key)]>
             (<["environment_id" :=
                  tfsdk.StringV (types.StringValue
                    environment.(models.EnvironmentRead.Id))]>
             (<["project_id" :=
                  tfsdk.StringV (types.StringValue
                    project.(models.ProjectRead.Id))]> prior));
           resource.Diagnostics := [] |})
  /\ ((exists err,
         remote _ api.(permit.Context) (permit.Projects_Get projectKey)
           = permit.Err err)
      \/ (exists project err,
         remote _ api.(permit.Context) (permit.Projects_Get projectKey)
           = permit.Ok project /\
         remote _ (scoped project) (permit.Environments_Get environmentKey)
           = permit.Err err) ->
      exists d,
        diag.IsError d = true /\
        fst run =
        Returned {| resource.State := prior; resource.Diagnostics := [d] |}).
Proof.
  intros Hc Hsplit run scoped. subst run scoped.
  destruct Hc as [-> | ->];
    unfold fwserver.ImportState, tenantResource.ImportState,
      roleResource.ImportState;
    cbn [resource.ImportStateRequest.ID]; rewrite Hsplit;
    cbn [length Nat.eqb negb nth];
    unfold bind, invoke, SetContext, ret;
    cbn [permit.Context permit.Sent_ fst];
    (split;
     [ intros project environment HP HE; rewrite HP;
       cbn [permit.Context]; rewrite HE; reflexivity
     | intros [[err HP] | (project & err & HP & HE)];
       [ rewrite HP | rewrite HP; cbn [permit.Context]; rewrite HE ];
       eexists; (split; [|reflexivity]); reflexivity ]).
Qed.

(** The specification's example: [proj1/env1/tenant1] resolves to [p-uuid] and
    [e-uuid]. *)
Lemma import_resolves_parent_keys_witness :
  (tenantC = tenantC \/ tenantC = roleC) /\
  strings.Split "proj1/env1/tenant1" "/" = ["proj1"; "env1"; "tenant1"] /\
  fst (fwserver.importResourceState tenantC "proj1/env1/tenant1"
         sample.directory (fwserver.fresh sample.startContext))
  = Returned
      {| resource.State :=
           <["key" := tfsdk.StringV (types.StringValue "tenant1")]>
           (<["environment_id" := tfsdk.StringV (types.StringValue "e-uuid")]>
           (<["project_id" := tfsdk.StringV (types.StringValue "p-uuid")]> ∅));
         resource.Diagnostics := [] |}.
Proof.
  split; [left; reflexivity|]. split; [reflexivity|].
  exact (proj1 (@import_resolves_parent_keys tenantC sample.directory
                  "proj1/env1/tenant1" "proj1" "env1" "tenant1" ∅
                  (fwserver.fresh sample.startContext)
                  (or_introl eq_refl) eq_refl)
           sample.proj1 sample.env1 eq_refl eq_refl).
Defined.

(** ** Mapping responses into state *)

(** Whatever the role a successful Read was answered with, the state it
    writes has a null [permissions]. *)
Lemma roleResource_Read_null_permissions remote state api resp :
  fst (fwserver.lifecycle roleC (fwserver.OpRead state) remote api)
    = Returned resp ->
  diag.HasError resp.(resource.Diagnostics) = false ->
  resp.(resource.State) !! "permissions" = Some (tfsdk.SetV types.SetNull).
Proof.
  unfold_op; decode;
    [|intros [= <-]; cbn [resource.Diagnostics]; intros HE; congruence].
  cbn -[String.eqb roleResource.ToData]. answer remote ER; deref_cases;
    cbn -[String.eqb roleResource.ToData]; intros [= <-]; try discriminate.
  intros _. reflexivity.
Qed.



(** The first revision of the project resource reads without a client
    call, and whatever the remote service holds plays no part. *)
Lemma projectResource_Read_calls_nothing remote remote' req resp api :
  snd (projectResource.Read remote req resp api) = api /\
  projectResource.Read remote req resp api
  = projectResource.Read remote' req resp api.
Proof.
  unfold projectResource.Read.
  destruct (projectResource.Get _) as [m ds].
  destruct (diag.HasError _); split; reflexivity.
Qed.

(** The second revision fetches: on the same input it writes the name the
    remote service holds. *)
Lemma projectResourceV2_Read_fetches :
  exists resp,
    fst (fwserver.lifecycle projectV2C (fwserver.OpRead sample.projectState)
           sample.renaming (fwserver.fresh sample.startContext))
    = Returned resp
    /\ resp.(resource.State) !! "name"
       = Some (tfsdk.StringV (types.StringValue "Renamed remotely")).
Proof. eexists. split; [vm_compute; reflexivity|reflexivity]. Qed.

(** C4, on the code: the project [proj1] was renamed remotely; Read of the
    project resource ([resource_project.go]) issues no call and keeps the
    prior state, old name included. *)
Theorem project_read_keeps_prior_state :
  sample.renaming _ sample.startContext (permit.Projects_Get "proj1")
  = permit.Ok sample.renamedProject
  /\ sample.renamedProject.(models.ProjectRead.Name) = "Renamed remotely"
  /\ fwserver.lifecycle projectC (fwserver.OpRead sample.projectState)
       sample.renaming (fwserver.fresh sample.startContext)
     = (Returned {| resource.State := sample.projectState;
                    resource.Diagnostics := [] |},
        fwserver.fresh sample.startContext)
  /\ sample.projectState !! "name"
     = Some (tfsdk.StringV (types.StringValue "Project One")).
Proof.
  split; [reflexivity|]. split; [reflexivity|].
  split; [vm_compute; reflexivity|reflexivity].
Qed.

(** C5: in every operation that maps the response through
    [*x.Description], a response whose description is the nil pointer makes
    the operation panic; when every response carries a description, the
    operation returns. *)
Theorem nil_description_panics c op remote ctx :
  dereferencesDescription c op = true ->
  let run := fwserver.lifecycle c op remote (fwserver.fresh ctx) in
  (forall s, In s (snd run).(permit.Sent_) ->
             answeredNilDescription remote s = true -> fst run = Panicked)
  /\ ((forall s, In s (snd run).(permit.Sent_) ->
                 answeredNilDescription remote s = false) ->
      exists resp, fst run = Returned resp).
Proof.
  intros Hd run; subst run.
  destruct c, op; try discriminate Hd; clear Hd; unfold_op; decode;
    try (split; [intros sent []|intros _; eexists; reflexivity]; fail);
    try (elements_as; [|split; [intros sent []|intros _; eexists; reflexivity]]);
    cbn -[String.eqb];
    answer remote ER; deref_cases; cbn -[String.eqb];
    (split;
     [ intros sent [<- | []]; unfold answeredNilDescription;
       cbn -[String.eqb]; rewrite ER; cbn -[String.eqb];
       first [ reflexivity | discriminate
             | match goal with H : _ = Some _ |- _ => rewrite H end;
               discriminate ]
     | intros Hall; first
         [ eexists; reflexivity
         | exfalso;
           match type of Hall with
           | forall s, ?x = s \/ False -> _ =>
               specialize (Hall x (or_introl eq_refl))
           end;
           unfold answeredNilDescription in Hall;
           cbn -[String.eqb] in Hall; rewrite ER in Hall;
           cbn -[String.eqb] in Hall;
           match goal with H : _ = None |- _ => rewrite H in Hall end;
           discriminate ] ]).
Qed.

(** A role answered without a description: Read panics. *)
Lemma nil_description_panics_witness :
  let state := roleResource.ToData (sample.roleState ["document:read"]) in
  let run :=
    fwserver.lifecycle roleC (fwserver.OpRead state) (sample.holding None)
      (fwserver.fresh sample.startContext) in
  dereferencesDescription roleC (fwserver.OpRead state) = true /\
  exists s,
    In s (snd run).(permit.Sent_) /\
    answeredNilDescription (sample.holding None) s = true /\
    fst run = Panicked.
Proof.
  cbv zeta. split; [reflexivity|].
  eexists. split; [vm_compute; left; reflexivity|]. split; [reflexivity|].
  refine (proj1 (@nil_description_panics roleC
                   (fwserver.OpRead
                      (roleResource.ToData (sample.roleState ["document:read"])))
                   (sample.holding None) sample.startContext eq_refl) _ _ _).
  - vm_compute; left; reflexivity.
  - reflexivity.
Defined.


(** ** Provider configuration *)

Lemma permitProvider_Get_ToData m :
  permitProvider.Get (permitProvider.ToData m) = (m, []).
Proof. destruct m. vm_compute. reflexivity. Qed.

(** Both sources unset or empty leave nothing to resolve. *)
Lemma resolvedKey_nothing_set fromEnv :
  fromEnv = "" ->
  resolvedKey types.StringNull fromEnv = "" /\
  resolvedKey (types.StringValue "") fromEnv = "".
Proof. intros ->. split; reflexivity. Qed.

(** C6: the API key is the configuration value when that is not null,
    whatever the environment holds, and [PERMIT_API_KEY] otherwise.
    Configure fails, with an error diagnostic and no client, exactly when the
    configuration value is unknown or the key so resolved is empty; otherwise
    it hands out one client built with that key and no diagnostic. *)
Theorem configure_api_key_precedence environ configured :
  let req :=
    {| permitProvider.ConfigureRequest.Config :=
         permitProvider.ToData {| permitProvider.ApiKey := configured |} |} in
  let resp :=
    permitProvider.Configure environ req permitProvider.NewConfigureResponse in
  let key := resolvedKey configured (os.Getenv environ "PERMIT_API_KEY") in
  (forall environ',
      types.IsNull configured = false ->
      permitProvider.Configure environ' req permitProvider.NewConfigureResponse
      = resp)
  /\ (diag.HasError resp.(permitProvider.Diagnostics) = true
      <-> configured = types.StringUnknown \/ key = "")
  /\ (diag.HasError resp.(permitProvider.Diagnostics) = true ->
      resp.(permitProvider.ResourceData) = None /\
      resp.(permitProvider.DataSourceData) = None)
  /\ (diag.HasError resp.(permitProvider.Diagnostics) = false ->
      resp.(permitProvider.ResourceData) = Some (permit.New key) /\
      resp.(permitProvider.DataSourceData) = Some (permit.New key) /\
      resp.(permitProvider.Diagnostics) = []).
Proof.
  cbv zeta. unfold permitProvider.Configure.
  cbn [permitProvider.ConfigureRequest.Config].
  rewrite permitProvider_Get_ToData.
  destruct configured as [| |s]; cbn -[String.eqb os.Getenv].
  - (* null: the environment variable decides *)
    split; [discriminate|].
    destruct (String.eqb_spec (os.Getenv environ "PERMIT_API_KEY") "") as [E|E];
      cbn -[os.Getenv]; repeat split; try discriminate; try tauto.
    intros [H|H]; [discriminate|contradiction].
  - (* unknown *)
    repeat split; try discriminate; auto.
  - (* a known value, the environment is not consulted *)
    split.
    { intros environ' _. reflexivity. }
    destruct (String.eqb_spec s "") as [E|E]; cbn;
      repeat split; try discriminate; try tauto.
    intros [H|H]; [discriminate|contradiction].
Qed.

(** A configured key wins over the environment variable. *)
Lemma configure_api_key_precedence_witness :
  types.IsNull (types.StringValue "key-from-config") = false /\
  permitProvider.Configure (<["PERMIT_API_KEY" := "key-from-env"]> ∅)
    {| permitProvider.ConfigureRequest.Config :=
         permitProvider.ToData
           {| permitProvider.ApiKey := types.StringValue "key-from-config" |} |}
    permitProvider.NewConfigureResponse
  = permitProvider.Configure ∅
      {| permitProvider.ConfigureRequest.Config :=
           permitProvider.ToData
             {| permitProvider.ApiKey := types.StringValue "key-from-config" |} |}
      permitProvider.NewConfigureResponse.
Proof.
  split; [reflexivity|].
  exact (proj1 (configure_api_key_precedence ∅
                  (types.StringValue "key-from-config"))
           (<["PERMIT_API_KEY" := "key-from-env"]> ∅) eq_refl).
Defined.

(** ** Failures of the remote service *)

(** C7: in every Create, Read, Update and Delete of every controller, a
    client call answered with an error makes the operation return with
    exactly one diagnostic, an error whose detail is the client's message,
    and with the state the response started from. *)
Theorem remote_error_all_or_nothing c op remote ctx s msg :
  In s (snd (fwserver.lifecycle c op remote (fwserver.fresh ctx))).(permit.Sent_) ->
  failedWith remote s = Some msg ->
  exists summary,
    fst (fwserver.lifecycle c op remote (fwserver.fresh ctx)) =
    Returned {| resource.State := fwserver.priorState op;
                resource.Diagnostics := [diag.NewErrorDiagnostic summary msg] |}.
Proof.
  destruct c, op; unfold_op; decode;
    try (intros []; fail);
    try (cbn; intros []; fail);
    try (elements_as; [ | intros []]);
    cbn -[String.eqb];
    answer remote ER; deref_cases; cbn -[String.eqb];
    (intros [<- | []]; unfold failedWith; cbn -[String.eqb]; rewrite ER;
     (intros [= ->] || discriminate)); eexists; reflexivity.
Qed.

(** A tenant update against a service that refuses: the prior state stays. *)
Lemma remote_error_all_or_nothing_witness :
  let op := fwserver.OpUpdate
              (tenantResource.ToData (sample.tenantState (types.StringValue "new")))
              (tenantResource.ToData (sample.tenantState types.StringNull)) in
  let run :=
    fwserver.lifecycle tenantC op (sample.refusing "503 Service Unavailable")
      (fwserver.fresh sample.startContext) in
  exists s,
    In s (snd run).(permit.Sent_) /\
    failedWith (sample.refusing "503 Service Unavailable") s
      = Some "503 Service Unavailable" /\
    exists summary,
      fst run =
      Returned
        {| resource.State :=
             tenantResource.ToData (sample.tenantState types.StringNull);
           resource.Diagnostics :=
             [diag.NewErrorDiagnostic summary "503 Service Unavailable"] |}.
Proof.
  cbv zeta.
  eexists. split; [vm_compute; left; reflexivity|]. split; [reflexivity|].
  eapply remote_error_all_or_nothing.
  - vm_compute; left; reflexivity.
  - reflexivity.
Defined.

(** ** Outgoing requests *)

Lemma GetString_insert_eq raw name v :
  tfsdk.GetString (<[name := tfsdk.StringV v]> raw) name = (v, []).
Proof. unfold tfsdk.GetString. now rewrite lookup_insert_eq. Qed.

Lemma GetString_insert_ne raw name name' x :
  name <> name' ->
  tfsdk.GetString (<[name := x]> raw) name' = tfsdk.GetString raw name'.
Proof. intros H. unfold tfsdk.GetString. now rewrite lookup_insert_ne. Qed.

Lemma GetSet_insert_ne raw name name' x :
  name <> name' ->
  tfsdk.GetSet (<[name := x]> raw) name' = tfsdk.GetSet raw name'.
Proof. intros H. unfold tfsdk.GetSet. now rewrite lookup_insert_ne. Qed.

Ltac unfold_get :=
  unfold environmentResource.Get, tenantResource.Get, resourceResource.Get,
    resourceActionResource.Get, roleResource.Get, projectResource.Get,
    projectResourceV2.Get, planString;
  cbn [resource.CreateRequest.Plan resource.UpdateRequest.Plan
       resource.ReadRequest.State resource.DeleteRequest.State].

Ltac split_fields :=
  repeat match goal with
  | |- context [tfsdk.GetString ?r ?n] => destruct (tfsdk.GetString r n)
  | |- context [tfsdk.GetSet ?r ?n] => destruct (tfsdk.GetSet r n)
  end.

Ltac split_elements :=
  match goal with
  | |- context [tfsdk.ElementsAs ?v] => destruct (tfsdk.ElementsAs v)
  end.

Ltac has_error_cases :=
  repeat match goal with
  | |- context [diag.HasError (diag.Append ?a ?b)] =>
      destruct (diag.HasError (diag.Append a b))
  end.

Ltac quiet := cbn -[String.eqb diag.Append diag.HasError].

(** C8: every create request that goes out carries the plan's key and name,
    every update request its name and nothing besides name and description;
    both carry the description exactly when its string is not empty, so
    that a null description and an empty one send the same calls. *)
Theorem outgoing_requests c remote ctx plan prior :
  (forall s,
      In s (snd (fwserver.lifecycle c (fwserver.OpCreate plan) remote
                   (fwserver.fresh ctx))).(permit.Sent_) ->
      createBody (projT2 s.(permit.call))
      = Some (planString plan "key", planString plan "name",
              outgoingDescription (planString plan "description")))
  /\ (forall s,
      In s (snd (fwserver.lifecycle c (fwserver.OpUpdate plan prior) remote
                   (fwserver.fresh ctx))).(permit.Sent_) ->
      updateBody (projT2 s.(permit.call))
      = Some (Some (planString plan "name"),
              outgoingDescription (planString plan "description"), false))
  /\ (let null := <["description" := tfsdk.StringV types.StringNull]> plan in
      let empty :=
        <["description" := tfsdk.StringV (types.StringValue "")]> plan in
      snd (fwserver.lifecycle c (fwserver.OpCreate null) remote
             (fwserver.fresh ctx))
      = snd (fwserver.lifecycle c (fwserver.OpCreate empty) remote
               (fwserver.fresh ctx))
      /\ snd (fwserver.lifecycle c (fwserver.OpUpdate null prior) remote
                (fwserver.fresh ctx))
         = snd (fwserver.lifecycle c (fwserver.OpUpdate empty prior) remote
                  (fwserver.fresh ctx))).
Proof.
  split; [|split].
  3:{ cbv zeta.
      split; destruct c; unfold_op; unfold_get;
        rewrite !GetString_insert_eq;
        rewrite ?GetString_insert_ne, ?GetSet_insert_ne by discriminate;
        split_fields; quiet; has_error_cases; quiet; try reflexivity;
        try (split_elements; quiet; has_error_cases; quiet; try reflexivity);
        answer remote ER; deref_cases; reflexivity. }
  - destruct c; unfold_op; unfold_get; split_fields; quiet;
      has_error_cases; quiet; try (intros ? []; fail);
      try (split_elements; quiet; has_error_cases; quiet;
           try (intros ? []; fail));
      answer remote ER; deref_cases; quiet; intros ? [<- | []];
      cbn -[String.eqb]; unfold outgoingDescription;
      destruct (String.eqb _ ""); reflexivity.
  - destruct c; unfold_op; unfold_get; split_fields; quiet;
      has_error_cases; quiet; try (intros ? []; fail);
      answer remote ER; deref_cases; quiet; intros ? [<- | []];
      cbn -[String.eqb]; unfold outgoingDescription;
      destruct (String.eqb _ ""); reflexivity.
Qed.

(** A tenant created with a null description: the request carries none. *)
Lemma outgoing_requests_witness :
  let plan := tenantResource.ToData (sample.tenantState types.StringNull) in
  exists s,
    In s (snd (fwserver.lifecycle tenantC (fwserver.OpCreate plan)
                 (sample.holding None)
                 (fwserver.fresh sample.startContext))).(permit.Sent_)
    /\ createBody (projT2 s.(permit.call))
       = Some ("tenant1", "Tenant One", None).
Proof.
  cbv zeta. eexists. split; [vm_compute; left; reflexivity|].
  refine (proj1 (@outgoing_requests tenantC (sample.holding None)
                   sample.startContext
                   (tenantResource.ToData (sample.tenantState types.StringNull))
                   ∅) _ _).
  vm_compute; left; reflexivity.
Defined.

(** C9: Read and Update of the tenant resource go through
    [GetDescription]; answered with a tenant whose description is the nil
    pointer, they return without a diagnostic and write the empty string as
    [description]. *)
Theorem tenant_read_update_nil_safe op remote ctx s :
  (exists state, op = fwserver.OpRead state) \/
  (exists plan prior, op = fwserver.OpUpdate plan prior) ->
  let run := fwserver.lifecycle tenantC op remote (fwserver.fresh ctx) in
  In s (snd run).(permit.Sent_) ->
  answeredNilDescription remote s = true ->
  exists resp,
    fst run = Returned resp /\
    resp.(resource.Diagnostics) = [] /\
    resp.(resource.State) !! "description"
    = Some (tfsdk.StringV (types.StringValue "")).
Proof.
  intros [[state ->] | (plan & prior & ->)] run; subst run;
    unfold_op; decode; try (intros []; fail);
    cbn -[String.eqb tenantResource.ToData];
    answer remote ER; cbn -[String.eqb tenantResource.ToData];
    intros [<- | []]; unfold answeredNilDescription;
    cbn -[String.eqb tenantResource.ToData]; rewrite ER;
    cbn -[String.eqb tenantResource.ToData]; try discriminate;
    unfold models.TenantRead.GetDescription;
    destruct (models.TenantRead.Description _); try discriminate;
    intros _; eexists; (split; [reflexivity|]); split; reflexivity.
Qed.

(** A tenant answered without a description: Read writes the empty string. *)
Lemma tenant_read_update_nil_safe_witness :
  let state := tenantResource.ToData (sample.tenantState (types.StringValue "old")) in
  let run :=
    fwserver.lifecycle tenantC (fwserver.OpRead state) (sample.holding None)
      (fwserver.fresh sample.startContext) in
  exists s,
    In s (snd run).(permit.Sent_) /\
    answeredNilDescription (sample.holding None) s = true /\
    exists resp,
      fst run = Returned resp /\
      resp.(resource.Diagnostics) = [] /\
      resp.(resource.State) !! "description"
      = Some (tfsdk.StringV (types.StringValue "")).
Proof.
  cbv zeta.
  eexists. split; [vm_compute; left; reflexivity|]. split; [reflexivity|].
  eapply (@tenant_read_update_nil_safe
            (fwserver.OpRead
               (tenantResource.ToData
                  (sample.tenantState (types.StringValue "old"))))).
  - left; eexists; reflexivity.
  - vm_compute; left; reflexivity.
  - reflexivity.
Defined.




(** * Further properties of the code *)

(** ** Import *)

Ltac unfold_import :=
  unfold fwserver.importResourceState, fwserver.ImportState,
    environmentResource.ImportState, tenantResource.ImportState,
    resourceResource.ImportState, resourceActionResource.ImportState,
    roleResource.ImportState, projectResource.ImportState,
    projectResourceV2.ImportState;
  cbn [resource.ImportStateRequest.ID].

Ltac run_import :=
  unfold bind, invoke, SetContext, ret;
  cbn [permit.Context permit.Sent_ fst snd].

(** X1: Import of an environment under a two-segment ID looks the project up
    once, under the context the client happens to have, and binds no
    context.  Found, the project's id and the second segment are written as
    [project_id] and [key]; refused, the error is reported and nothing is
    written. *)
Theorem environment_import_resolves_project remote id projectKey
    environmentKey prior api :
  strings.Split id "/" = [projectKey; environmentKey] ->
  let run :=
    environmentResource.ImportState remote
      {| resource.ImportStateRequest.ID := id |}
      (resource.NewResponse prior) api in
  snd run
  = {| permit.Context := api.(permit.Context);
       permit.Sent_ :=
         api.(permit.Sent_)
         ++ [{| permit.under := api.(permit.Context);
                permit.call := existT _ (permit.Projects_Get projectKey) |}] |}
  /\ (forall project,
        remote _ api.(permit.Context) (permit.Projects_Get projectKey)
          = permit.Ok project ->
        fst run =
        Returned
          {| resource.State :=
               <["key" := tfsdk.StringV (types.StringValue environmentKey)]>
               (<["project_id" :=
                    tfsdk.StringV (types.StringValue
                      project.(models.ProjectRead.Id))]> prior);
             resource.Diagnostics := [] |})
  /\ (forall err,
        remote _ api.(permit.Context) (permit.Projects_Get projectKey)
          = permit.Err err ->
        fst run =
        Returned
          {| resource.State := prior;
             resource.Diagnostics :=
               [diag.NewErrorDiagnostic "Unable to read project" err] |}).
Proof.
  intros Hsplit run; subst run.
  unfold environmentResource.ImportState.
  cbn [resource.ImportStateRequest.ID]. rewrite Hsplit.
  cbn [length Nat.eqb negb nth]. run_import.
  destruct (remote _ _ _) eqn:ER; cbn [fst snd].
  - split; [reflexivity|]. split; [intros ? [= <-]; reflexivity|discriminate].
  - split; [reflexivity|]. split; [discriminate|intros ? [= <-]; reflexivity].
Qed.

(** [proj1/env1] resolves to the project id [p-uuid]. *)
Lemma environment_import_resolves_project_witness :
  strings.Split "proj1/env1" "/" = ["proj1"; "env1"] /\
  fst (fwserver.importResourceState environmentC "proj1/env1"
         sample.directory (fwserver.fresh sample.startContext))
  = Returned
      {| resource.State :=
           <["key" := tfsdk.StringV (types.StringValue "env1")]>
           (<["project_id" := tfsdk.StringV (types.StringValue "p-uuid")]> ∅);
         resource.Diagnostics := [] |}.
Proof.
  split; [reflexivity|].
  exact (proj1 (proj2 (@environment_import_resolves_project sample.directory
                         "proj1/env1" "proj1" "env1" ∅
                         (fwserver.fresh sample.startContext) eq_refl))
           sample.proj1 eq_refl).
Defined.

(** X2: Import of a resource action under a four-segment ID resolves three
    parents in turn: the project under the context at hand, the environment
    under the project alone, the resource under project and environment.
    When all three are found, exactly [project_id], [environment_id],
    [resource_id] and [key] are written; when one is refused, the remaining
    lookups do not go out, the error is reported and nothing is written. *)
Theorem resource_action_import_resolves_three_parents remote id projectKey
    environmentKey resourceKey key prior ctx :
  strings.Split id "/" = [projectKey; environmentKey; resourceKey; key] ->
  let run :=
    resourceActionResource.ImportState remote
      {| resource.ImportStateRequest.ID := id |}
      (resource.NewResponse prior) (fwserver.fresh ctx) in
  let inProject (project : models.ProjectRead.t) :=
    {| permit.Project := project.(models.ProjectRead.Id);
       permit.Environment := "" |} in
  let inEnvironment (project : models.ProjectRead.t)
      (environment : models.EnvironmentRead.t) :=
    {| permit.Project := project.(models.ProjectRead.Id);
       permit.Environment := environment.(models.EnvironmentRead.Id) |} in
  let sent c (call : sigT permit.Call) :=
    {| permit.under := c; permit.call := call |} in
  match remote _ ctx (permit.Projects_Get projectKey) with
  | permit.Err err =>
      run = (Returned
               {| resource.State := prior;
                  resource.Diagnostics :=
                    [diag.NewErrorDiagnostic "Unable to read project" err] |},
             {| permit.Context := ctx;
                permit.Sent_ :=
                  [sent ctx (existT _ (permit.Projects_Get projectKey))] |})
  | permit.Ok project =>
      match remote _ (inProject project)
              (permit.Environments_Get environmentKey) with
      | permit.Err err =>
          run = (Returned
                   {| resource.State := prior;
                      resource.Diagnostics :=
                        [diag.NewErrorDiagnostic "Unable to read environment"
                           err] |},
                 {| permit.Context := inProject project;
                    permit.Sent_ :=
                      [sent ctx (existT _ (permit.Projects_Get projectKey));
                       sent (inProject project)
                         (existT _ (permit.Environments_Get environmentKey))] |})
      | permit.Ok environment =>
          let calls :=
            [sent ctx (existT _ (permit.Projects_Get projectKey));
             sent (inProject project)
               (existT _ (permit.Environments_Get environmentKey));
             sent (inEnvironment project environment)
               (existT _ (permit.Resources_Get resourceKey))] in
          match remote _ (inEnvironment project environment)
                  (permit.Resources_Get resourceKey) with
          | permit.Err err =>
              run = (Returned
                       {| resource.State := prior;
                          resource.Diagnostics :=
                            [diag.NewErrorDiagnostic "Unable to read resource"
                               err] |},
                     {| permit.Context := inEnvironment project environment;
                        permit.Sent_ := calls |})
          | permit.Ok permitResource =>
              run = (Returned
                       {| resource.State :=
                            <["key" := tfsdk.StringV (types.StringValue key)]>
                            (<["resource_id" :=
                                 tfsdk.StringV (types.StringValue
                                   permitResource.(models.ResourceRead.Id))]>
                            (<["environment_id" :=
                                 tfsdk.StringV (types.StringValue
                                   environment.(models.EnvironmentRead.Id))]>
                            (<["project_id" :=
                                 tfsdk.StringV (types.StringValue
                                   project.(models.ProjectRead.Id))]> prior)));
                          resource.Diagnostics := [] |},
                     {| permit.Context := inEnvironment project environment;
                        permit.Sent_ := calls |})
          end
      end
  end.
Proof.
  intros Hsplit. cbv zeta.
  unfold resourceActionResource.ImportState.
  cbn [resource.ImportStateRequest.ID]. rewrite Hsplit.
  cbn [length Nat.eqb negb nth]. run_import.
  unfold fwserver.fresh; cbn [permit.Context permit.Sent_ app].
  destruct (remote _ ctx _) as [project|err]; [|reflexivity].
  cbn [permit.Context permit.Sent_ app].
  destruct (remote _ _ (permit.Environments_Get _)) as [environment|err];
    [|reflexivity].
  cbn [permit.Context permit.Sent_ app].
  destruct (remote _ _ (permit.Resources_Get _)) as [permitResource|err];
    reflexivity.
Qed.

(** [proj1/env1/document/read] resolves to [p-uuid], [e-uuid] and [d-uuid]. *)
Lemma resource_action_import_resolves_three_parents_witness :
  strings.Split "proj1/env1/document/read" "/"
  = ["proj1"; "env1"; "document"; "read"] /\
  fst (fwserver.importResourceState resourceActionC "proj1/env1/document/read"
         sample.catalogue (fwserver.fresh sample.startContext))
  = Returned
      {| resource.State :=
           <["key" := tfsdk.StringV (types.StringValue "read")]>
           (<["resource_id" := tfsdk.StringV (types.StringValue "d-uuid")]>
           (<["environment_id" := tfsdk.StringV (types.StringValue "e-uuid")]>
           (<["project_id" := tfsdk.StringV (types.StringValue "p-uuid")]> ∅)));
         resource.Diagnostics := [] |}.
Proof.
  split; [reflexivity|].
  exact (f_equal fst
           (@resource_action_import_resolves_three_parents sample.catalogue
              "proj1/env1/document/read" "proj1" "env1" "document" "read" ∅
              sample.startContext eq_refl)).
Defined.

(** X3: Import of a tenant, a role or a resource under a three-segment ID:
    the project is looked up under the context at hand and the environment
    under the project alone, in that order; a refused project lookup stops
    the import before the environment lookup.  Found twice, exactly
    [project_id], [environment_id] and [key] are written, and the client is
    left bound to the project alone. *)
Theorem three_segment_import_runs_in_order c remote id projectKey
    environmentKey key prior ctx :
  c = tenantC \/ c = roleC \/ c = resourceC ->
  strings.Split id "/" = [projectKey; environmentKey; key] ->
  let run :=
    fwserver.ImportState c remote {| resource.ImportStateRequest.ID := id |}
      (resource.NewResponse prior) (fwserver.fresh ctx) in
  let inProject (project : models.ProjectRead.t) :=
    {| permit.Project := project.(models.ProjectRead.Id);
       permit.Environment := "" |} in
  let sent c (call : sigT permit.Call) :=
    {| permit.under := c; permit.call := call |} in
  match remote _ ctx (permit.Projects_Get projectKey) with
  | permit.Err err =>
      run = (Returned
               {| resource.State := prior;
                  resource.Diagnostics :=
                    [diag.NewErrorDiagnostic "Unable to read project" err] |},
             {| permit.Context := ctx;
                permit.Sent_ :=
                  [sent ctx (existT _ (permit.Projects_Get projectKey))] |})
  | permit.Ok project =>
      let calls :=
        [sent ctx (existT _ (permit.Projects_Get projectKey));
         sent (inProject project)
           (existT _ (permit.Environments_Get environmentKey))] in
      match remote _ (inProject project)
              (permit.Environments_Get environmentKey) with
      | permit.Err err =>
          run = (Returned
                   {| resource.State := prior;
                      resource.Diagnostics :=
                        [diag.NewErrorDiagnostic "Unable to read environment"
                           err] |},
                 {| permit.Context := inProject project;
                    permit.Sent_ := calls |})
      | permit.Ok environment =>
          run = (Returned
                   {| resource.State :=
                        <["key" := tfsdk.StringV (types.StringValue key)]>
                        (<["environment_id" :=
                             tfsdk.StringV (types.StringValue
                               environment.(models.EnvironmentRead.Id))]>
                        (<["project_id" :=
                             tfsdk.StringV (types.StringValue
                               project.(models.ProjectRead.Id))]> prior));
                      resource.Diagnostics := [] |},
                 {| permit.Context := inProject project;
                    permit.Sent_ := calls |})
      end
  end.
Proof.
  intros Hc Hsplit. cbv zeta.
  destruct Hc as [-> | [-> | ->]]; unfold_import; rewrite Hsplit;
    cbn [length Nat.eqb negb nth]; run_import;
    unfold fwserver.fresh; cbn [permit.Context permit.Sent_ app];
    (destruct (remote _ ctx _) as [project|err]; [|reflexivity]);
    cbn [permit.Context permit.Sent_ app];
    destruct (remote _ _ (permit.Environments_Get _)); reflexivity.
Qed.

(** [proj1/env1/document] imported as a resource: two lookups, the second
    under the project. *)
Lemma three_segment_import_runs_in_order_witness :
  (resourceC = tenantC \/ resourceC = roleC \/ resourceC = resourceC) /\
  strings.Split "proj1/env1/document" "/" = ["proj1"; "env1"; "document"] /\
  (snd (fwserver.importResourceState resourceC "proj1/env1/document"
          sample.catalogue (fwserver.fresh sample.startContext))).(permit.Sent_)
  = [{| permit.under := sample.startContext;
        permit.call := existT _ (permit.Projects_Get "proj1") |};
     {| permit.under :=
          {| permit.Project := "p-uuid"; permit.Environment := "" |};
        permit.call := existT _ (permit.Environments_Get "env1") |}].
Proof.
  split; [right; right; reflexivity|]. split; [reflexivity|].
  exact (f_equal (fun r => permit.Sent_ (snd r))
           (@three_segment_import_runs_in_order resourceC sample.catalogue
              "proj1/env1/document" "proj1" "env1" "document" ∅
              sample.startContext (or_intror (or_intror eq_refl)) eq_refl)).
Defined.

(** X4: ImportState never changes anything remotely and never retries:
    whatever the ID and the answers, every call it sends is a lookup, at
    most three go out, and the project resources send none. *)
Theorem import_only_looks_up c id remote ctx :
  let sent :=
    (snd (fwserver.importResourceState c id remote
            (fwserver.fresh ctx))).(permit.Sent_) in
  Forall (fun s => isGet (projT2 s.(permit.call)) = true) sent
  /\ length sent <= 3
  /\ match requiredSegments c with Some _ => True | None => sent = [] end.
Proof.
  cbv zeta.
  assert (Hdone : forall sent : list permit.Sent,
             sent = [] ->
             Forall (fun s => isGet (projT2 s.(permit.call)) = true) sent
             /\ length sent <= 3
             /\ match requiredSegments c with
                | Some _ => True | None => sent = [] end).
  { intros sent ->. repeat split; [constructor | cbn; lia |].
    destruct (requiredSegments c); [exact I|reflexivity]. }
  destruct c; unfold_import;
    try (apply Hdone; reflexivity);
    (destruct (negb _); [apply Hdone; reflexivity|]); clear Hdone;
    run_import; unfold fwserver.fresh; cbn [permit.Context permit.Sent_ app];
    repeat (match goal with
            | |- context [match remote ?A ?k ?c with _ => _ end] =>
                destruct (remote A k c)
            end; cbn [permit.Context permit.Sent_ app fst snd]);
    (repeat split; [repeat constructor | cbn; lia]).
Qed.

(** X5: the segment count is the only check on an import ID.  Whenever it
    matches, empty segments included, the project lookup goes out with the
    first segment as it stands. *)
Theorem import_checks_segment_count_only c n id remote ctx :
  requiredSegments c = Some n ->
  length (strings.Split id "/") = n ->
  exists rest,
    (snd (fwserver.importResourceState c id remote
            (fwserver.fresh ctx))).(permit.Sent_)
    = {| permit.under := ctx;
         permit.call :=
           existT _ (permit.Projects_Get (nth 0 (strings.Split id "/") "")) |}
      :: rest.
Proof.
  intros Hc Hlen.
  destruct c; simpl in Hc; try discriminate; injection Hc as <-;
    apply Nat.eqb_eq in Hlen; unfold_import; rewrite Hlen;
    cbn [negb]; run_import; unfold fwserver.fresh;
    cbn [permit.Context permit.Sent_ app];
    repeat (match goal with
            | |- context [match remote ?A ?k ?c with _ => _ end] =>
                destruct (remote A k c)
            end; cbn [permit.Context permit.Sent_ app fst snd]);
    eexists; reflexivity.
Qed.

(** The ID ["//"] passes for a tenant: the project with the empty key is
    looked up. *)
Lemma import_checks_segment_count_only_witness :
  requiredSegments tenantC = Some 3 /\
  length (strings.Split "//" "/") = 3 /\
  exists rest,
    (snd (fwserver.importResourceState tenantC "//" sample.directory
            (fwserver.fresh sample.startContext))).(permit.Sent_)
    = {| permit.under := sample.startContext;
         permit.call := existT _ (permit.Projects_Get "") |} :: rest.
Proof.
  split; [reflexivity|]. split; [reflexivity|].
  exact (@import_checks_segment_count_only tenantC 3 "//" sample.directory
           sample.startContext eq_refl eq_refl).
Defined.


(** Decoding data whose attribute names are all known. *)
Ltac decoded_with G d :=
  let r := eval vm_compute in (G d) in
  replace (G d) with r by (vm_compute; reflexivity).

Ltac decoded :=
  match goal with
  | |- context [environmentResource.Get ?d] => decoded_with environmentResource.Get d
  | |- context [tenantResource.Get ?d] => decoded_with tenantResource.Get d
  | |- context [resourceResource.Get ?d] => decoded_with resourceResource.Get d
  | |- context [resourceActionResource.Get ?d] =>
      decoded_with resourceActionResource.Get d
  | |- context [roleResource.Get ?d] => decoded_with roleResource.Get d
  | |- context [projectResource.Get ?d] => decoded_with projectResource.Get d
  | |- context [projectResourceV2.Get ?d] => decoded_with projectResourceV2.Get d
  end.

Ltac answered remote :=
  match goal with
  | |- context [match remote ?A ?k ?c with _ => _ end] => destruct (remote A k c)
  end.


(** [ElementsAs] with its error kept at hand. *)
Ltac elements_as_keep :=
  match goal with
  | |- context [tfsdk.ElementsAs ?v] =>
      let HP := fresh "HP" in
      pose proof (ElementsAs_cases v) as HP;
      destruct (tfsdk.ElementsAs v) as [? ?];
      simpl in HP; destruct HP as [-> | HP];
      [ | unfold resource.Append, resource.NewResponse;
          cbn [resource.Diagnostics resource.State diag.Append];
          cbn [resource.Diagnostics resource.State diag.Append] in HP;
          rewrite HP ]
  end.

(** X6: Import of a project (second revision) checks nothing and calls
    nothing: the ID is written as [key] as it stands; the Read that follows
    looks up the project with that key. *)
Theorem project_import_then_read id remote ctx ctx' :
  fwserver.importResourceState projectV2C id remote (fwserver.fresh ctx)
  = (Returned
       {| resource.State := {["key" := tfsdk.StringV (types.StringValue id)]};
          resource.Diagnostics := [] |},
     fwserver.fresh ctx)
  /\ (snd (fwserver.lifecycle projectV2C
             (fwserver.OpRead
                {["key" := tfsdk.StringV (types.StringValue id)]})
             remote (fwserver.fresh ctx'))).(permit.Sent_)
     = [{| permit.under := ctx';
           permit.call := existT _ (permit.Projects_Get id) |}].
Proof.
  split; [reflexivity|].
  unfold_op. cbn [resource.ReadRequest.State].
  decoded. cbn -[projectResourceV2.ToData].
  answered remote; [|reflexivity].
  destruct (models.ProjectRead.Description _); reflexivity.
Qed.

(** X7: Import of a project (first revision) writes the ID as [id] and
    leaves [key] null; its Read keeps that, and its Delete, which goes by
    [key], then asks for the project with the empty key to be deleted,
    whatever was imported. *)
Theorem project_import_then_delete id remote ctx ctx' ctx'' :
  let imported :=
    fst (fwserver.importResourceState projectC id remote (fwserver.fresh ctx)) in
  exists state state',
    imported
    = Returned {| resource.State := state; resource.Diagnostics := [] |}
    /\ state = {["id" := tfsdk.StringV (types.StringValue id)]}
    /\ fwserver.lifecycle projectC (fwserver.OpRead state) remote
         (fwserver.fresh ctx')
       = (Returned {| resource.State := state'; resource.Diagnostics := [] |},
          fwserver.fresh ctx')
    /\ state' !! "id" = Some (tfsdk.StringV (types.StringValue id))
    /\ state' !! "key" = Some (tfsdk.StringV types.StringNull)
    /\ (snd (fwserver.lifecycle projectC (fwserver.OpDelete state') remote
               (fwserver.fresh ctx''))).(permit.Sent_)
       = [{| permit.under := ctx'';
             permit.call := existT _ (permit.Projects_Delete "") |}].
Proof.
  cbv zeta. eexists. eexists.
  split; [reflexivity|]. split; [reflexivity|].
  split; [vm_compute; reflexivity|].
  split; [reflexivity|]. split; [reflexivity|].
  unfold_op. cbn [resource.DeleteRequest.State].
  decoded. cbn. answered remote; reflexivity.
Qed.

(** X8: Read after a successful import of a tenant, a role or a resource
    asks for the entity named by the third segment, under the project and
    the environment the import resolved. *)
Theorem read_after_import c (remote : permit.Remote) id projectKey
    environmentKey key ctx ctx' project environment :
  c = tenantC \/ c = roleC \/ c = resourceC ->
  strings.Split id "/" = [projectKey; environmentKey; key] ->
  remote _ ctx (permit.Projects_Get projectKey) = permit.Ok project ->
  remote _
    {| permit.Project := project.(models.ProjectRead.Id);
       permit.Environment := "" |}
    (permit.Environments_Get environmentKey) = permit.Ok environment ->
  exists resp s,
    fst (fwserver.importResourceState c id remote (fwserver.fresh ctx))
      = Returned resp
    /\ resp.(resource.Diagnostics) = []
    /\ (snd (fwserver.lifecycle c (fwserver.OpRead resp.(resource.State))
               remote (fwserver.fresh ctx'))).(permit.Sent_) = [s]
    /\ s.(permit.under)
       = {| permit.Project := project.(models.ProjectRead.Id);
            permit.Environment := environment.(models.EnvironmentRead.Id) |}
    /\ addressedKey (projT2 s.(permit.call)) = Some key
    /\ isGet (projT2 s.(permit.call)) = true.
Proof.
  intros Hc Hsplit HP HE.
  destruct Hc as [-> | [-> | ->]]; unfold_import; rewrite Hsplit;
    cbn [length Nat.eqb negb nth]; run_import;
    unfold fwserver.fresh; cbn [permit.Context permit.Sent_ app];
    rewrite HP; cbn [permit.Context]; rewrite HE; cbn [fst];
    eexists; eexists; (split; [reflexivity|]); (split; [reflexivity|]);
    cbn [resource.State resource.NewResponse resource.State_SetAttribute];
    unfold_op; cbn [resource.ReadRequest.State];
    decoded;
    cbn -[tenantResource.ToData roleResource.ToData resourceResource.ToData];
    answered remote;
    cbn -[tenantResource.ToData roleResource.ToData resourceResource.ToData];
    try match goal with
    | |- context [deref ?p] => destruct p
    end;
    (split; [reflexivity|]); repeat split.
Qed.

(** The specification's example, followed by Read. *)
Lemma read_after_import_witness :
  exists resp s,
    fst (fwserver.importResourceState tenantC "proj1/env1/tenant1"
           sample.directory (fwserver.fresh sample.startContext))
      = Returned resp
    /\ resp.(resource.Diagnostics) = []
    /\ (snd (fwserver.lifecycle tenantC
               (fwserver.OpRead resp.(resource.State))
               sample.directory
               (fwserver.fresh sample.startContext))).(permit.Sent_) = [s]
    /\ s.(permit.under)
       = {| permit.Project := "p-uuid"; permit.Environment := "e-uuid" |}
    /\ addressedKey (projT2 s.(permit.call)) = Some "tenant1"
    /\ isGet (projT2 s.(permit.call)) = true.
Proof.
  exact (@read_after_import tenantC sample.directory "proj1/env1/tenant1"
           "proj1" "env1" "tenant1" sample.startContext sample.startContext
           sample.proj1 sample.env1 (or_introl eq_refl) eq_refl eq_refl eq_refl).
Defined.

(** ** Lifecycle operations *)

(** X9: every call of a lifecycle operation goes out under the context made
    of the plan's (or state's) own [project_id] and [environment_id] (the
    project alone for environments, no rebinding at all for projects),
    addresses the entity by the plan's (or state's) [key] unless it creates
    it, and, for resource actions, names the [resource_id]. *)
Theorem calls_are_scoped_by_the_data c op remote ctx s :
  In s (snd (fwserver.lifecycle c op remote (fwserver.fresh ctx))).(permit.Sent_) ->
  s.(permit.under) = boundContext c (operationData op) ctx
  /\ addressedKey (projT2 s.(permit.call))
     = match op with
       | fwserver.OpCreate _ => None
       | _ => Some (planString (operationData op) "key")
       end
  /\ addressedResource (projT2 s.(permit.call))
     = match c with
       | resourceActionC => Some (planString (operationData op) "resource_id")
       | _ => None
       end.
Proof.
  destruct c, op; unfold_op; unfold_get; unfold boundContext, operationData,
    planString; split_fields; quiet; has_error_cases; quiet;
    try (intros []; fail);
    try (split_elements; quiet; has_error_cases; quiet; try (intros []; fail));
    answered remote; deref_cases; quiet; intros [<- | []];
    repeat split.
Qed.

(** A role read from state: the call is scoped to the state's project and
    environment. *)
Lemma calls_are_scoped_by_the_data_witness :
  let op := fwserver.OpRead
              (roleResource.ToData (sample.roleState ["document:read"])) in
  exists s,
    In s (snd (fwserver.lifecycle roleC op (sample.holding None)
                 (fwserver.fresh sample.startContext))).(permit.Sent_)
    /\ s.(permit.under)
       = {| permit.Project := "p-uuid"; permit.Environment := "e-uuid" |}
    /\ addressedKey (projT2 s.(permit.call)) = Some "viewer"
    /\ addressedResource (projT2 s.(permit.call)) = None.
Proof.
  cbv zeta. eexists. split; [vm_compute; left; reflexivity|].
  refine (@calls_are_scoped_by_the_data roleC
            (fwserver.OpRead
               (roleResource.ToData (sample.roleState ["document:read"])))
            (sample.holding None) sample.startContext _ _).
  vm_compute; left; reflexivity.
Defined.

(** X10: no lifecycle operation retries or chains calls: whatever the data
    and the answers, at most one call goes out. *)
Theorem lifecycle_sends_at_most_one_call c op remote ctx :
  length (snd (fwserver.lifecycle c op remote
                 (fwserver.fresh ctx))).(permit.Sent_) <= 1.
Proof.
  destruct c, op; unfold_op; unfold_get; split_fields; quiet;
    has_error_cases; quiet; try lia;
    try (split_elements; quiet; has_error_cases; quiet; try lia);
    answered remote; deref_cases; quiet; lia.
Qed.

(** X11: Delete never panics and never touches the state it was given,
    whatever the remote service answers; removing the state is left to the
    framework.  When its call was answered without an error it reports
    nothing. *)
Theorem delete_leaves_state_alone c state remote ctx :
  exists resp,
    fst (fwserver.lifecycle c (fwserver.OpDelete state) remote
           (fwserver.fresh ctx)) = Returned resp
    /\ resp.(resource.State) = state
    /\ Forall (fun s => failedWith remote s = None ->
                        resp.(resource.Diagnostics) = [])
         (snd (fwserver.lifecycle c (fwserver.OpDelete state) remote
                 (fwserver.fresh ctx))).(permit.Sent_).
Proof.
  destruct c; unfold_op; decode;
    try (eexists; split; [reflexivity|]; split; [reflexivity|constructor];
         fail);
    cbn -[String.eqb]; answer remote ER; cbn -[String.eqb];
    eexists; (split; [reflexivity|]); (split; [reflexivity|]);
    repeat constructor; unfold failedWith; cbn -[String.eqb]; rewrite ER;
    (reflexivity || discriminate).
Qed.

Ltac bad_key H :=
  match type of H with
  | ?d !! "key" = Some (tfsdk.SetV ?v) =>
      replace (tfsdk.GetString d "key")
        with (types.StringNull, [tfsdk.conversionError "key"])
        by (unfold tfsdk.GetString; rewrite H; reflexivity)
  end.

(** X12: data that cannot be decoded stops an operation before anything
    happens.  With a set where the [key] string belongs, every lifecycle
    operation returns at once with the conversion error, the state it
    started from and the client untouched. *)
Theorem undecodable_data_stops_the_operation c op remote api v :
  operationData op !! "key" = Some (tfsdk.SetV v) ->
  exists diags,
    diag.HasError diags = true /\
    fwserver.lifecycle c op remote api
    = (Returned {| resource.State := fwserver.priorState op;
                   resource.Diagnostics := diags |},
       api).
Proof.
  intros H.
  destruct c, op; cbn [operationData] in H; unfold_op; unfold_get;
    bad_key H; split_fields; quiet;
    match goal with
    | |- context [diag.HasError (diag.Append [] ?ds)] =>
        assert (HE : diag.HasError (diag.Append [] ds) = true)
          by (rewrite diag_HasError_Append; apply orb_true_iff; right;
              unfold diag.HasError; apply existsb_exists; exists (tfsdk.conversionError "key");
              split; [|reflexivity];
              repeat first [apply in_eq | apply in_or_app; right]);
        rewrite HE
    end;
    eexists; (split; [exact HE|reflexivity]).
Qed.

(** A tenant whose plan holds a set as key. *)
Lemma undecodable_data_stops_the_operation_witness :
  let plan :=
    <["key" := tfsdk.SetV (types.SetValue ["a"; "b"])]>
      (tenantResource.ToData (sample.tenantState types.StringNull)) in
  plan !! "key" = Some (tfsdk.SetV (types.SetValue ["a"; "b"])) /\
  exists diags,
    diag.HasError diags = true /\
    fwserver.lifecycle tenantC (fwserver.OpCreate plan) (sample.holding None)
      (fwserver.fresh sample.startContext)
    = (Returned {| resource.State := ∅; resource.Diagnostics := diags |},
       fwserver.fresh sample.startContext).
Proof.
  cbv zeta. split; [reflexivity|].
  exact (@undecodable_data_stops_the_operation tenantC
           (fwserver.OpCreate
              (<["key" := tfsdk.SetV (types.SetValue ["a"; "b"])]>
                 (tenantResource.ToData (sample.tenantState types.StringNull))))
           (sample.holding None) (fwserver.fresh sample.startContext)
           (types.SetValue ["a"; "b"]) eq_refl).
Defined.

(** X13: a state written from a response holds a known string in every
    string attribute, the description included, whatever the plan held. *)
Theorem written_strings_are_known c op remote ctx resp :
  writesFromResponse c op = true ->
  fst (fwserver.lifecycle c op remote (fwserver.fresh ctx)) = Returned resp ->
  diag.HasError resp.(resource.Diagnostics) = false ->
  map_Forall (fun _ v => isKnownString v = true) resp.(resource.State).
Proof.
  intros Hw.
  destruct c, op; try discriminate Hw; clear Hw; unfold_op; decode;
    try (intros [= <-]; cbn [resource.Diagnostics]; intros HE; congruence);
    try (elements_as_keep;
         [|intros [= <-]; cbn [resource.Diagnostics]; intros HE; congruence]).
  all: cbn -[String.eqb projectResource.ToData projectResourceV2.ToData
             environmentResource.ToData tenantResource.ToData
             resourceResource.ToData resourceActionResource.ToData
             roleResource.ToData];
    answer remote ER; deref_cases;
    cbn -[String.eqb projectResource.ToData projectResourceV2.ToData
          environmentResource.ToData tenantResource.ToData
          resourceResource.ToData resourceActionResource.ToData
          roleResource.ToData];
    intros [= <-]; try discriminate; intros _;
    cbn [resource.State resource.State_Set];
    unfold projectResource.ToData, projectResourceV2.ToData,
      environmentResource.ToData, tenantResource.ToData,
      resourceResource.ToData, resourceActionResource.ToData,
      roleResource.ToData;
    repeat (apply map_Forall_insert_2; [reflexivity|]);
    apply map_Forall_empty.
Qed.

(** A tenant planned without a description and answered with an empty one:
    the state holds the empty string, not null. *)
Lemma written_strings_are_known_witness :
  let op := fwserver.OpCreate
              (tenantResource.ToData (sample.tenantState types.StringNull)) in
  exists resp,
    writesFromResponse tenantC op = true /\
    fst (fwserver.lifecycle tenantC op (sample.holding (Some ""))
           (fwserver.fresh sample.startContext)) = Returned resp /\
    diag.HasError resp.(resource.Diagnostics) = false /\
    map_Forall (fun _ v => isKnownString v = true) resp.(resource.State).
Proof.
  cbv zeta. eexists. split; [reflexivity|].
  split; [vm_compute; reflexivity|]. split; [reflexivity|].
  eapply (@written_strings_are_known tenantC
            (fwserver.OpCreate
               (tenantResource.ToData (sample.tenantState types.StringNull)))
            (sample.holding (Some "")) sample.startContext).
  - reflexivity.
  - vm_compute; reflexivity.
  - reflexivity.
Defined.

Ltac opaque_cbn :=
  cbn -[String.eqb projectResource.ToData projectResourceV2.ToData
        environmentResource.ToData tenantResource.ToData
        resourceResource.ToData resourceActionResource.ToData
        roleResource.ToData].

Ltac stable_after_create L LT plan remote remote' :=
  unfold_op;
  cbn [resource.CreateRequest.Plan resource.ReadRequest.State];
  decode_with L plan;
  [ | intros [= <-]; cbn [resource.Diagnostics]; intros; congruence ];
  opaque_cbn;
  let ER := fresh "ER" in
  let ER' := fresh "ER'" in
  let HA := fresh "HA" in
  answer remote ER; deref_cases; opaque_cbn;
  intros [= <-]; try discriminate; intros _; intros [<- | []];
  opaque_cbn; rewrite LT; opaque_cbn;
  answer remote' ER'; deref_cases; opaque_cbn; intros HA;
  apply Forall_inv in HA;
  unfold answerOf in HA; cbn -[String.eqb] in HA;
  rewrite ER, ER' in HA; try discriminate HA;
  injection HA as ->;
  unfold models.TenantRead.GetDescription, models.TenantRead.GetId,
    models.TenantRead.GetOrganizationId, models.TenantRead.GetProjectId,
    models.TenantRead.GetEnvironmentId, models.TenantRead.GetKey,
    models.TenantRead.GetName;
  repeat match goal with
         | H : _ = Some _ |- _ => progress (rewrite H)
         end;
  try match goal with
      | H1 : ?p = Some ?x, H2 : ?p = Some ?y |- _ =>
          assert (y = x) by congruence; subst y
      end;
  first [ reflexivity | congruence ].

(** X14: Create followed by Read does not drift.  For every controller
    that maps responses uniformly: when Create succeeded, and the Read of
    the state it wrote is answered with the body the create call was
    answered with, Read writes that very state again and reports nothing. *)
Theorem read_after_create_is_stable c (remote remote' : permit.Remote) plan
    ctx ctx' resp created :
  mapsUniformly c = true ->
  fst (fwserver.lifecycle c (fwserver.OpCreate plan) remote (fwserver.fresh ctx))
    = Returned resp ->
  diag.HasError resp.(resource.Diagnostics) = false ->
  In created
    (snd (fwserver.lifecycle c (fwserver.OpCreate plan) remote
            (fwserver.fresh ctx))).(permit.Sent_) ->
  Forall (fun s => answerOf remote' s = answerOf remote created)
    (snd (fwserver.lifecycle c (fwserver.OpRead resp.(resource.State)) remote'
            (fwserver.fresh ctx'))).(permit.Sent_) ->
  fst (fwserver.lifecycle c (fwserver.OpRead resp.(resource.State)) remote'
         (fwserver.fresh ctx'))
  = Returned {| resource.State := resp.(resource.State);
                resource.Diagnostics := [] |}.
Proof.
  intros Hm. destruct c; try discriminate Hm; clear Hm.
  - stable_after_create projectResourceV2_Get_errors
      projectResourceV2_Get_ToData plan remote remote'.
  - stable_after_create environmentResource_Get_errors
      environmentResource_Get_ToData plan remote remote'.
  - stable_after_create tenantResource_Get_errors
      tenantResource_Get_ToData plan remote remote'.
  - stable_after_create resourceResource_Get_errors
      resourceResource_Get_ToData plan remote remote'.
  - stable_after_create resourceActionResource_Get_errors
      resourceActionResource_Get_ToData plan remote remote'.
Qed.

(** A tenant created and read back against a service that answers both
    calls with the same tenant. *)
Lemma read_after_create_is_stable_witness :
  let remote := sample.holding (Some "first tenant") in
  let plan := tenantResource.ToData (sample.tenantState types.StringNull) in
  exists resp,
    fst (fwserver.lifecycle tenantC (fwserver.OpCreate plan) remote
           (fwserver.fresh sample.startContext)) = Returned resp
    /\ diag.HasError resp.(resource.Diagnostics) = false
    /\ fst (fwserver.lifecycle tenantC
              (fwserver.OpRead resp.(resource.State)) remote
              (fwserver.fresh sample.startContext))
       = Returned {| resource.State := resp.(resource.State);
                     resource.Diagnostics := [] |}.
Proof.
  cbv zeta. eexists. split; [vm_compute; reflexivity|].
  split; [reflexivity|].
  eapply (@read_after_create_is_stable tenantC
            (sample.holding (Some "first tenant"))
            (sample.holding (Some "first tenant"))
            (tenantResource.ToData (sample.tenantState types.StringNull))
            sample.startContext sample.startContext).
  - reflexivity.
  - vm_compute; reflexivity.
  - reflexivity.
  - vm_compute; left; reflexivity.
  - vm_compute. repeat constructor.
Defined.

(** ** Data sources *)

Lemma GetString_of_strings (config : gmap string tfsdk.Value) name :
  (forall n v, config !! n = Some v -> exists sv, v = tfsdk.StringV sv) ->
  snd (tfsdk.GetString config name) = [].
Proof.
  intros H. unfold tfsdk.GetString.
  destruct (config !! name) as [[v|v]|] eqn:E; try reflexivity.
  destruct (H _ _ E) as [sv Hsv]. discriminate.
Qed.

Ltac string_fields H :=
  repeat match goal with
  | |- context [tfsdk.GetString ?r ?n] =>
      let E := fresh "E" in
      pose proof (GetString_of_strings n H) as E;
      destruct (tfsdk.GetString r n); cbn [snd] in E; subst
  end.

(** X15: on a configuration that holds strings only, Read of a data source
    does exactly what Read of the resource managing the same kind does on
    that data as state: same calls, same diagnostics, same state written. *)
Theorem data_source_read_agrees_with_resource_read d remote config resp api :
  (forall n v, config !! n = Some v -> exists sv, v = tfsdk.StringV sv) ->
  diag.HasError resp.(resource.Diagnostics) = false ->
  registry.dataSourceRead d remote {| datasource.ReadRequest.Config := config |}
    resp api
  = fwserver.Read (registry.managedBy d) remote
      {| resource.ReadRequest.State := config |} resp api.
Proof.
  intros H HE.
  destruct d; unfold registry.dataSourceRead, registry.managedBy, fwserver.Read,
    environmentDataSource.Read, projectDataSource.Read,
    environmentResource.Read, projectResourceV2.Read,
    environmentDataSource.Get, projectDataSource.Get,
    environmentResource.Get, projectResourceV2.Get;
    cbn [datasource.ReadRequest.Config resource.ReadRequest.State];
    string_fields H;
    cbn [app diag.HasError existsb resource.Append diag.Append
         resource.Diagnostics];
    unfold diag.HasError in HE; rewrite HE; reflexivity.
Qed.

(** The project data source asked for [proj1]. *)
Lemma data_source_read_agrees_with_resource_read_witness :
  let config : gmap string tfsdk.Value :=
    {["key" := tfsdk.StringV (types.StringValue "proj1")]} in
  registry.dataSourceRead projectD sample.directory
    {| datasource.ReadRequest.Config := config |}
    (resource.NewResponse ∅) (fwserver.fresh sample.startContext)
  = fwserver.Read projectV2C sample.directory
      {| resource.ReadRequest.State := config |}
      (resource.NewResponse ∅) (fwserver.fresh sample.startContext).
Proof.
  cbv zeta.
  apply (@data_source_read_agrees_with_resource_read projectD).
  - intros n v Hv. apply lookup_singleton_Some in Hv as [_ <-].
    eexists; reflexivity.
  - reflexivity.
Defined.

(** X16: Read of a data source never returns early: whatever the
    configuration, exactly one call goes out, a lookup.  Answered with an
    error, Read reports an error and leaves the state as it was; answered
    with a body without description, it panics. *)
Theorem data_source_read_always_looks_up d remote config ctx :
  let run :=
    registry.dataSourceRead d remote
      {| datasource.ReadRequest.Config := config |}
      (resource.NewResponse ∅) (fwserver.fresh ctx) in
  exists s,
    (snd run).(permit.Sent_) = [s]
    /\ isGet (projT2 s.(permit.call)) = true
    /\ match failedWith remote s with
       | Some _ =>
           exists resp,
             fst run = Returned resp
             /\ resp.(resource.State) = ∅
             /\ diag.HasError resp.(resource.Diagnostics) = true
       | None =>
           if answeredNilDescription remote s
           then fst run = Panicked
           else exists resp, fst run = Returned resp
       end.
Proof.
  cbv zeta.
  destruct d; unfold registry.dataSourceRead, environmentDataSource.Read,
    projectDataSource.Read;
    match goal with
    | |- context [environmentDataSource.Get ?c] =>
        destruct (environmentDataSource.Get c) as [m ds]
    | |- context [projectDataSource.Get ?c] =>
        destruct (projectDataSource.Get c) as [m ds]
    end;
    cbn -[diag.Append diag.AddError diag.HasError]; answer remote ER;
    deref_cases; cbn -[diag.Append diag.AddError diag.HasError];
    eexists; (split; [reflexivity|]); (split; [reflexivity|]);
    unfold failedWith, answeredNilDescription;
    cbn -[diag.Append diag.AddError diag.HasError];
    rewrite ER; cbn -[diag.Append diag.AddError diag.HasError];
    try match goal with H : _ = Some _ |- _ => rewrite H end;
    try match goal with H : _ = None |- _ => rewrite H end;
    try reflexivity; try (eexists; reflexivity).
  all: eexists; (split; [reflexivity|]); (split; [reflexivity|]);
    unfold resource.AddError; cbn [resource.Diagnostics];
    unfold diag.AddError;
    rewrite diag_HasError_Append;
    apply orb_true_iff; right; reflexivity.
Qed.

(** ** Set-up *)

(** X17: the client the provider's Configure builds is the client every
    resource and every data source ends up holding; when the provider's
    Configure failed, none of them holds a client and none of them says so.
    Provider data of another type leaves the client of a resource as it was
    without a word, while a data source reports it, naming the type. *)
Theorem provider_client_reaches_every_controller environ configured c d :
  let presp :=
    permitProvider.Configure environ
      {| permitProvider.ConfigureRequest.Config :=
           permitProvider.ToData {| permitProvider.ApiKey := configured |} |}
      permitProvider.NewConfigureResponse in
  let key := resolvedKey configured (os.Getenv environ "PERMIT_API_KEY") in
  let held :=
    if diag.HasError presp.(permitProvider.Diagnostics)
    then None else Some (permit.New key) in
  registry.Configure c
    {| resource.ConfigureRequest.ProviderData :=
         registry.providerData presp.(permitProvider.ResourceData) |} None
  = held
  /\ registry.dataSourceConfigure d
       {| datasource.ConfigureRequest.ProviderData :=
            registry.providerData presp.(permitProvider.DataSourceData) |}
       datasource.NewConfigureResponse None
     = (held, datasource.NewConfigureResponse)
  /\ (forall typeName client,
        registry.Configure c
          {| resource.ConfigureRequest.ProviderData :=
               Some (anyOther typeName) |} client
        = client
        /\ registry.dataSourceConfigure d
             {| datasource.ConfigureRequest.ProviderData :=
                  Some (anyOther typeName) |}
             datasource.NewConfigureResponse client
           = (client,
              {| datasource.Diagnostics :=
                   [diag.NewErrorDiagnostic
                      "Unexpected Data Source Configure Type"
                      ("Expected *permit.Client, got: " ++ typeName
                       ++ ". Please report this issue to the provider developers.")] |})).
Proof.
  cbv zeta. unfold permitProvider.Configure.
  cbn [permitProvider.ConfigureRequest.Config].
  replace (permitProvider.Get
             (permitProvider.ToData {| permitProvider.ApiKey := configured |}))
    with ({| permitProvider.ApiKey := configured |}, @nil diag.Diagnostic)
    by (vm_compute; reflexivity).
  split; [|split].
  3:{ intros typeName client. destruct c, d; split; reflexivity. }
  all: destruct configured as [| |s]; cbn -[String.eqb os.Getenv];
    try (destruct (String.eqb (os.Getenv environ "PERMIT_API_KEY") ""));
    try (destruct (String.eqb s ""));
    destruct c, d; reflexivity.
Qed.

Lemma append_inj_r (p a b : string) : (p ++ a)%string = (p ++ b)%string -> a = b.
Proof.
  induction p as [|x p IH]; [exact (fun H => H)|].
  intros H. change (String x (p ++ a)%string = String x (p ++ b)%string) in H.
  injection H as H. exact (IH H).
Qed.

Ltac distinct_names :=
  unfold registry.Metadata, registry.dataSourceMetadata,
    environmentResource.Metadata, projectResourceV2.Metadata,
    resourceResource.Metadata, resourceActionResource.Metadata,
    roleResource.Metadata, tenantResource.Metadata,
    environmentDataSource.Metadata, projectDataSource.Metadata;
  cbn [resource.MetadataRequest.ProviderTypeName
       datasource.MetadataRequest.ProviderTypeName];
  repeat (apply NoDup_cons_2;
          [ rewrite ?elem_of_cons, elem_of_nil; intros H;
            repeat (destruct H as [H|H]; [apply append_inj_r in H; discriminate H|]);
            exact H
          | ]);
  apply NoDup_nil_2.

(** X18: whatever the provider's type name, the six resources it registers
    get six different type names and the two data sources two; a data
    source is named like the resource that manages the same kind; under the
    provider's own name, ["permit"], they are the names the documentation
    uses. *)
Theorem type_names_are_distinct providerTypeName version :
  NoDup (map (fun c =>
                registry.Metadata c
                  {| resource.MetadataRequest.ProviderTypeName :=
                       providerTypeName |})
           registry.Resources)
  /\ NoDup (map (fun d =>
                   registry.dataSourceMetadata d
                     {| datasource.MetadataRequest.ProviderTypeName :=
                          providerTypeName |})
              registry.DataSources)
  /\ Forall (fun d =>
               registry.dataSourceMetadata d
                 {| datasource.MetadataRequest.ProviderTypeName :=
                      providerTypeName |}
               = registry.Metadata (registry.managedBy d)
                   {| resource.MetadataRequest.ProviderTypeName :=
                        providerTypeName |})
       registry.DataSources
  /\ map (fun c =>
            registry.Metadata c
              {| resource.MetadataRequest.ProviderTypeName :=
                   fst (permitProvider.Metadata version) |})
       registry.Resources
     = ["permit_environment"; "permit_project"; "permit_resource";
        "permit_resource_action"; "permit_role"; "permit_tenant"].
Proof.
  split; [|split; [|split]].
  - cbn [map registry.Resources]. distinct_names.
  - cbn [map registry.DataSources]. distinct_names.
  - repeat constructor.
  - reflexivity.
Qed.



